(** * TSCH slot operation

    A shallow embedding of [core/net/mac/tsch/tsch-slot-operation.c]:
    the timing primitives, the lock, the TX and RX sub-procedures and the
    slot executor, with the properties of the design document proved (or
    refuted on a concrete run) over the embedding.

    Conventions.
    - C integers are [Z]; a conversion to a fixed-width type is written
      out with [wrap] (unsigned) or [swrap] (signed).
    - Macros, constants and functions that live in other files of the
      tree (timer, radio, queues, schedule, framer, security, timesync)
      are parameters, collected in [Config] (compile-time macros) and
      [Platform] (run-time collaborators).
    - The file's globals and the function-level [static] variables that
      survive from one slot to the next are the fields of [World].
    - Calls that command a collaborator are appended to [calls].
    - The debugging hooks ([TSCH_DEBUG(...)], [TSCH_DEBUG_TX_EVENT()]
      and the like), which at most toggle a pin, are left out. *)

From Stdlib Require Import ZArith List Bool Lia String.
Import ListNotations.
Local Open Scope Z_scope.

(** ** Fixed-width integers *)

Definition wrap (bits x : Z) : Z := x mod 2 ^ bits.

Definition swrap (bits x : Z) : Z :=
  (x + 2 ^ (bits - 1)) mod 2 ^ bits - 2 ^ (bits - 1).

Definition u8 : Z -> Z := wrap 8.
Definition u16 : Z -> Z := wrap 16.
Definition int16 : Z -> Z := swrap 16.
Definition int32 : Z -> Z := swrap 32.

(** C truth value of an integer. *)
Definition truthy (x : Z) : bool := negb (x =? 0).

Definition of_bool (b : bool) : Z := if b then 1 else 0.

(** ** Data model *)

Definition linkaddr_t := list Z.

Definition linkaddr_cmp (a b : linkaddr_t) : bool :=
  if list_eq_dec Z.eq_dec a b then true else false.

Inductive link_type : Type :=
| LINK_TYPE_NORMAL
| LINK_TYPE_ADVERTISING
| LINK_TYPE_ADVERTISING_ONLY.

Definition link_type_eqb (a b : link_type) : bool :=
  match a, b with
  | LINK_TYPE_NORMAL, LINK_TYPE_NORMAL => true
  | LINK_TYPE_ADVERTISING, LINK_TYPE_ADVERTISING => true
  | LINK_TYPE_ADVERTISING_ONLY, LINK_TYPE_ADVERTISING_ONLY => true
  | _, _ => false
  end.

Record tsch_link : Type := {
  link_addr : linkaddr_t;
  link_options : Z;
  link_kind : link_type;
  channel_offset : Z
}.

(** A neighbor is known to this file through a pointer and three of its
    fields; [nbr_ptr] is the pointer, used where the code compares
    neighbor pointers. *)
Record tsch_neighbor : Type := {
  nbr_ptr : Z;
  nbr_addr : linkaddr_t;
  is_broadcast : bool;
  is_time_source : bool
}.

Definition same_neighbor (a b : tsch_neighbor) : bool :=
  nbr_ptr a =? nbr_ptr b.

Record queuebuf : Type := {
  qb_data : list Z;
  qb_datalen : Z;
  qb_security_level : Z;
  qb_receiver : linkaddr_t
}.

Record tsch_packet : Type := {
  qb : option queuebuf;
  transmissions : Z;
  ret : Z;
  header_len : Z;
  tsch_sync_ie_offset : Z
}.

Record input_packet : Type := {
  payload : list Z;
  len : Z;
  rx_asn : Z;
  rssi : Z;
  channel : Z
}.

Record frame802154_t : Type := {
  fcf_frame_type : Z;
  fcf_frame_version : Z;
  fcf_ack_required : Z;
  seq : Z;
  src_addr : linkaddr_t;
  security_level : Z
}.

Record ieee802154_ies : Type := {
  ie_time_correction : Z;
  ie_is_nack : Z
}.

(** Radio commands of [tsch_radio_on] and [tsch_radio_off]. *)
Inductive tsch_radio_state_on_cmd : Type :=
| TSCH_RADIO_CMD_ON_START_OF_TIMESLOT
| TSCH_RADIO_CMD_ON_WITHIN_TIMESLOT
| TSCH_RADIO_CMD_ON_FORCE.

Inductive tsch_radio_state_off_cmd : Type :=
| TSCH_RADIO_CMD_OFF_END_OF_TIMESLOT
| TSCH_RADIO_CMD_OFF_WITHIN_TIMESLOT
| TSCH_RADIO_CMD_OFF_FORCE.

(** Indices of the timing table [tsch_timing]. *)
Inductive tsch_timeslot_timing_elements : Type :=
| tsch_ts_tx_offset
| tsch_ts_rx_offset
| tsch_ts_rx_ack_delay
| tsch_ts_tx_ack_delay
| tsch_ts_rx_wait
| tsch_ts_ack_wait
| tsch_ts_max_ack
| tsch_ts_max_tx
| tsch_ts_timeslot_length.

(** Byte buffers: reading and writing one cell.  A write beyond the end
    of the modelled buffer leaves it unchanged (in C it is a write past
    the data length of the queuebuf). *)
Definition buf_get (b : list Z) (i : Z) : Z :=
  if i <? 0 then 0 else nth (Z.to_nat i) b 0.

(** Store at one index of an array; out of range the array is left as it
    is. *)
Fixpoint array_set {A : Type} (l : list A) (i : nat) (v : A) : list A :=
  match l, i with
  | [], _ => []
  | _ :: t, O => v :: t
  | h :: t, S j => h :: array_set t j v
  end.

Definition buf_set (b : list Z) (i v : Z) : list Z :=
  if i <? 0 then b else array_set b (Z.to_nat i) v.

(** ** The ring index

    Modelled from the spec: [lib/ringbufindex.c] is not among the
    sources.  A ring of power-of-two capacity with a put and a get
    index; peek-put yields the slot the next put will fill, or -1 when
    the ring is full; put commits that slot. *)
Record ringbufindex : Type := {
  mask : Z;
  put_ptr : Z;
  get_ptr : Z
}.

Definition ringbufindex_full (r : ringbufindex) : bool :=
  Z.land (put_ptr r - get_ptr r) (mask r) =? mask r.

Definition ringbufindex_peek_put (r : ringbufindex) : Z :=
  if ringbufindex_full r then -1 else put_ptr r.

Definition ringbufindex_put (r : ringbufindex) : ringbufindex :=
  if ringbufindex_full r then r
  else {| mask := mask r;
          put_ptr := Z.land (put_ptr r + 1) (mask r);
          get_ptr := get_ptr r |}.

(** ** Compile-time configuration

    Every macro the file tests with [#if] or expands, and whose
    definition is in a header outside this file. *)
Record Config : Type := {
  (* timer *)
  RTIMER_BITS : Z;                 (* width of rtimer_clock_t *)
  RTIMER_SECOND : Z;
  CONTIKI_TARGET_COOJA : bool;
  RTIMER_OK : Z;
  RTIMER_CLOCK_DIFF : Z -> Z -> Z;
  RTIMER_CLOCK_LT : Z -> Z -> bool;
  US_TO_RTIMERTICKS : Z -> Z;
  RTIMERTICKS_TO_US : Z -> Z;
  (* build switches *)
  GUARD_BEACON : bool;
  GUARD_BEACON_TIME : Z;
  GUARD_BEACON_FRAME : Z;
  CCA_ENABLED : bool;
  TS_CCA_OFFSET : Z;
  TS_CCA : Z;
  LLSEC802154_ENABLED : bool;
  TSCH_HW_FRAME_FILTERING : bool;
  TSCH_RESYNC_WITH_SFD_TIMESTAMPS : bool;
  TSCH_TIMESYNC_REMOVE_JITTER : bool;
  TSCH_TIMESYNC_MEASUREMENT_ERROR : Z;
  TSCH_RADIO_ON_DURING_TIMESLOT : bool;
  (* TSCH constants *)
  TSCH_DEFAULT_TS_RX_WAIT : Z;
  TSCH_DESYNC_THRESHOLD : Z;
  TSCH_MAC_MAX_FRAME_RETRIES : Z;
  TSCH_PACKET_MAX_LEN : Z;
  TSCH_PACKET_DURATION : Z -> Z;
  TSCH_CLOCK_TO_SLOTS : Z -> Z -> Z;
  TSCH_ASN_DIFF : Z -> Z -> Z;
  ASN_BITS : Z;
  RADIO_DELAY_BEFORE_TX : Z;
  RADIO_DELAY_BEFORE_RX : Z;
  RADIO_DELAY_BEFORE_DETECT : Z;
  (* enumerators *)
  MAC_TX_OK : Z;
  MAC_TX_COLLISION : Z;
  MAC_TX_NOACK : Z;
  MAC_TX_ERR : Z;
  MAC_TX_ERR_FATAL : Z;
  RADIO_TX_OK : Z;
  LINK_OPTION_TX : Z;
  LINK_OPTION_RX : Z;
  LINK_OPTION_SHARED : Z;
  FRAME802154_IEEE802154E_2012 : Z;
  FRAME802154_BEACONFRAME : Z;
  FRAME802154_DATAFRAME : Z;
  RADIO_PARAM_CHANNEL : Z;
  RADIO_PARAM_RX_MODE : Z;
  RADIO_PARAM_LAST_RSSI : Z;
  RADIO_PARAM_LAST_PACKET_TIMESTAMP : Z;
  RADIO_RX_MODE_ADDRESS_FILTER : Z
}.

(** ** Log records ([TSCH_LOG_ADD]) *)

Inductive log_record : Type :=
| tsch_log_message (fmt : string) (args : list Z)
| tsch_log_tx (status num_tx datalen drift drift_used is_data sec_level : Z)
    (dest : linkaddr_t)
| tsch_log_rx (src : linkaddr_t)
    (is_unicast datalen drift drift_used is_data sec_level estimated_drift : Z).

(** ** Commands sent to the collaborators

    Every call by which this file makes another part of the system do
    something.  Pure look-ups (reading the clock, polling the radio) are
    not commands. *)
Inductive call : Type :=
| RadioOn
| RadioOff
| RadioPrepare (buf : list Z) (n : Z)
| RadioTransmit (n : Z)
| RadioRead (cap : Z)
| RadioSetValue (param value : Z)
| RtimerSet (time : Z)
| PtYield
| CoojaMtYield
| QueueRemovePacketFromQueue (n : tsch_neighbor)
| QueueBackoffReset (n : tsch_neighbor)
| QueueBackoffInc (n : tsch_neighbor)
| QueueUpdateAllBackoffWindows (addr : linkaddr_t)
| TimesyncUpdate (n : option tsch_neighbor) (since_last_timesync drift : Z)
| ScheduleKeepalive
| ProcessPoll
| Disassociate
| LogAdd (r : log_record).

(** ** Run-time collaborators

    [X] is the state of everything outside this file: radio, hardware
    timer, neighbor queues, schedule, timesync filter, interrupt and
    foreground contexts.  Each operation may depend on it and change
    it. *)
Record Platform (X : Type) : Type := {
  (* globals of tsch-queue.c and linkaddr.c *)
  n_eb : tsch_neighbor;
  n_broadcast : tsch_neighbor;
  linkaddr_node_addr : linkaddr_t;
  linkaddr_null : linkaddr_t;
  (* what a command without result does to the rest of the system *)
  effect : call -> X -> X;
  (* what other contexts do to the lock flags while tsch_get_lock
     spins: (locked, lock_requested, in_slot_operation) *)
  preempt : bool * bool * bool -> X -> (bool * bool * bool) * X;
  (* rtimer *)
  rtimer_now : X -> Z * X;
  rtimer_set : Z -> X -> Z * X;
  (* NETSTACK_RADIO *)
  radio_prepare : list Z -> Z -> X -> Z * X;
  radio_transmit : Z -> X -> Z * X;
  radio_channel_clear : X -> Z * X;
  radio_receiving_packet : X -> Z * X;
  radio_pending_packet : X -> Z * X;
  radio_read : Z -> X -> (Z * list Z) * X;
  radio_get_value : Z -> X -> Z * X;
  radio_get_object : Z -> Z -> X -> Z * X;
  (* tsch-queue.c *)
  tsch_queue_get_nbr : linkaddr_t -> X -> option tsch_neighbor * X;
  tsch_queue_get_packet_for_nbr :
    option tsch_neighbor -> tsch_link -> X -> option Z * X;
  tsch_queue_get_unicast_packet_for_any :
    option tsch_neighbor -> tsch_link -> X ->
    (option Z * option tsch_neighbor) * X;
  tsch_queue_is_empty : tsch_neighbor -> X -> Z * X;
  (* tsch-schedule.c: (link, timeslot_diff, backup_link), given the
     previous contents of the two out-parameters *)
  tsch_schedule_get_next_active_link :
    Z -> Z -> option tsch_link -> X ->
    (option tsch_link * Z * option tsch_link) * X;
  (* tsch-adaptive-timesync.c *)
  tsch_timesync_adaptive_compensate : Z -> X -> Z * X;
  (* tsch-packet.c, frame802154.c: functions of the buffers *)
  tsch_packet_update_eb : list Z -> Z -> Z -> Z -> Z * list Z;
  tsch_packet_parse_eack :
    list Z -> Z -> Z -> Z * frame802154_t * ieee802154_ies * Z;
  tsch_packet_create_eack :
    Z -> linkaddr_t -> Z -> Z -> Z -> Z * list Z;
  frame802154_parse : list Z -> Z -> frame802154_t -> Z * frame802154_t;
  frame802154_check_dest_panid : frame802154_t -> Z;
  frame802154_extract_linkaddr :
    frame802154_t -> linkaddr_t -> linkaddr_t -> Z * linkaddr_t * linkaddr_t;
  (* tsch-security.c *)
  tsch_security_secure_frame : list Z -> Z -> Z -> Z -> Z * list Z;
  tsch_security_parse_frame :
    list Z -> Z -> Z -> frame802154_t -> linkaddr_t -> Z -> Z * list Z;
  tsch_security_mic_len : frame802154_t -> Z;
  (* optional TSCH_CALLBACK_DO_NACK *)
  TSCH_CALLBACK_DO_NACK :
    option (option tsch_link -> linkaddr_t -> linkaddr_t -> X -> Z * X)
}.

Arguments n_eb {X}.
Arguments n_broadcast {X}.
Arguments linkaddr_node_addr {X}.
Arguments linkaddr_null {X}.
Arguments effect {X}.
Arguments preempt {X}.
Arguments rtimer_now {X}.
Arguments rtimer_set {X}.
Arguments radio_prepare {X}.
Arguments radio_transmit {X}.
Arguments radio_channel_clear {X}.
Arguments radio_receiving_packet {X}.
Arguments radio_pending_packet {X}.
Arguments radio_read {X}.
Arguments radio_get_value {X}.
Arguments radio_get_object {X}.
Arguments tsch_queue_get_nbr {X}.
Arguments tsch_queue_get_packet_for_nbr {X}.
Arguments tsch_queue_get_unicast_packet_for_any {X}.
Arguments tsch_queue_is_empty {X}.
Arguments tsch_schedule_get_next_active_link {X}.
Arguments tsch_timesync_adaptive_compensate {X}.
Arguments tsch_packet_update_eb {X}.
Arguments tsch_packet_parse_eack {X}.
Arguments tsch_packet_create_eack {X}.
Arguments frame802154_parse {X}.
Arguments frame802154_check_dest_panid {X}.
Arguments frame802154_extract_linkaddr {X}.
Arguments tsch_security_secure_frame {X}.
Arguments tsch_security_parse_frame {X}.
Arguments tsch_security_mic_len {X}.
Arguments TSCH_CALLBACK_DO_NACK {X}.

(** ** The state of this file *)

(** Lock flags, lines 142-160. *)
Record lock_state : Type := {
  tsch_locked : bool;
  tsch_lock_requested : bool;
  tsch_in_slot_operation : bool
}.

(** Synchronisation state, lines 139-157, with [tsch_current_asn]. *)
Record sync_state : Type := {
  drift_correction : Z;
  is_drift_correction_used : bool;
  last_sync_asn : Z;
  tsch_current_asn : Z;
  current_slot_start : Z;
  last_timesource_neighbor : option tsch_neighbor
}.

(** Link, packet and neighbor of the current slot, lines 162-173.
    [current_packet] is a pointer into [packets]. *)
Record slot_binding : Type := {
  current_link : option tsch_link;
  backup_link : option tsch_link;
  current_packet : option Z;
  current_neighbor : option tsch_neighbor;
  current_channel : Z
}.

(** The two rings, lines 130-137. *)
Record ring_state : Type := {
  dequeued_ringbuf : ringbufindex;
  dequeued_array : list (option Z);
  input_ringbuf : ringbufindex;
  input_array : list input_packet
}.

(** [static] locals of [tsch_tx_slot] and [tsch_rx_slot] that are read
    before being written on some path, and so carry a value from one
    slot to the next. *)
Record slot_statics : Type := {
  mac_tx_status : Z;
  input_queue_drop : Z;
  is_gb : bool;
  is_eb : bool;
  frame_valid : bool;
  rx_header_len : Z;
  frame : frame802154_t;
  source_address : linkaddr_t;
  destination_address : linkaddr_t
}.

(** Globals of tsch.c read here. *)
Record tsch_globals : Type := {
  tsch_is_associated : bool;
  tsch_is_coordinator : bool;
  tsch_is_pan_secured : bool;
  tsch_timing : tsch_timeslot_timing_elements -> Z;
  tsch_hopping_sequence : list Z;
  tsch_hopping_sequence_length : Z
}.

Record World (X : Type) : Type := {
  locks : lock_state;
  sync : sync_state;
  binding : slot_binding;
  rings : ring_state;
  statics : slot_statics;
  tsch : tsch_globals;
  packets : Z -> tsch_packet;
  ext : X;
  calls : list call
}.

Arguments locks {X}.
Arguments sync {X}.
Arguments binding {X}.
Arguments rings {X}.
Arguments statics {X}.
Arguments tsch {X}.
Arguments packets {X}.
Arguments ext {X}.
Arguments calls {X}.

(** ** Field updates *)

Section Updates.

Context {X : Type}.

Definition with_locks (f : lock_state -> lock_state) (w : World X) : World X :=
  {| locks := f (locks w); sync := sync w; binding := binding w;
     rings := rings w; statics := statics w; tsch := tsch w;
     packets := packets w; ext := ext w; calls := calls w |}.

Definition with_sync (f : sync_state -> sync_state) (w : World X) : World X :=
  {| locks := locks w; sync := f (sync w); binding := binding w;
     rings := rings w; statics := statics w; tsch := tsch w;
     packets := packets w; ext := ext w; calls := calls w |}.

Definition with_binding (f : slot_binding -> slot_binding) (w : World X)
  : World X :=
  {| locks := locks w; sync := sync w; binding := f (binding w);
     rings := rings w; statics := statics w; tsch := tsch w;
     packets := packets w; ext := ext w; calls := calls w |}.

Definition with_rings (f : ring_state -> ring_state) (w : World X) : World X :=
  {| locks := locks w; sync := sync w; binding := binding w;
     rings := f (rings w); statics := statics w; tsch := tsch w;
     packets := packets w; ext := ext w; calls := calls w |}.

Definition with_statics (f : slot_statics -> slot_statics) (w : World X)
  : World X :=
  {| locks := locks w; sync := sync w; binding := binding w;
     rings := rings w; statics := f (statics w); tsch := tsch w;
     packets := packets w; ext := ext w; calls := calls w |}.

Definition with_tsch (f : tsch_globals -> tsch_globals) (w : World X)
  : World X :=
  {| locks := locks w; sync := sync w; binding := binding w;
     rings := rings w; statics := statics w; tsch := f (tsch w);
     packets := packets w; ext := ext w; calls := calls w |}.

Definition with_packets (f : (Z -> tsch_packet) -> Z -> tsch_packet)
  (w : World X) : World X :=
  {| locks := locks w; sync := sync w; binding := binding w;
     rings := rings w; statics := statics w; tsch := tsch w;
     packets := f (packets w); ext := ext w; calls := calls w |}.

Definition with_ext (x : X) (w : World X) : World X :=
  {| locks := locks w; sync := sync w; binding := binding w;
     rings := rings w; statics := statics w; tsch := tsch w;
     packets := packets w; ext := x; calls := calls w |}.

Definition with_call (c : call) (w : World X) : World X :=
  {| locks := locks w; sync := sync w; binding := binding w;
     rings := rings w; statics := statics w; tsch := tsch w;
     packets := packets w; ext := ext w; calls := c :: calls w |}.

End Updates.

Definition set_tsch_locked (v : bool) (l : lock_state) : lock_state :=
  {| tsch_locked := v;
     tsch_lock_requested := tsch_lock_requested l;
     tsch_in_slot_operation := tsch_in_slot_operation l |}.

Definition set_tsch_lock_requested (v : bool) (l : lock_state) : lock_state :=
  {| tsch_locked := tsch_locked l;
     tsch_lock_requested := v;
     tsch_in_slot_operation := tsch_in_slot_operation l |}.

Definition set_tsch_in_slot_operation (v : bool) (l : lock_state)
  : lock_state :=
  {| tsch_locked := tsch_locked l;
     tsch_lock_requested := tsch_lock_requested l;
     tsch_in_slot_operation := v |}.

Definition set_drift_correction (v : Z) (s : sync_state) : sync_state :=
  {| drift_correction := v;
     is_drift_correction_used := is_drift_correction_used s;
     last_sync_asn := last_sync_asn s;
     tsch_current_asn := tsch_current_asn s;
     current_slot_start := current_slot_start s;
     last_timesource_neighbor := last_timesource_neighbor s |}.

Definition set_is_drift_correction_used (v : bool) (s : sync_state)
  : sync_state :=
  {| drift_correction := drift_correction s;
     is_drift_correction_used := v;
     last_sync_asn := last_sync_asn s;
     tsch_current_asn := tsch_current_asn s;
     current_slot_start := current_slot_start s;
     last_timesource_neighbor := last_timesource_neighbor s |}.

Definition set_last_sync_asn (v : Z) (s : sync_state) : sync_state :=
  {| drift_correction := drift_correction s;
     is_drift_correction_used := is_drift_correction_used s;
     last_sync_asn := v;
     tsch_current_asn := tsch_current_asn s;
     current_slot_start := current_slot_start s;
     last_timesource_neighbor := last_timesource_neighbor s |}.

Definition set_tsch_current_asn (v : Z) (s : sync_state) : sync_state :=
  {| drift_correction := drift_correction s;
     is_drift_correction_used := is_drift_correction_used s;
     last_sync_asn := last_sync_asn s;
     tsch_current_asn := v;
     current_slot_start := current_slot_start s;
     last_timesource_neighbor := last_timesource_neighbor s |}.

Definition set_current_slot_start (v : Z) (s : sync_state) : sync_state :=
  {| drift_correction := drift_correction s;
     is_drift_correction_used := is_drift_correction_used s;
     last_sync_asn := last_sync_asn s;
     tsch_current_asn := tsch_current_asn s;
     current_slot_start := v;
     last_timesource_neighbor := last_timesource_neighbor s |}.

Definition set_last_timesource_neighbor (v : option tsch_neighbor)
  (s : sync_state) : sync_state :=
  {| drift_correction := drift_correction s;
     is_drift_correction_used := is_drift_correction_used s;
     last_sync_asn := last_sync_asn s;
     tsch_current_asn := tsch_current_asn s;
     current_slot_start := current_slot_start s;
     last_timesource_neighbor := v |}.

Definition set_current_link (v : option tsch_link) (b : slot_binding)
  : slot_binding :=
  {| current_link := v; backup_link := backup_link b;
     current_packet := current_packet b;
     current_neighbor := current_neighbor b;
     current_channel := current_channel b |}.

Definition set_backup_link (v : option tsch_link) (b : slot_binding)
  : slot_binding :=
  {| current_link := current_link b; backup_link := v;
     current_packet := current_packet b;
     current_neighbor := current_neighbor b;
     current_channel := current_channel b |}.

Definition set_current_packet (v : option Z) (b : slot_binding)
  : slot_binding :=
  {| current_link := current_link b; backup_link := backup_link b;
     current_packet := v;
     current_neighbor := current_neighbor b;
     current_channel := current_channel b |}.

Definition set_current_neighbor (v : option tsch_neighbor) (b : slot_binding)
  : slot_binding :=
  {| current_link := current_link b; backup_link := backup_link b;
     current_packet := current_packet b;
     current_neighbor := v;
     current_channel := current_channel b |}.

Definition set_current_channel (v : Z) (b : slot_binding) : slot_binding :=
  {| current_link := current_link b; backup_link := backup_link b;
     current_packet := current_packet b;
     current_neighbor := current_neighbor b;
     current_channel := v |}.

Definition set_dequeued_ringbuf (v : ringbufindex) (r : ring_state)
  : ring_state :=
  {| dequeued_ringbuf := v; dequeued_array := dequeued_array r;
     input_ringbuf := input_ringbuf r; input_array := input_array r |}.

Definition set_dequeued_array (v : list (option Z)) (r : ring_state)
  : ring_state :=
  {| dequeued_ringbuf := dequeued_ringbuf r; dequeued_array := v;
     input_ringbuf := input_ringbuf r; input_array := input_array r |}.

Definition set_input_ringbuf (v : ringbufindex) (r : ring_state)
  : ring_state :=
  {| dequeued_ringbuf := dequeued_ringbuf r;
     dequeued_array := dequeued_array r;
     input_ringbuf := v; input_array := input_array r |}.

Definition set_input_array (v : list input_packet) (r : ring_state)
  : ring_state :=
  {| dequeued_ringbuf := dequeued_ringbuf r;
     dequeued_array := dequeued_array r;
     input_ringbuf := input_ringbuf r; input_array := v |}.

Definition set_mac_tx_status (v : Z) (s : slot_statics) : slot_statics :=
  {| mac_tx_status := v; input_queue_drop := input_queue_drop s;
     is_gb := is_gb s; is_eb := is_eb s; frame_valid := frame_valid s;
     rx_header_len := rx_header_len s; frame := frame s;
     source_address := source_address s;
     destination_address := destination_address s |}.

Definition set_input_queue_drop (v : Z) (s : slot_statics) : slot_statics :=
  {| mac_tx_status := mac_tx_status s; input_queue_drop := v;
     is_gb := is_gb s; is_eb := is_eb s; frame_valid := frame_valid s;
     rx_header_len := rx_header_len s; frame := frame s;
     source_address := source_address s;
     destination_address := destination_address s |}.

Definition set_is_gb (v : bool) (s : slot_statics) : slot_statics :=
  {| mac_tx_status := mac_tx_status s;
     input_queue_drop := input_queue_drop s;
     is_gb := v; is_eb := is_eb s; frame_valid := frame_valid s;
     rx_header_len := rx_header_len s; frame := frame s;
     source_address := source_address s;
     destination_address := destination_address s |}.

Definition set_is_eb (v : bool) (s : slot_statics) : slot_statics :=
  {| mac_tx_status := mac_tx_status s;
     input_queue_drop := input_queue_drop s;
     is_gb := is_gb s; is_eb := v; frame_valid := frame_valid s;
     rx_header_len := rx_header_len s; frame := frame s;
     source_address := source_address s;
     destination_address := destination_address s |}.

Definition set_frame_valid (v : bool) (s : slot_statics) : slot_statics :=
  {| mac_tx_status := mac_tx_status s;
     input_queue_drop := input_queue_drop s;
     is_gb := is_gb s; is_eb := is_eb s; frame_valid := v;
     rx_header_len := rx_header_len s; frame := frame s;
     source_address := source_address s;
     destination_address := destination_address s |}.

Definition set_rx_header_len (v : Z) (s : slot_statics) : slot_statics :=
  {| mac_tx_status := mac_tx_status s;
     input_queue_drop := input_queue_drop s;
     is_gb := is_gb s; is_eb := is_eb s; frame_valid := frame_valid s;
     rx_header_len := v; frame := frame s;
     source_address := source_address s;
     destination_address := destination_address s |}.

Definition set_frame (v : frame802154_t) (s : slot_statics) : slot_statics :=
  {| mac_tx_status := mac_tx_status s;
     input_queue_drop := input_queue_drop s;
     is_gb := is_gb s; is_eb := is_eb s; frame_valid := frame_valid s;
     rx_header_len := rx_header_len s; frame := v;
     source_address := source_address s;
     destination_address := destination_address s |}.

Definition set_addresses (src dst : linkaddr_t) (s : slot_statics)
  : slot_statics :=
  {| mac_tx_status := mac_tx_status s;
     input_queue_drop := input_queue_drop s;
     is_gb := is_gb s; is_eb := is_eb s; frame_valid := frame_valid s;
     rx_header_len := rx_header_len s; frame := frame s;
     source_address := src;
     destination_address := dst |}.

Definition set_fcf_ack_required (v : Z) (f : frame802154_t) : frame802154_t :=
  {| fcf_frame_type := fcf_frame_type f;
     fcf_frame_version := fcf_frame_version f;
     fcf_ack_required := v;
     seq := seq f; src_addr := src_addr f;
     security_level := security_level f |}.

Definition set_tsch_is_associated (v : bool) (g : tsch_globals)
  : tsch_globals :=
  {| tsch_is_associated := v;
     tsch_is_coordinator := tsch_is_coordinator g;
     tsch_is_pan_secured := tsch_is_pan_secured g;
     tsch_timing := tsch_timing g;
     tsch_hopping_sequence := tsch_hopping_sequence g;
     tsch_hopping_sequence_length := tsch_hopping_sequence_length g |}.

Definition set_transmissions (v : Z) (p : tsch_packet) : tsch_packet :=
  {| qb := qb p; transmissions := v; ret := ret p;
     header_len := header_len p;
     tsch_sync_ie_offset := tsch_sync_ie_offset p |}.

Definition set_ret (v : Z) (p : tsch_packet) : tsch_packet :=
  {| qb := qb p; transmissions := transmissions p; ret := v;
     header_len := header_len p;
     tsch_sync_ie_offset := tsch_sync_ie_offset p |}.

Definition set_qb_data (d : list Z) (p : tsch_packet) : tsch_packet :=
  {| qb := match qb p with
           | Some q => Some {| qb_data := d; qb_datalen := qb_datalen q;
                               qb_security_level := qb_security_level q;
                               qb_receiver := qb_receiver q |}
           | None => None
           end;
     transmissions := transmissions p; ret := ret p;
     header_len := header_len p;
     tsch_sync_ie_offset := tsch_sync_ie_offset p |}.

(** Store at one address of the packet memory. *)
Definition store_packet (a : Z) (f : tsch_packet -> tsch_packet)
  (h : Z -> tsch_packet) : Z -> tsch_packet :=
  fun b => if b =? a then f (h b) else h b.

(** ** A state monad with two failures

    [OutOfFuel]: a loop did not end within the given number of rounds.
    [Fault]: the C code dereferences a null pointer. *)

Inductive outcome (W A : Type) : Type :=
| Done (a : A) (w : W)
| OutOfFuel
| Fault.

Arguments Done {W A}.
Arguments OutOfFuel {W A}.
Arguments Fault {W A}.

Definition M (X A : Type) : Type := World X -> outcome (World X) A.

Definition pure {X A : Type} (a : A) : M X A := fun w => Done a w.

Definition bind {X A B : Type} (m : M X A) (k : A -> M X B) : M X B :=
  fun w =>
    match m w with
    | Done a w' => k a w'
    | OutOfFuel => OutOfFuel
    | Fault => Fault
    end.

Declare Scope slot_scope.
Delimit Scope slot_scope with slot.

Notation "x <- m ;; k" := (bind m (fun x => k))
  (at level 61, m at next level, right associativity) : slot_scope.
Notation "m ;; k" := (bind m (fun _ => k))
  (at level 61, right associativity) : slot_scope.

Local Open Scope slot_scope.

Definition get {X : Type} : M X (World X) := fun w => Done w w.

Definition modify {X : Type} (f : World X -> World X) : M X unit :=
  fun w => Done tt (f w).

Definition out_of_fuel {X A : Type} : M X A := fun _ => OutOfFuel.

Definition fault {X A : Type} : M X A := fun _ => Fault.

Definition when {X : Type} (b : bool) (m : M X unit) : M X unit :=
  if b then m else pure tt.

(** ** The slot operation *)

Section SlotOperation.

Context {X : Type}.
Variable cfg : Config.
Variable P : Platform X.

(** A look-up answered by the rest of the system. *)
Definition query {A : Type} (f : X -> A * X) : M X A :=
  fun w => let (a, x) := f (ext w) in Done a (with_ext x w).

(** A command without result. *)
Definition command (c : call) : M X unit :=
  fun w => Done tt (with_ext (effect P c (ext w)) (with_call c w)).

(** A command with a result. *)
Definition request {A : Type} (c : call) (f : X -> A * X) : M X A :=
  fun w => let (a, x) := f (ext w) in Done a (with_ext x (with_call c w)).

Definition TSCH_LOG_ADD (r : log_record) : M X unit := command (LogAdd r).

Definition RTIMER_NOW : M X Z := query (rtimer_now P).

(** Conversion to [rtimer_clock_t]. *)
Definition rt (x : Z) : Z := wrap (RTIMER_BITS cfg) x.

(** [RTIMER_GUARD], lines 109-116. *)
Definition RTIMER_GUARD : Z :=
  if CONTIKI_TARGET_COOJA cfg then 0
  else if RTIMER_SECOND cfg >=? 200000 then RTIMER_SECOND cfg / 100000
  else 2.

(** [SYNC_IE_BOUND], line 103. *)
Definition SYNC_IE_BOUND : Z :=
  int32 (US_TO_RTIMERTICKS cfg (TSCH_DEFAULT_TS_RX_WAIT cfg / 4)).

(** *** The lock, lines 186-242 *)

Definition tsch_is_locked : M X bool :=
  w <- get ;; pure (tsch_locked (locks w)).

(** The lock flags are [volatile]: between two reads of them the
    interrupt (or a peer) may have run.  [other_contexts] is what they
    did to the flags. *)
Definition other_contexts : M X unit :=
  fun w =>
    let l := locks w in
    let '((a, b, c), x) :=
      preempt P (tsch_locked l, tsch_lock_requested l,
                 tsch_in_slot_operation l) (ext w) in
    Done tt (with_ext x (with_locks (fun _ =>
      {| tsch_locked := a; tsch_lock_requested := b;
         tsch_in_slot_operation := c |}) w)).

(** [while(tsch_in_slot_operation) { ... }], lines 208-213. *)
Fixpoint wait_end_of_slot_operation (fuel : nat) : M X unit :=
  match fuel with
  | O => out_of_fuel
  | S fuel' =>
      other_contexts ;;
      w <- get ;;
      if tsch_in_slot_operation (locks w) then
        when (CONTIKI_TARGET_COOJA cfg) (command CoojaMtYield) ;;
        wait_end_of_slot_operation fuel'
      else pure tt
  end.

(** Lines 203-215 of [tsch_get_lock]: raise the request and wait for
    the end of the current slot operation.  Yields the time spent
    waiting, when it had to wait ([busy_wait]). *)
Definition get_lock_request_and_wait (fuel : nat) : M X (option Z) :=
  (* Make sure no new slot operation will start *)
  modify (with_locks (set_tsch_lock_requested true)) ;;
  (* Wait for the end of current slot operation. *)
  other_contexts ;;
  w1 <- get ;;
  busy_wait <-
    (if tsch_in_slot_operation (locks w1) then
       t0 <- RTIMER_NOW ;;
       wait_end_of_slot_operation fuel ;;
       t1 <- RTIMER_NOW ;;
       pure (Some (rt (t1 - t0)))
     else pure None) ;;
  other_contexts ;;
  pure busy_wait.

(** Lines 216-234 of [tsch_get_lock]: take the lock if it is free. *)
Definition get_lock_take (busy_wait : option Z) : M X Z :=
  w2 <- get ;;
  if negb (tsch_locked (locks w2)) then
    (* Take the lock if it is free *)
    modify (with_locks (set_tsch_locked true)) ;;
    modify (with_locks (set_tsch_lock_requested false)) ;;
    match busy_wait with
    | Some busy_wait_time =>
        (* Issue a log whenever we had to busy wait until getting the
           lock *)
        TSCH_LOG_ADD (tsch_log_message "!get lock delay %u" [busy_wait_time])
    | None => pure tt
    end ;;
    pure 1
  else
    TSCH_LOG_ADD (tsch_log_message "!failed to lock" []) ;;
    pure 0.

(** [tsch_get_lock], lines 196-235.  The result is 1 or 0. *)
Definition tsch_get_lock (fuel : nat) : M X Z :=
  w <- get ;;
  if negb (tsch_locked (locks w)) then
    busy_wait <- get_lock_request_and_wait fuel ;;
    get_lock_take busy_wait
  else
    TSCH_LOG_ADD (tsch_log_message "!failed to lock" []) ;;
    pure 0.

(** [tsch_release_lock], lines 238-242. *)
Definition tsch_release_lock : M X unit :=
  modify (with_locks (set_tsch_locked false)).

(** *** Channel hopping, lines 248-254 *)

(** Modelled from the spec: [TSCH_ASN_MOD] of tsch-asn.h is not among
    the sources; the spec gives the channel as
    [hop_seq[(asn mod L + offset) mod L]]. *)
Definition TSCH_ASN_MOD (asn l : Z) : Z := asn mod l.

(** Modelled from the spec: [TSCH_ASN_INC] of tsch-asn.h is not among
    the sources; the ASN is a wide counter ([ASN_BITS] bits) whose
    arithmetic is modular. *)
Definition TSCH_ASN_INC (asn inc : Z) : Z := wrap (ASN_BITS cfg) (asn + inc).

(** [asn] stands for a [struct tsch_asn_t] passed by reference, a value
    of [ASN_BITS] bits that [TSCH_ASN_INC] keeps in range;
    [channel_offset] is a [uint8_t] parameter: whatever the caller
    passes (the offset of a link is 16 bits wide) is converted on
    entry. *)
Definition tsch_calculate_channel (g : tsch_globals) (asn channel_offset : Z)
  : Z :=
  let channel_offset := u8 channel_offset in
  let index_of_0 := u16 (TSCH_ASN_MOD asn (tsch_hopping_sequence_length g)) in
  let index_of_offset :=
    u16 ((index_of_0 + channel_offset) mod tsch_hopping_sequence_length g) in
  buf_get (tsch_hopping_sequence g) index_of_offset.

(** *** Timing utility functions *)

(** [check_timer_miss], lines 261-278. *)
Definition check_timer_miss (ref_time offset now : Z) : bool :=
  let target := rt (ref_time + offset) in
  let now_has_overflowed := now <? ref_time in
  let target_has_overflowed := target <? ref_time in
  if Bool.eqb now_has_overflowed target_has_overflowed then
    (* Both or none have overflowed, just compare now to the target *)
    target <=? now
  else
    (* Either now or target of overflowed.
       If it is now, then it has passed the target.
       If it is target, then we haven't reached it yet. *)
    now_has_overflowed.

(** [tsch_schedule_slot_operation], lines 283-311.  The timer and the
    tag string are left out: there is one slot-operation timer, and the
    tag is only used by the log that is commented out.  [offset] is the
    parameter, already an [rtimer_clock_t]. *)
Definition tsch_schedule_slot_operation (ref_time offset : Z) : M X bool :=
  now <- RTIMER_NOW ;;
  (* Subtract RTIMER_GUARD before checking for deadline miss *)
  let missed := check_timer_miss ref_time (rt (offset - RTIMER_GUARD)) now in
  if missed then pure false
  else
    let ref_time := rt (ref_time + offset) in
    r <- request (RtimerSet ref_time) (rtimer_set P ref_time) ;;
    if negb (r =? RTIMER_OK cfg) then pure false else pure true.

(** Modelled from the spec: [BUSYWAIT_UNTIL_ABS(cond, t0, offset)] of
    tsch-private.h is not among the sources.  A bounded busy wait: it
    polls [cond] and ends as soon as [cond] holds or the timer is no
    longer before the absolute instant [t0 + offset].  [cond] may
    update a local variable of type [L], as the CCA condition does. *)
Fixpoint BUSYWAIT_UNTIL_ABS {L : Type} (fuel : nat)
  (cond : L -> M X (bool * L)) (l : L) (t0 offset : Z) : M X L :=
  match fuel with
  | O => out_of_fuel
  | S fuel' =>
      r <- cond l ;;
      if fst r then pure (snd r)
      else
        now <- RTIMER_NOW ;;
        if RTIMER_CLOCK_LT cfg now (t0 + offset)
        then BUSYWAIT_UNTIL_ABS fuel' cond (snd r) t0 offset
        else pure (snd r)
  end.

(** [TSCH_SCHEDULE_AND_YIELD], lines 316-322.  [PT_YIELD] hands the
    processor back until the rtimer calls the protothread again; the
    slot continues from there. *)
Definition TSCH_SCHEDULE_AND_YIELD (fuel : nat) (ref_time offset : Z)
  : M X unit :=
  scheduled <- tsch_schedule_slot_operation ref_time
                 (rt (offset - RTIMER_GUARD)) ;;
  when scheduled (command PtYield) ;;
  BUSYWAIT_UNTIL_ABS fuel (fun u : unit => pure (false, u)) tt
    ref_time offset.

(** *** Link binding, lines 325-358 *)

Definition has_option (link : tsch_link) (option_mask : Z) : bool :=
  truthy (Z.land (link_options link) option_mask).

(** Returns the packet; the neighbor goes to [current_neighbor], the
    only target the file passes. *)
Definition get_packet_and_neighbor_for_link (link : tsch_link)
  : M X (option Z * option tsch_neighbor) :=
  (* Is this a Tx link? *)
  if has_option link (LINK_OPTION_TX cfg) then
    (* is it for advertisement of EB? *)
    r1 <-
      (if link_type_eqb (link_kind link) LINK_TYPE_ADVERTISING
          || link_type_eqb (link_kind link) LINK_TYPE_ADVERTISING_ONLY
       then
         (* fetch EB packets *)
         p <- query (tsch_queue_get_packet_for_nbr P (Some (n_eb P)) link) ;;
         pure (p, Some (n_eb P))
       else pure (None, None)) ;;
    if negb (link_type_eqb (link_kind link) LINK_TYPE_ADVERTISING_ONLY) then
      (* NORMAL link or no EB to send, pick a data packet *)
      match fst r1 with
      | None =>
          (* Get neighbor queue associated to the link and get packet *)
          n <- query (tsch_queue_get_nbr P (link_addr link)) ;;
          p <- query (tsch_queue_get_packet_for_nbr P n link) ;;
          let n_is_broadcast :=
            match n with
            | Some n' => same_neighbor n' (n_broadcast P)
            | None => false
            end in
          match p with
          | None =>
              if n_is_broadcast then
                (* broadcast slot without broadcast packet: any unicast *)
                r <- query (tsch_queue_get_unicast_packet_for_any P n link) ;;
                pure r
              else pure (p, n)
          | Some _ => pure (p, n)
          end
      | Some _ => pure r1
      end
    else pure r1
  else pure (None, None).

(** *** Post TX: update neighbor state, lines 361-401

    [p] is the address of the packet; the result is [in_queue]. *)
Definition update_neighbor_state (n : tsch_neighbor) (p : Z)
  (link : tsch_link) (status : Z) : M X bool :=
  let is_shared_link := Z.land (link_options link) (LINK_OPTION_SHARED cfg) in
  let is_unicast := negb (is_broadcast n) in
  if status =? MAC_TX_OK cfg then
    (* Successful transmission *)
    command (QueueRemovePacketFromQueue n) ;;
    (* Update CSMA state in the unicast case *)
    (if is_unicast then
       reset <-
         (if truthy is_shared_link then pure true
          else e <- query (tsch_queue_is_empty P n) ;; pure (truthy e)) ;;
       (* If this is a shared link, reset backoff on success.
          Otherwise, do so only is the queue is empty *)
       when reset (command (QueueBackoffReset n))
     else pure tt) ;;
    pure false
  else
    (* Failed transmission *)
    w <- get ;;
    in_queue <-
      (if transmissions (packets w p) >=? TSCH_MAC_MAX_FRAME_RETRIES cfg + 1
       then
         (* Drop packet *)
         command (QueueRemovePacketFromQueue n) ;; pure false
       else pure true) ;;
    (* Update CSMA state in the unicast case *)
    (if is_unicast then
       (* Failures on dedicated (== non-shared) leave the backoff
          window nor exponent unchanged *)
       when (truthy is_shared_link)
         (* Shared link: increment backoff exponent, pick a new window *)
         (command (QueueBackoffInc n))
     else pure tt) ;;
    pure in_queue.

(** *** The radio gate, lines 410-463 *)

Definition tsch_radio_on (cmd : tsch_radio_state_on_cmd) : M X unit :=
  let do_it :=
    match cmd with
    | TSCH_RADIO_CMD_ON_START_OF_TIMESLOT => TSCH_RADIO_ON_DURING_TIMESLOT cfg
    | TSCH_RADIO_CMD_ON_WITHIN_TIMESLOT =>
        negb (TSCH_RADIO_ON_DURING_TIMESLOT cfg)
    | TSCH_RADIO_CMD_ON_FORCE => true
    end in
  when do_it (command RadioOn).

Definition tsch_radio_off (cmd : tsch_radio_state_off_cmd) : M X unit :=
  let do_it :=
    match cmd with
    | TSCH_RADIO_CMD_OFF_END_OF_TIMESLOT => TSCH_RADIO_ON_DURING_TIMESLOT cfg
    | TSCH_RADIO_CMD_OFF_WITHIN_TIMESLOT =>
        negb (TSCH_RADIO_ON_DURING_TIMESLOT cfg)
    | TSCH_RADIO_CMD_OFF_FORCE => true
    end in
  when do_it (command RadioOff).

(** *** The TX slot, lines 465-827 *)

Definition set_status (v : Z) : M X unit :=
  modify (with_statics (set_mac_tx_status v)).

(** Polls of the radio, as C truth values. *)
Definition receiving_packet : M X bool :=
  r <- query (radio_receiving_packet P) ;; pure (truthy r).

Definition pending_packet : M X bool :=
  r <- query (radio_pending_packet P) ;; pure (truthy r).

(** The local [packet] of the TX slot points either into the queuebuf of
    the current packet or to the static [encrypted_packet]; a write
    through it reaches the queuebuf in the first case. *)
Record tx_buffer : Type := {
  tx_bytes : list Z;
  tx_in_queuebuf : bool
}.

Definition tx_poke (p : Z) (b : tx_buffer) (i v : Z) : M X tx_buffer :=
  let bytes := buf_set (tx_bytes b) i v in
  when (tx_in_queuebuf b)
    (modify (with_packets (store_packet p (set_qb_data bytes)))) ;;
  pure {| tx_bytes := bytes; tx_in_queuebuf := tx_in_queuebuf b |}.

(** [packet = queuebuf_dataptr(qb); packet_len = queuebuf_datalen(qb)] *)
Definition tx_reload (p : Z) : M X (tx_buffer * Z) :=
  w <- get ;;
  match qb (packets w p) with
  | Some q =>
      pure ({| tx_bytes := qb_data q; tx_in_queuebuf := true |},
            u8 (qb_datalen q))
  | None => fault
  end.

(** Lines 752-774: the time correction of an enhanced ACK received from
    a time source. *)
Definition tx_eack_time_correction (ack_ies : ieee802154_ies) : M X unit :=
  w <- get ;;
  let eack_time_correction :=
    int32 (US_TO_RTIMERTICKS cfg (ie_time_correction ack_ies)) in
  let since_last_timesync :=
    int32 (TSCH_ASN_DIFF cfg (tsch_current_asn (sync w))
             (last_sync_asn (sync w))) in
  (if eack_time_correction >? SYNC_IE_BOUND then
     modify (with_sync (set_drift_correction SYNC_IE_BOUND))
   else if eack_time_correction <? - SYNC_IE_BOUND then
     modify (with_sync (set_drift_correction (- SYNC_IE_BOUND)))
   else
     modify (with_sync (set_drift_correction eack_time_correction))) ;;
  (* nao corrige drift com ack, somente com EB, para possibilitar
     avaliacao do Guard Beacon *)
  modify (with_sync (set_drift_correction 0)) ;;
  w1 <- get ;;
  when (negb (drift_correction (sync w1) =? eack_time_correction))
    (TSCH_LOG_ADD (tsch_log_message "!truncated dr %d %d"
       [eack_time_correction; drift_correction (sync w1)])) ;;
  modify (with_sync (set_is_drift_correction_used true)) ;;
  command (TimesyncUpdate (current_neighbor (binding w1)) since_last_timesync
             (drift_correction (sync w1))) ;;
  (* Keep track of sync time *)
  modify (with_sync (set_last_sync_asn (tsch_current_asn (sync w1)))) ;;
  command ScheduleKeepalive.

(** Lines 724-779: what is done with the ACK frame read from the radio *)
Definition tx_process_ack (ackbuf : list Z) (ack_len seqno : Z) : M X unit :=
  w <- get ;;
  let parsed := tsch_packet_parse_eack P ackbuf ack_len seqno in
  let frame := snd (fst (fst parsed)) in
  let ack_ies := snd (fst parsed) in
  let ack_hdrlen := u8 (snd parsed) in
  (* The radio driver should return 0 if no valid packets are in the
     rx buffer *)
  r <-
    (if ack_len >? 0 then
       let is_time_source :=
         match current_neighbor (binding w) with
         | Some n => is_time_source n
         | None => false
         end in
       let ack_len1 := if fst (fst (fst parsed)) =? 0 then 0 else ack_len in
       ack_len2 <-
         (if LLSEC802154_ENABLED cfg then
            if negb (ack_len1 =? 0) then
              match current_neighbor (binding w) with
              | None => fault
              | Some n =>
                  if fst (tsch_security_parse_frame P ackbuf ack_hdrlen
                            (ack_len1 - ack_hdrlen
                             - tsch_security_mic_len P frame)
                            frame (nbr_addr n) (tsch_current_asn (sync w)))
                     =? 0
                  then
                    TSCH_LOG_ADD
                      (tsch_log_message "!failed to authenticate ACK" []) ;;
                    pure 0
                  else pure ack_len1
              end
            else
              TSCH_LOG_ADD (tsch_log_message "!failed to parse ACK" []) ;;
              pure ack_len1
          else pure ack_len1) ;;
       pure (ack_len2, is_time_source)
     else pure (ack_len, false)) ;;
  if negb (fst r =? 0) then
    when (snd r) (tx_eack_time_correction ack_ies) ;;
    set_status (MAC_TX_OK cfg)
  else
    set_status (MAC_TX_NOACK cfg).

(** Lines 683-779: unicast, the radio reported a successful
    transmission; wait for the ACK and process it. *)
Definition tx_wait_for_ack (fuel : nat) (tx_start_time tx_duration seqno : Z)
  : M X unit :=
  when (TSCH_HW_FRAME_FILTERING cfg)
    ((* Entering promiscuous mode so that the radio accepts the
        enhanced ACK *)
     radio_rx_mode <- query (radio_get_value P (RADIO_PARAM_RX_MODE cfg)) ;;
     command (RadioSetValue (RADIO_PARAM_RX_MODE cfg)
                (Z.land radio_rx_mode
                   (Z.lnot (RADIO_RX_MODE_ADDRESS_FILTER cfg))))) ;;
  (* Unicast: wait for ack after tx: sleep until ack time *)
  w <- get ;;
  let ts := tsch_timing (tsch w) in
  TSCH_SCHEDULE_AND_YIELD fuel (current_slot_start (sync w))
    (ts tsch_ts_tx_offset + tx_duration + ts tsch_ts_rx_ack_delay
     - RADIO_DELAY_BEFORE_RX cfg) ;;
  tsch_radio_on TSCH_RADIO_CMD_ON_WITHIN_TIMESLOT ;;
  (* Wait for ACK to come *)
  BUSYWAIT_UNTIL_ABS fuel
    (fun u : unit => r <- receiving_packet ;; pure (r, u)) tt
    tx_start_time
    (tx_duration + ts tsch_ts_rx_ack_delay + ts tsch_ts_ack_wait
     + RADIO_DELAY_BEFORE_DETECT cfg) ;;
  now <- RTIMER_NOW ;;
  let ack_start_time := rt (now - RADIO_DELAY_BEFORE_DETECT cfg) in
  (* Wait for ACK to finish *)
  BUSYWAIT_UNTIL_ABS fuel
    (fun u : unit => r <- receiving_packet ;; pure (negb r, u)) tt
    ack_start_time (ts tsch_ts_max_ack) ;;
  tsch_radio_off TSCH_RADIO_CMD_OFF_WITHIN_TIMESLOT ;;
  when (TSCH_HW_FRAME_FILTERING cfg)
    ((* Leaving promiscuous mode *)
     radio_rx_mode <- query (radio_get_value P (RADIO_PARAM_RX_MODE cfg)) ;;
     command (RadioSetValue (RADIO_PARAM_RX_MODE cfg)
                (Z.lor radio_rx_mode (RADIO_RX_MODE_ADDRESS_FILTER cfg)))) ;;
  (* Read ack frame *)
  ack <- request (RadioRead (TSCH_PACKET_MAX_LEN cfg))
           (radio_read P (TSCH_PACKET_MAX_LEN cfg)) ;;
  tx_process_ack (snd ack) (fst ack) seqno.

(** [if(NETSTACK_RADIO.prepare(packet, packet_len) == 0) { ... transmit
    ... }] of the guard-beacon variant; [timed] tells whether the
    transmission is bracketed by two readings of the timer. *)
Definition tx_guard_beacon_shot (timed : bool) (packet : tx_buffer)
  (packet_len : Z) : M X unit :=
  r <- request (RadioPrepare (tx_bytes packet) packet_len)
         (radio_prepare P (tx_bytes packet) packet_len) ;;
  when (r =? 0)
    (when timed (_ <- RTIMER_NOW ;; pure tt) ;;
     s <- request (RadioTransmit packet_len) (radio_transmit P packet_len) ;;
     set_status (u8 s) ;;
     when timed (_ <- RTIMER_NOW ;; pure tt)).

(** Lines 564-671: the transmission proper; yields [packet] and
    [packet_len] as they are after it. *)
Definition tx_transmit (fuel : nat) (p : Z) (broadcast : bool)
  (packet : tx_buffer) (packet_len : Z) : M X (tx_buffer * Z) :=
  w <- get ;;
  let slot_start := current_slot_start (sync w) in
  let before_tx :=
    tsch_timing (tsch w) tsch_ts_tx_offset - RADIO_DELAY_BEFORE_TX cfg in
  if negb (GUARD_BEACON cfg) || negb broadcast then
    (* delay before TX *)
    TSCH_SCHEDULE_AND_YIELD fuel slot_start before_tx ;;
    (* send packet already in radio tx buffer *)
    s <- request (RadioTransmit packet_len) (radio_transmit P packet_len) ;;
    set_status (u8 s) ;;
    pure (packet, packet_len)
  else if (packet_len <=? 1) && tsch_is_coordinator (tsch w) then
    (* a guard beacon is sent three times *)
    _ <- RTIMER_NOW ;;
    TSCH_SCHEDULE_AND_YIELD fuel slot_start
      (before_tx - GUARD_BEACON_TIME cfg) ;;
    _ <- RTIMER_NOW ;;
    let packet_len := u8 (packet_len + 1) in
    packet <- tx_poke p packet (packet_len - 1) 17 ;;
    tx_guard_beacon_shot true packet packet_len ;;
    r2 <- tx_reload p ;;
    let packet_len := u8 (snd r2 + 1) in
    packet <- tx_poke p (fst r2) (packet_len - 1) 34 ;;
    TSCH_SCHEDULE_AND_YIELD fuel slot_start before_tx ;;
    tx_guard_beacon_shot true packet packet_len ;;
    r3 <- tx_reload p ;;
    let packet_len := u8 (snd r3 + 1) in
    packet <- tx_poke p (fst r3) (packet_len - 1) 51 ;;
    TSCH_SCHEDULE_AND_YIELD fuel slot_start
      (before_tx + GUARD_BEACON_TIME cfg) ;;
    tx_guard_beacon_shot true packet packet_len ;;
    pure (packet, packet_len)
  else
    (* any other broadcast is sent once *)
    TSCH_SCHEDULE_AND_YIELD fuel slot_start before_tx ;;
    r <-
      (if packet_len <=? 1 then
         r1 <- tx_reload p ;;
         let packet_len := u8 (snd r1 + 1) in
         packet <- tx_poke p (fst r1) (packet_len - 1) 17 ;;
         pure (packet, packet_len)
       else pure (packet, packet_len)) ;;
    tx_guard_beacon_shot false (fst r) (snd r) ;;
    pure r.

(** Lines 563-786: from the transmission to the status of the
    attempt. *)
Definition tx_after_cca (fuel : nat) (p : Z) (broadcast : bool)
  (packet : tx_buffer) (packet_len seqno : Z) : M X unit :=
  r <- tx_transmit fuel p broadcast packet packet_len ;;
  w <- get ;;
  (* Save tx timestamp *)
  let tx_start_time :=
    rt (current_slot_start (sync w) + tsch_timing (tsch w) tsch_ts_tx_offset) in
  (* calculate TX duration based on sent packet len,
     limit tx_time to its max value *)
  let tx_duration :=
    Z.min (rt (TSCH_PACKET_DURATION cfg (snd r)))
      (tsch_timing (tsch w) tsch_ts_max_tx) in
  (* turn tadio off -- will turn on again to wait for ACK if needed *)
  tsch_radio_off TSCH_RADIO_CMD_OFF_WITHIN_TIMESLOT ;;
  if mac_tx_status (statics w) =? RADIO_TX_OK cfg then
    if negb broadcast then
      tx_wait_for_ack fuel tx_start_time tx_duration seqno
    else set_status (MAC_TX_OK cfg)
  else set_status (MAC_TX_ERR cfg).

(** Lines 497-787: the attempt for a packet at address [p] with a
    queuebuf. *)
Definition tx_attempt (fuel : nat) (p : Z) : M X unit :=
  (* get payload *)
  r0 <- tx_reload p ;;
  w <- get ;;
  match current_neighbor (binding w) with
  | None => fault
  | Some n =>
      (* is this a broadcast packet? (wait for ack?) *)
      let broadcast := is_broadcast n in
      (* read seqno from payload *)
      let seqno := buf_get (tx_bytes (fst r0)) 2 in
      let packet_len := snd r0 in
      (* if this is an EB, then update its Sync-IE *)
      r1 <-
        (if same_neighbor n (n_eb P) then
           let u := tsch_packet_update_eb P (tx_bytes (fst r0)) packet_len
                      (tsch_sync_ie_offset (packets w p))
                      (tsch_current_asn (sync w)) in
           modify (with_packets (store_packet p (set_qb_data (snd u)))) ;;
           pure (fst u, {| tx_bytes := snd u; tx_in_queuebuf := true |})
         else pure (1, fst r0)) ;;
      let packet_ready := fst r1 in
      r2 <-
        (if LLSEC802154_ENABLED cfg && tsch_is_pan_secured (tsch w) then
           (* If we are going to encrypt, we need to generate the output
              in a separate buffer and keep the original untouched. *)
           let with_encryption :=
             match qb (packets w p) with
             | Some q => Z.land (qb_security_level q) 4
             | None => 0
             end in
           let s := tsch_security_secure_frame P (tx_bytes (snd r1))
                      (header_len (packets w p))
                      (packet_len - header_len (packets w p))
                      (tsch_current_asn (sync w)) in
           let packet_len := u8 (packet_len + fst s) in
           if truthy with_encryption then
             pure ({| tx_bytes := snd s; tx_in_queuebuf := false |},
                   packet_len)
           else
             modify (with_packets (store_packet p (set_qb_data (snd s)))) ;;
             pure ({| tx_bytes := snd s; tx_in_queuebuf := true |},
                   packet_len)
         else pure (snd r1, packet_len)) ;;
      let packet := fst r2 in
      let packet_len := snd r2 in
      (* prepare packet to send: copy to radio buffer *)
      prepared <-
        (if truthy packet_ready then
           r <- request (RadioPrepare (tx_bytes packet) packet_len)
                  (radio_prepare P (tx_bytes packet) packet_len) ;;
           pure (r =? 0)
         else pure false) ;;
      if prepared then
        if CCA_ENABLED cfg then
          (* delay before CCA *)
          TSCH_SCHEDULE_AND_YIELD fuel (current_slot_start (sync w))
            (TS_CCA_OFFSET cfg) ;;
          tsch_radio_on TSCH_RADIO_CMD_ON_WITHIN_TIMESLOT ;;
          (* CCA *)
          cca_status <-
            BUSYWAIT_UNTIL_ABS fuel
              (fun c : Z =>
                 r <- query (radio_channel_clear P) ;;
                 let c' := u8 (Z.lor c r) in
                 pure (negb (truthy c'), c'))
              1 (current_slot_start (sync w))
              (TS_CCA_OFFSET cfg + TS_CCA cfg) ;;
          if cca_status =? 0 then set_status (MAC_TX_COLLISION cfg)
          else tx_after_cca fuel p broadcast packet packet_len seqno
        else tx_after_cca fuel p broadcast packet packet_len seqno
      else pure tt
  end.

(** Lines 790-821: the end of the slot, once the status is known. *)
Definition tx_finish (dequeued_index : Z) : M X unit :=
  tsch_radio_off TSCH_RADIO_CMD_OFF_END_OF_TIMESLOT ;;
  w <- get ;;
  match current_packet (binding w) with
  | None => fault
  | Some p =>
      let status := mac_tx_status (statics w) in
      modify (with_packets (store_packet p
        (fun k => set_transmissions (u8 (transmissions k + 1)) k))) ;;
      modify (with_packets (store_packet p (set_ret status))) ;;
      match current_neighbor (binding w), current_link (binding w) with
      | Some n, Some link =>
          (* Post TX: Update neighbor state *)
          in_queue <- update_neighbor_state n p link status ;;
          (* The packet was dequeued, add it to dequeued_ringbuf for
             later processing *)
          when (negb in_queue)
            (modify (with_rings (fun r =>
               set_dequeued_array
                 (array_set (dequeued_array r) (Z.to_nat dequeued_index)
                    (Some p)) r)) ;;
             modify (with_rings (fun r =>
               set_dequeued_ringbuf (ringbufindex_put (dequeued_ringbuf r))
                 r))) ;;
          (* Log every tx attempt *)
          w1 <- get ;;
          let k := packets w1 p in
          TSCH_LOG_ADD
            (tsch_log_tx status (transmissions k)
               (match qb k with Some q => qb_datalen q | None => 0 end)
               (RTIMERTICKS_TO_US cfg (drift_correction (sync w1)))
               (of_bool (is_drift_correction_used (sync w1)))
               (match qb k with
                | Some q =>
                    of_bool (Z.land (buf_get (qb_data q) 0) 7
                             =? FRAME802154_DATAFRAME cfg)
                | None => 0
                end)
               (match qb k with
                | Some q =>
                    if LLSEC802154_ENABLED cfg then qb_security_level q
                    else 0
                | None => 0
                end)
               (match qb k with Some q => qb_receiver q | None => [] end)) ;;
          (* Poll process for later processing of packet sent events *)
          command ProcessPoll
      | _, _ => fault
      end
  end.

(** [tsch_tx_slot], lines 465-827. *)
Definition tsch_tx_slot (fuel : nat) : M X unit :=
  w <- get ;;
  (* First check if we have space to store a newly dequeued packet (in
     case of successful Tx or Drop) *)
  let dequeued_index := ringbufindex_peek_put (dequeued_ringbuf (rings w)) in
  if negb (dequeued_index =? -1) then
    match current_packet (binding w) with
    | None => set_status (MAC_TX_ERR_FATAL cfg)
    | Some p =>
        match qb (packets w p) with
        | None => set_status (MAC_TX_ERR_FATAL cfg)
        | Some _ => tx_attempt fuel p
        end
    end ;;
    tx_finish dequeued_index
  else pure tt.

(** *** The RX slot, lines 829-1146 *)

(** [current_input] points to [input_array[input_index]]. *)
Definition current_input (w : World X) (input_index : Z) : input_packet :=
  nth (Z.to_nat input_index) (input_array (rings w))
    {| payload := []; len := 0; rx_asn := 0; rssi := 0; channel := 0 |}.

Definition set_current_input (input_index : Z)
  (f : input_packet -> input_packet) : M X unit :=
  modify (fun w =>
    with_rings (fun r =>
      set_input_array
        (array_set (input_array r) (Z.to_nat input_index)
           (f (current_input w input_index))) r) w).

(** The bytes a read of the radio leaves in a buffer: the frame, then
    what the buffer held beyond it. *)
Definition overwrite (bytes old : list Z) : list Z :=
  bytes ++ skipn (List.length bytes) old.

(** [NETSTACK_RADIO.read(current_input->payload, TSCH_PACKET_MAX_LEN)];
    the result is the length read. *)
Definition read_into_current_input (input_index : Z) : M X Z :=
  r <- request (RadioRead (TSCH_PACKET_MAX_LEN cfg))
         (radio_read P (TSCH_PACKET_MAX_LEN cfg)) ;;
  set_current_input input_index (fun i =>
    {| payload := overwrite (snd r) (payload i); len := len i;
       rx_asn := rx_asn i; rssi := rssi i; channel := channel i |}) ;;
  pure (fst r).

Definition set_current_input_len (input_index v : Z) : M X unit :=
  set_current_input input_index (fun i =>
    {| payload := payload i; len := v;
       rx_asn := rx_asn i; rssi := rssi i; channel := channel i |}).

(** [while(NETSTACK_RADIO.pending_packet()) { read }], lines 872-875. *)
Fixpoint rx_drain_radio (fuel : nat) (input_index : Z) : M X unit :=
  match fuel with
  | O => out_of_fuel
  | S fuel' =>
      pending <- pending_packet ;;
      if pending then
        _ <- read_into_current_input input_index ;;
        rx_drain_radio fuel' input_index
      else pure tt
  end.

(** [receiving_packet() || pending_packet()] *)
Definition receiving_or_pending : M X bool :=
  r <- receiving_packet ;;
  if r then pure true else pending_packet.

(** Lines 999-1010: the drift estimated from the arrival time. *)
Definition rx_estimated_drift (expected_rx_time rx_start_time : Z) : Z :=
  let estimated_drift :=
    int32 (RTIMER_CLOCK_DIFF cfg expected_rx_time rx_start_time) in
  if TSCH_TIMESYNC_REMOVE_JITTER cfg then
    (* remove jitter due to measurement errors *)
    if Z.abs estimated_drift <=? TSCH_TIMESYNC_MEASUREMENT_ERROR cfg then 0
    else if estimated_drift >? 0 then
      estimated_drift - TSCH_TIMESYNC_MEASUREMENT_ERROR cfg
    else estimated_drift + TSCH_TIMESYNC_MEASUREMENT_ERROR cfg
  else estimated_drift.

(** Lines 1019-1045: build and send the enhanced ACK if one is asked
    for. *)
Definition rx_send_ack (fuel : nat) (rx_start_time packet_duration : Z)
  (estimated_drift do_nack : Z) : M X unit :=
  w <- get ;;
  let f := frame (statics w) in
  when (truthy (fcf_ack_required f))
    ((* Build ACK frame *)
     let ack := tsch_packet_create_eack P (TSCH_PACKET_MAX_LEN cfg)
                  (source_address (statics w)) (seq f)
                  (int16 (RTIMERTICKS_TO_US cfg estimated_drift)) do_nack in
     when (fst ack >? 0)
       (let secured :=
          if LLSEC802154_ENABLED cfg && tsch_is_pan_secured (tsch w) then
            (* Secure ACK frame. There is only header and header IEs,
               therefore data len == 0. *)
            let s := tsch_security_secure_frame P (snd ack) (fst ack) 0
                       (tsch_current_asn (sync w)) in
            (fst ack + fst s, snd s)
          else ack in
        (* Copy to radio buffer *)
        _ <- request (RadioPrepare (snd secured) (fst secured))
               (radio_prepare P (snd secured) (fst secured)) ;;
        (* Wait for time to ACK and transmit ACK *)
        TSCH_SCHEDULE_AND_YIELD fuel rx_start_time
          (packet_duration + tsch_timing (tsch w) tsch_ts_tx_ack_delay
           - RADIO_DELAY_BEFORE_TX cfg) ;;
        _ <- request (RadioTransmit (fst secured))
               (radio_transmit P (fst secured)) ;;
        tsch_radio_off TSCH_RADIO_CMD_OFF_WITHIN_TIMESLOT)).

(** Lines 1056-1066 (and 1092-1104): resynchronise on the frame of a
    time source. *)
Definition rx_resynchronise (n : tsch_neighbor)
  (since_last_timesync estimated_drift : Z) : M X unit :=
  w <- get ;;
  (* Keep track of last sync time *)
  modify (with_sync (set_last_sync_asn (tsch_current_asn (sync w)))) ;;
  (* Save estimated drift *)
  modify (with_sync (set_drift_correction (- estimated_drift))) ;;
  modify (with_sync (set_is_drift_correction_used true)) ;;
  command (TimesyncUpdate (Some n) since_last_timesync (- estimated_drift)) ;;
  command ScheduleKeepalive.

(** Lines 1052-1107: use the frame for time synchronisation; yields
    the estimated drift, which the guard-beacon variant adjusts. *)
Definition rx_timesync (input_index estimated_drift : Z) : M X Z :=
  if negb (GUARD_BEACON cfg) then
    w <- get ;;
    n <- query (tsch_queue_get_nbr P (source_address (statics w))) ;;
    match n with
    | Some n' =>
        when (is_time_source n' && is_eb (statics w))
          (let since_last_timesync :=
             int32 (TSCH_ASN_DIFF cfg (tsch_current_asn (sync w))
                      (last_sync_asn (sync w))) in
           rx_resynchronise n' since_last_timesync estimated_drift)
    | None => pure tt
    end ;;
    pure estimated_drift
  else
    w <- get ;;
    let estimated_drift :=
      if is_gb (statics w) && negb (tsch_is_coordinator (tsch w)) then
        let i := current_input w input_index in
        let beaconOrder := buf_get (payload i) (len i) in
        if beaconOrder =? 17 then estimated_drift - GUARD_BEACON_TIME cfg
        else if beaconOrder =? 34 then estimated_drift
        else if beaconOrder =? 51 then estimated_drift + GUARD_BEACON_TIME cfg
        else estimated_drift
      else estimated_drift in
    n <- query (tsch_queue_get_nbr P (source_address (statics w))) ;;
    match n with
    | Some n' =>
        when (is_time_source n' && is_gb (statics w))
          (let since_last_timesync :=
             int32 (TSCH_ASN_DIFF cfg (tsch_current_asn (sync w))
                      (last_sync_asn (sync w))) in
           when (since_last_timesync >? 21)
             (rx_resynchronise n' since_last_timesync estimated_drift))
    | None => pure tt
    end ;;
    pure estimated_drift.

(** Lines 1052-1123: synchronise, commit the input slot, log. *)
Definition rx_timesync_and_commit (input_index estimated_drift : Z)
  : M X unit :=
  estimated_drift <- rx_timesync input_index estimated_drift ;;
  (* Add current input to ringbuf *)
  modify (with_rings (fun r =>
    set_input_ringbuf (ringbufindex_put (input_ringbuf r)) r)) ;;
  (* Log every reception *)
  w <- get ;;
  let f := frame (statics w) in
  TSCH_LOG_ADD
    (tsch_log_rx (src_addr f) (fcf_ack_required f)
       (len (current_input w input_index))
       (RTIMERTICKS_TO_US cfg (drift_correction (sync w)))
       (of_bool (is_drift_correction_used (sync w)))
       (of_bool (fcf_frame_type f =? FRAME802154_DATAFRAME cfg))
       (security_level f)
       (RTIMERTICKS_TO_US cfg estimated_drift)).

(** Lines 998-1123: a frame for this node or for everybody. *)
Definition rx_frame_for_us (fuel : nat) (input_index : Z)
  (expected_rx_time rx_start_time packet_duration : Z) : M X unit :=
  let estimated_drift := rx_estimated_drift expected_rx_time rx_start_time in
  w <- get ;;
  do_nack <-
    match TSCH_CALLBACK_DO_NACK P with
    | Some callback =>
        if truthy (fcf_ack_required (frame (statics w))) then
          query (callback (current_link (binding w))
                   (source_address (statics w))
                   (destination_address (statics w)))
        else pure 0
    | None => pure 0
    end ;;
  rx_send_ack fuel rx_start_time packet_duration estimated_drift do_nack ;;
  rx_timesync_and_commit input_index estimated_drift.

(** Lines 906-1128: a packet is pending in the radio after the
    reception; read it, check it and use it. *)
Definition rx_received_frame (fuel : nat) (input_index : Z)
  (expected_rx_time rx_start_time : Z) : M X unit :=
  (* Read packet *)
  n <- read_into_current_input input_index ;;
  set_current_input_len input_index n ;;
  when (GUARD_BEACON cfg)
    (w <- get ;;
     let i := current_input w input_index in
     let gb := buf_get (payload i) (len i - 2) =? GUARD_BEACON_FRAME cfg in
     modify (with_statics (set_is_gb gb)) ;;
     when gb
       (TSCH_LOG_ADD (tsch_log_message "Eh guard beacon: %d" [of_bool gb]) ;;
        TSCH_LOG_ADD (tsch_log_message "Numero do beacon: %.2X"
                        [buf_get (payload i) (len i - 1)]) ;;
        set_current_input_len input_index (len i - 1) ;;
        modify (with_statics (fun s =>
          set_frame (set_fcf_ack_required 0 (frame s)) s)))) ;;
  w1 <- get ;;
  when (negb (is_gb (statics w1)))
    (let i := current_input w1 input_index in
     let r := frame802154_parse P (payload i) (len i) (frame (statics w1)) in
     modify (with_statics (set_frame (snd r))) ;;
     modify (with_statics (set_is_eb
       (truthy (u8 (fst r))
        && (fcf_frame_version (snd r) =? FRAME802154_IEEE802154E_2012 cfg)
        && (fcf_frame_type (snd r) =? FRAME802154_BEACONFRAME cfg))))) ;;
  radio_last_rssi <- query (radio_get_value P (RADIO_PARAM_LAST_RSSI cfg)) ;;
  w2 <- get ;;
  set_current_input input_index (fun i =>
    {| payload := payload i; len := len i;
       rx_asn := tsch_current_asn (sync w2);
       rssi := int16 radio_last_rssi;
       channel := current_channel (binding w2) |}) ;;
  when (negb (is_gb (statics w2)))
    (let i := current_input w2 input_index in
     let r := frame802154_parse P (payload i) (len i) (frame (statics w2)) in
     modify (with_statics (set_rx_header_len (fst r))) ;;
     modify (with_statics (set_frame (snd r))) ;;
     if (fst r >? 0) && truthy (frame802154_check_dest_panid P (snd r)) then
       let a := frame802154_extract_linkaddr P (snd r)
                  (source_address (statics w2))
                  (destination_address (statics w2)) in
       modify (with_statics (set_addresses (snd (fst a)) (snd a))) ;;
       modify (with_statics (set_frame_valid (truthy (fst (fst a)))))
     else modify (with_statics (set_frame_valid false))) ;;
  w3 <- get ;;
  when (is_eb (statics w3))
    (TSCH_LOG_ADD (tsch_log_message "Eh beacon: %d"
                     [of_bool (is_eb (statics w3))])) ;;
  (* At the end of the reception, get an more accurate estimate of SFD
     arrival time *)
  rx_start_time <-
    (if TSCH_RESYNC_WITH_SFD_TIMESTAMPS cfg then
       query (radio_get_object P (RADIO_PARAM_LAST_PACKET_TIMESTAMP cfg)
                rx_start_time)
     else pure rx_start_time) ;;
  w4 <- get ;;
  let packet_duration :=
    rt (TSCH_PACKET_DURATION cfg (len (current_input w4 input_index))) in
  when (LLSEC802154_ENABLED cfg)
    ((* Decrypt and verify incoming frame *)
     let i := current_input w4 input_index in
     let s := statics w4 in
     if frame_valid s then
       let mic := tsch_security_mic_len P (frame s) in
       let r := tsch_security_parse_frame P (payload i) (rx_header_len s)
                  (len i - rx_header_len s - mic) (frame s)
                  (source_address s) (tsch_current_asn (sync w4)) in
       if truthy (fst r) then
         set_current_input input_index (fun i =>
           {| payload := snd r; len := len i - mic;
              rx_asn := rx_asn i; rssi := rssi i; channel := channel i |})
       else
         TSCH_LOG_ADD (tsch_log_message "!failed to authenticate frame %u"
                         [len i]) ;;
         modify (with_statics (set_frame_valid false))
     else
       TSCH_LOG_ADD (tsch_log_message "!failed to parse frame %u %u"
                       [rx_header_len s; len i]) ;;
       modify (with_statics (set_frame_valid false))) ;;
  w5 <- get ;;
  when (frame_valid (statics w5) || is_gb (statics w5))
    (when (linkaddr_cmp (destination_address (statics w5))
             (linkaddr_node_addr P)
           || linkaddr_cmp (destination_address (statics w5))
                (linkaddr_null P))
       (rx_frame_for_us fuel input_index expected_rx_time rx_start_time
          packet_duration) ;;
     (* Poll process for processing of pending input and logs *)
     command ProcessPoll).

(** [tsch_rx_slot], lines 829-1146. *)
Definition tsch_rx_slot (fuel : nat) : M X unit :=
  w <- get ;;
  let input_index := int16 (ringbufindex_peek_put (input_ringbuf (rings w))) in
  if input_index =? -1 then
    modify (with_statics (fun s =>
      set_input_queue_drop (input_queue_drop s + 1) s))
  else
    let slot_start := current_slot_start (sync w) in
    let ts := tsch_timing (tsch w) in
    let expected_rx_time := rt (slot_start + ts tsch_ts_tx_offset) in
    rx_drain_radio fuel input_index ;;
    (* Wait before starting to listen *)
    TSCH_SCHEDULE_AND_YIELD fuel slot_start
      (ts tsch_ts_rx_offset - RADIO_DELAY_BEFORE_RX cfg) ;;
    (* Start radio for at least guard time *)
    tsch_radio_on TSCH_RADIO_CMD_ON_WITHIN_TIMESLOT ;;
    seen0 <- receiving_or_pending ;;
    packet_seen <-
      (if negb seen0 then
         (* Check if receiving within guard time *)
         BUSYWAIT_UNTIL_ABS fuel
           (fun u : unit => r <- receiving_packet ;; pure (r, u)) tt
           slot_start
           (ts tsch_ts_rx_offset + ts tsch_ts_rx_wait
            + RADIO_DELAY_BEFORE_DETECT cfg) ;;
         receiving_or_pending
       else pure seen0) ;;
    (if negb packet_seen then
       (* no packets on air *)
       tsch_radio_off TSCH_RADIO_CMD_OFF_FORCE
     else
       (* Save packet timestamp *)
       now <- RTIMER_NOW ;;
       let rx_start_time := rt (now - RADIO_DELAY_BEFORE_DETECT cfg) in
       (* Wait until packet is received, turn radio off *)
       BUSYWAIT_UNTIL_ABS fuel
         (fun u : unit => r <- receiving_packet ;; pure (negb r, u)) tt
         slot_start
         (ts tsch_ts_rx_offset + ts tsch_ts_rx_wait + ts tsch_ts_max_tx) ;;
       tsch_radio_off TSCH_RADIO_CMD_OFF_WITHIN_TIMESLOT ;;
       pending <- pending_packet ;;
       when pending
         (rx_received_frame fuel input_index expected_rx_time rx_start_time) ;;
       tsch_radio_off TSCH_RADIO_CMD_OFF_END_OF_TIMESLOT) ;;
    w1 <- get ;;
    when (negb (input_queue_drop (statics w1) =? 0))
      (TSCH_LOG_ADD (tsch_log_message "!queue full skipped %u"
                       [input_queue_drop (statics w1)]) ;;
       modify (with_statics (set_input_queue_drop 0))).

(** *** The slot executor, lines 1148-1272 *)

(** Modelled from the spec: [tsch_disassociate] of tsch.c is not among
    the sources; after it the node is no longer associated and the
    executor terminates at its next loop test. *)
Definition tsch_disassociate : M X unit :=
  command Disassociate ;;
  modify (with_tsch (set_tsch_is_associated false)).

(** Lines 1157-1214: the slot itself, or the skip. *)
Definition slot_operation_slot (fuel : nat) : M X unit :=
  w <- get ;;
  match current_link (binding w) with
  | Some link =>
      if tsch_lock_requested (locks w) then
        (* Skip slot operation if there is a pending request for getting
           the lock *)
        TSCH_LOG_ADD (tsch_log_message "!skipped slot %u %u %u"
          [of_bool (tsch_locked (locks w));
           of_bool (tsch_lock_requested (locks w)); 0])
      else
        modify (with_locks (set_tsch_in_slot_operation true)) ;;
        (* Reset drift correction *)
        modify (with_sync (set_drift_correction 0)) ;;
        modify (with_sync (set_is_drift_correction_used false)) ;;
        (* Get a packet ready to be sent *)
        r <- get_packet_and_neighbor_for_link link ;;
        modify (with_binding (set_current_neighbor (snd r))) ;;
        modify (with_binding (set_current_packet (fst r))) ;;
        (* There is no packet to send, and this link does not have Rx
           flag. Instead of doing nothing, switch to the backup link
           (has Rx flag) if any. *)
        link' <-
          match fst r, backup_link (binding w) with
          | None, Some backup =>
              if negb (has_option link (LINK_OPTION_RX cfg)) then
                modify (with_binding (set_current_link (Some backup))) ;;
                r' <- get_packet_and_neighbor_for_link backup ;;
                modify (with_binding (set_current_neighbor (snd r'))) ;;
                modify (with_binding (set_current_packet (fst r'))) ;;
                pure backup
              else pure link
          | _, _ => pure link
          end ;;
        w1 <- get ;;
        let is_active_slot :=
          match current_packet (binding w1) with
          | Some _ => true
          | None => has_option link' (LINK_OPTION_RX cfg)
          end in
        when is_active_slot
          ((* Hop channel *)
           let c := tsch_calculate_channel (tsch w1)
                      (tsch_current_asn (sync w1)) (channel_offset link') in
           modify (with_binding (set_current_channel c)) ;;
           command (RadioSetValue (RADIO_PARAM_CHANNEL cfg) c) ;;
           (* Turn the radio on already here if configured so *)
           tsch_radio_on TSCH_RADIO_CMD_ON_START_OF_TIMESLOT ;;
           (* Actual slot operation *)
           match current_packet (binding w1) with
           | Some _ => tsch_tx_slot fuel
           | None => tsch_rx_slot fuel
           end)
  | None =>
      (* Skip slot operation if there is no link *)
      TSCH_LOG_ADD (tsch_log_message "!skipped slot %u %u %u"
        [of_bool (tsch_locked (locks w));
         of_bool (tsch_lock_requested (locks w)); 1])
  end.

(** Lines 1238-1262: one round of the rescheduling loop.  [timeslot_diff]
    is the local of that name as the previous round left it; the result
    is its new value with [prev_slot_start] and
    [time_to_next_active_slot]. *)
Definition schedule_next_slot_round (timeslot_diff : Z) : M X (Z * Z * Z) :=
  w <- get ;;
  match current_link (binding w) with
  | Some link =>
      when (has_option link (LINK_OPTION_TX cfg)
            && has_option link (LINK_OPTION_SHARED cfg))
        (* Decrement the backoff window for all neighbors able to
           transmit over this Tx, Shared link. *)
        (command (QueueUpdateAllBackoffWindows (link_addr link)))
  | None => pure tt
  end ;;
  (* Get next active link *)
  r <- query (tsch_schedule_get_next_active_link P
                (tsch_current_asn (sync w)) timeslot_diff
                (backup_link (binding w))) ;;
  let next_link := fst (fst r) in
  modify (with_binding (set_backup_link (snd r))) ;;
  modify (with_binding (set_current_link next_link)) ;;
  let timeslot_diff :=
    match next_link with
    | Some _ => u16 (snd (fst r))
    | None =>
        (* There is no next link. Fall back to default behavior: wake
           up at the next slot. *)
        1
    end in
  (* Update ASN *)
  modify (with_sync (fun s =>
    set_tsch_current_asn (TSCH_ASN_INC (tsch_current_asn s) timeslot_diff)
      s)) ;;
  (* Time to next wake up *)
  let time_to_next_active_slot :=
    rt (timeslot_diff * tsch_timing (tsch w) tsch_ts_timeslot_length
        + drift_correction (sync w)) in
  modify (with_sync (set_drift_correction 0)) ;;
  modify (with_sync (set_is_drift_correction_used false)) ;;
  (* Update current slot start *)
  let prev_slot_start := current_slot_start (sync w) in
  modify (with_sync (set_current_slot_start
                       (rt (prev_slot_start + time_to_next_active_slot)))) ;;
  c <- query (tsch_timesync_adaptive_compensate P time_to_next_active_slot) ;;
  modify (with_sync (fun s =>
    set_current_slot_start (rt (current_slot_start s + c)) s)) ;;
  pure (timeslot_diff, prev_slot_start, time_to_next_active_slot).

(** Lines 1237-1263: [do { ... } while(!tsch_schedule_slot_operation(...))] *)
Fixpoint schedule_next_slot (fuel : nat) (timeslot_diff : Z) : M X unit :=
  match fuel with
  | O => out_of_fuel
  | S fuel' =>
      r <- schedule_next_slot_round timeslot_diff ;;
      scheduled <- tsch_schedule_slot_operation (snd (fst r)) (snd r) ;;
      if scheduled then pure tt
      else schedule_next_slot fuel' (fst (fst r))
  end.

(** The threshold of line 1220. *)
Definition desync_threshold (g : tsch_globals) : Z :=
  100 * TSCH_CLOCK_TO_SLOTS cfg (TSCH_DESYNC_THRESHOLD cfg / 100)
          (tsch_timing g tsch_ts_timeslot_length).

(** Lines 1216-1265: end of slot operation, schedule next slot or
    resynchronize. *)
Definition slot_operation_end (fuel : nat) : M X unit :=
  w <- get ;;
  let since_sync :=
    TSCH_ASN_DIFF cfg (tsch_current_asn (sync w)) (last_sync_asn (sync w)) in
  (* Do we need to resynchronize? i.e., wait for EB again *)
  if negb (tsch_is_coordinator (tsch w))
     && (since_sync >? desync_threshold (tsch w)) then
    TSCH_LOG_ADD (tsch_log_message "! leaving the network, last sync %u"
                    [since_sync]) ;;
    modify (with_sync (set_last_timesource_neighbor None)) ;;
    tsch_disassociate
  else
    (* Schedule next wakeup skipping slots if missed deadline *)
    schedule_next_slot fuel 0.

(** [tsch_slot_operation], lines 1150-1272: one activation of the
    protothread, from the test of its loop to its next [PT_YIELD] (or
    to [PT_END] when the node is not associated).  The activations of
    the TX or RX sub-protothread that the slot spawns are run in
    sequence; each of their yields is a [PtYield] command. *)
Definition tsch_slot_operation (fuel : nat) : M X unit :=
  w <- get ;;
  if tsch_is_associated (tsch w) then
    slot_operation_slot fuel ;;
    slot_operation_end fuel ;;
    modify (with_locks (set_tsch_in_slot_operation false)) ;;
    command PtYield
  else pure tt.

(** [tsch_slot_operation_start], lines 1276-1300. *)
Fixpoint tsch_slot_operation_start (fuel : nat) (timeslot_diff : Z)
  : M X unit :=
  match fuel with
  | O => out_of_fuel
  | S fuel' =>
      w <- get ;;
      (* Get next active link *)
      r <- query (tsch_schedule_get_next_active_link P
                    (tsch_current_asn (sync w)) timeslot_diff
                    (backup_link (binding w))) ;;
      let next_link := fst (fst r) in
      modify (with_binding (set_backup_link (snd r))) ;;
      modify (with_binding (set_current_link next_link)) ;;
      let timeslot_diff :=
        match next_link with
        | Some _ => u16 (snd (fst r))
        | None => 1
        end in
      (* Update ASN *)
      modify (with_sync (fun s =>
        set_tsch_current_asn (TSCH_ASN_INC (tsch_current_asn s) timeslot_diff)
          s)) ;;
      (* Time to next wake up *)
      let time_to_next_active_slot :=
        rt (timeslot_diff * tsch_timing (tsch w) tsch_ts_timeslot_length) in
      (* Update current slot start *)
      let prev_slot_start := current_slot_start (sync w) in
      modify (with_sync
        (set_current_slot_start
           (rt (prev_slot_start + time_to_next_active_slot)))) ;;
      scheduled <- tsch_schedule_slot_operation prev_slot_start
                     time_to_next_active_slot ;;
      if scheduled then pure tt
      else tsch_slot_operation_start fuel' timeslot_diff
  end.

(** [tsch_slot_operation_sync], lines 1303-1311. *)
Definition tsch_slot_operation_sync (next_slot_start next_slot_asn : Z)
  : M X unit :=
  modify (with_sync (set_current_slot_start next_slot_start)) ;;
  modify (with_sync (set_tsch_current_asn next_slot_asn)) ;;
  modify (with_sync (set_last_sync_asn next_slot_asn)) ;;
  modify (with_binding (set_current_link None)).

End SlotOperation.

(** ** A sample configuration and a scripted platform

    The concrete runs below use the timing of a 10 ms timeslot on a
    32768 Hz, 16-bit timer, and a platform whose answers are read from a
    script: the state of the rest of the system is the list of the
    answers still to come (0 once the script is exhausted). *)

Module Sample.

Definition us_to_ticks (us : Z) : Z :=
  if us >=? 0 then Z.quot (us * 32768 + 500000) 1000000
  else Z.quot (us * 32768 - 500000) 1000000.

Definition ticks_to_us (t : Z) : Z :=
  if t >=? 0 then Z.quot (t * 1000000 + 16384) 32768
  else Z.quot (t * 1000000 - 16384) 32768.

Definition clock_diff (a b : Z) : Z := swrap 16 (a - b).

(** The build: with or without guard beacons, with or without SFD
    timestamps (and then jitter removal). *)
Definition build (guard_beacon sfd_timestamps : bool) : Config :=
  {| RTIMER_BITS := 16;
     RTIMER_SECOND := 32768;
     CONTIKI_TARGET_COOJA := false;
     RTIMER_OK := 0;
     RTIMER_CLOCK_DIFF := clock_diff;
     RTIMER_CLOCK_LT := fun a b => clock_diff a b <? 0;
     US_TO_RTIMERTICKS := us_to_ticks;
     RTIMERTICKS_TO_US := ticks_to_us;
     GUARD_BEACON := guard_beacon;
     GUARD_BEACON_TIME := 10;
     GUARD_BEACON_FRAME := 170;
     CCA_ENABLED := false;
     TS_CCA_OFFSET := 59;
     TS_CCA := 4;
     LLSEC802154_ENABLED := false;
     TSCH_HW_FRAME_FILTERING := false;
     TSCH_RESYNC_WITH_SFD_TIMESTAMPS := sfd_timestamps;
     TSCH_TIMESYNC_REMOVE_JITTER := sfd_timestamps;
     TSCH_TIMESYNC_MEASUREMENT_ERROR := us_to_ticks 32;
     TSCH_RADIO_ON_DURING_TIMESLOT := false;
     TSCH_DEFAULT_TS_RX_WAIT := 2200;
     TSCH_DESYNC_THRESHOLD := 15360;
     TSCH_MAC_MAX_FRAME_RETRIES := 7;
     TSCH_PACKET_MAX_LEN := 127;
     TSCH_PACKET_DURATION := fun n => us_to_ticks (32 * (n + 3));
     TSCH_CLOCK_TO_SLOTS := fun c l => Z.quot (Z.quot (c * 32768) 128) l;
     TSCH_ASN_DIFF := fun a b => swrap 32 (a - b);
     ASN_BITS := 40;
     RADIO_DELAY_BEFORE_TX := 0;
     RADIO_DELAY_BEFORE_RX := 0;
     RADIO_DELAY_BEFORE_DETECT := 0;
     MAC_TX_OK := 0;
     MAC_TX_COLLISION := 1;
     MAC_TX_NOACK := 2;
     MAC_TX_ERR := 4;
     MAC_TX_ERR_FATAL := 5;
     RADIO_TX_OK := 0;
     LINK_OPTION_TX := 1;
     LINK_OPTION_RX := 2;
     LINK_OPTION_SHARED := 4;
     FRAME802154_IEEE802154E_2012 := 2;
     FRAME802154_BEACONFRAME := 0;
     FRAME802154_DATAFRAME := 1;
     RADIO_PARAM_CHANNEL := 1;
     RADIO_PARAM_RX_MODE := 2;
     RADIO_PARAM_LAST_RSSI := 3;
     RADIO_PARAM_LAST_PACKET_TIMESTAMP := 4;
     RADIO_RX_MODE_ADDRESS_FILTER := 1 |}.

Definition cfg : Config := build false false.

(** The same build with jitter removal, as on a platform with SFD
    timestamps. *)
Definition cfg_jitter : Config := build false true.

(** The guard-beacon build. *)
Definition cfg_guard_beacon : Config := build true false.

Definition script := list Z.

Definition pop (x : script) : Z * script :=
  match x with
  | [] => (0, [])
  | h :: t => (h, t)
  end.

(** A script entry read as a neighbor: 0 is the null pointer, 1 a
    unicast time source, 2 another unicast neighbor, 3 the broadcast
    neighbor, 4 the EB neighbor. *)
Definition neighbor_of (addr : linkaddr_t) (v : Z) : option tsch_neighbor :=
  if v =? 0 then None
  else Some {| nbr_ptr := v; nbr_addr := addr;
               is_broadcast := (v =? 3) || (v =? 4);
               is_time_source := v =? 1 |}.

Definition pointer_of (v : Z) : option Z := if v =? 0 then None else Some v.

(** A script entry read as a link: 0 is no link, otherwise the link
    options. *)
Definition link_of (v : Z) : option tsch_link :=
  if v =? 0 then None
  else Some {| link_addr := [0; 1]; link_options := v;
               link_kind := LINK_TYPE_NORMAL; channel_offset := 0 |}.

Definition blank_frame : frame802154_t :=
  {| fcf_frame_type := 0; fcf_frame_version := 0; fcf_ack_required := 0;
     seq := 0; src_addr := []; security_level := 0 |}.

(** The frames of the scripted platform are four bytes: header length,
    frame type, frame version, ack-required (the sequence number is the
    third of them, as in the TX slot); the source is node [0;1] and the
    destination the null address.  An enhanced ACK is accepted when its
    first byte is not 0, and its second byte is the time correction in
    microseconds. *)
Definition parse (bytes : list Z) (n : Z) (f : frame802154_t)
  : Z * frame802154_t :=
  (buf_get bytes 0,
   {| fcf_frame_type := buf_get bytes 1;
      fcf_frame_version := buf_get bytes 2;
      fcf_ack_required := buf_get bytes 3;
      seq := buf_get bytes 2; src_addr := [0; 1]; security_level := 0 |}).

Definition platform : Platform script :=
  {| n_eb := {| nbr_ptr := 4; nbr_addr := [0; 0]; is_broadcast := true;
                is_time_source := false |};
     n_broadcast := {| nbr_ptr := 3; nbr_addr := [255; 255];
                       is_broadcast := true; is_time_source := false |};
     linkaddr_node_addr := [0; 2];
     linkaddr_null := [0; 0];
     effect := fun _ x => x;
     preempt := fun flags x =>
       let '(locked, requested, in_slot) := flags in
       let (v, x') := pop x in
       ((locked || (v =? 2) || (v =? 3), requested,
         in_slot && negb ((v =? 1) || (v =? 3))), x');
     rtimer_now := pop;
     rtimer_set := fun _ x => pop x;
     radio_prepare := fun _ _ x => pop x;
     radio_transmit := fun _ x => pop x;
     radio_channel_clear := pop;
     radio_receiving_packet := pop;
     radio_pending_packet := pop;
     radio_read := fun _ x =>
       let (n, x') := pop x in
       ((n, firstn (Z.to_nat n) x'), skipn (Z.to_nat n) x');
     radio_get_value := fun _ x => pop x;
     radio_get_object := fun _ _ x => pop x;
     tsch_queue_get_nbr := fun addr x =>
       let (v, x') := pop x in (neighbor_of addr v, x');
     tsch_queue_get_packet_for_nbr := fun _ _ x =>
       let (v, x') := pop x in (pointer_of v, x');
     tsch_queue_get_unicast_packet_for_any := fun n _ x =>
       let (v, x') := pop x in
       ((pointer_of v, if v =? 0 then n else neighbor_of [0; 1] 2), x');
     tsch_queue_is_empty := fun _ x => pop x;
     tsch_schedule_get_next_active_link := fun _ _ _ x =>
       let (l, x') := pop x in
       let (d, x'') := pop x' in
       ((link_of l, d, None), x'');
     tsch_timesync_adaptive_compensate := fun _ x => pop x;
     tsch_packet_update_eb := fun bytes _ _ _ => (1, bytes);
     tsch_packet_parse_eack := fun bytes _ _ =>
       (buf_get bytes 0, blank_frame,
        {| ie_time_correction := buf_get bytes 1; ie_is_nack := 0 |}, 3);
     tsch_packet_create_eack := fun _ _ seqno drift _ => (3, [2; drift; seqno]);
     frame802154_parse := parse;
     frame802154_check_dest_panid := fun _ => 1;
     frame802154_extract_linkaddr := fun f _ _ => (1, src_addr f, [0; 0]);
     tsch_security_secure_frame := fun bytes _ _ _ => (0, bytes);
     tsch_security_parse_frame := fun bytes _ _ _ _ _ => (1, bytes);
     tsch_security_mic_len := fun _ => 0;
     TSCH_CALLBACK_DO_NACK := None |}.

Definition timing_10ms (e : tsch_timeslot_timing_elements) : Z :=
  match e with
  | tsch_ts_tx_offset => 69
  | tsch_ts_rx_offset => 37
  | tsch_ts_rx_ack_delay => 26
  | tsch_ts_tx_ack_delay => 33
  | tsch_ts_rx_wait => 72
  | tsch_ts_ack_wait => 13
  | tsch_ts_max_ack => 79
  | tsch_ts_max_tx => 139
  | tsch_ts_timeslot_length => 328
  end.

Definition blank_input : input_packet :=
  {| payload := []; len := 0; rx_asn := 0; rssi := 0; channel := 0 |}.

(** A 50-byte unicast data packet (only its first bytes matter here). *)
Definition packet_50 : tsch_packet :=
  {| qb := Some {| qb_data := [65; 216; 7; 205; 171] ++ repeat 0 45;
                   qb_datalen := 50; qb_security_level := 0;
                   qb_receiver := [0; 1] |};
     transmissions := 0; ret := 0; header_len := 9;
     tsch_sync_ie_offset := 0 |}.

Definition N1 : tsch_neighbor :=
  {| nbr_ptr := 1; nbr_addr := [0; 1]; is_broadcast := false;
     is_time_source := true |}.

Definition tx_link : tsch_link :=
  {| link_addr := [0; 1]; link_options := 1; link_kind := LINK_TYPE_NORMAL;
     channel_offset := 0 |}.

Definition rx_link : tsch_link :=
  {| link_addr := [0; 0]; link_options := 2; link_kind := LINK_TYPE_NORMAL;
     channel_offset := 0 |}.

(** An associated, synchronised node at ASN 1000, slot start at tick
    5000, last synchronised at ASN 990, both rings empty (capacity 4),
    the packet at address 16 bound to neighbor [N1] on [tx_link]. *)
Definition world (answers : script) : World script :=
  {| locks := {| tsch_locked := false; tsch_lock_requested := false;
                 tsch_in_slot_operation := true |};
     sync := {| drift_correction := 0; is_drift_correction_used := false;
                last_sync_asn := 990; tsch_current_asn := 1000;
                current_slot_start := 5000;
                last_timesource_neighbor := Some N1 |};
     binding := {| current_link := Some tx_link; backup_link := None;
                   current_packet := Some 16; current_neighbor := Some N1;
                   current_channel := 26 |};
     rings := {| dequeued_ringbuf :=
                   {| mask := 3; put_ptr := 0; get_ptr := 0 |};
                 dequeued_array := [None; None; None; None];
                 input_ringbuf := {| mask := 3; put_ptr := 0; get_ptr := 0 |};
                 input_array :=
                   [blank_input; blank_input; blank_input; blank_input] |};
     statics := {| mac_tx_status := 0; input_queue_drop := 0;
                   is_gb := false; is_eb := false; frame_valid := false;
                   rx_header_len := 0; frame := blank_frame;
                   source_address := []; destination_address := [] |};
     tsch := {| tsch_is_associated := true; tsch_is_coordinator := false;
                tsch_is_pan_secured := false; tsch_timing := timing_10ms;
                tsch_hopping_sequence := [15; 20; 25; 26];
                tsch_hopping_sequence_length := 4 |};
     packets := fun _ => packet_50;
     ext := answers;
     calls := [] |}.

(** The same node with both rings full. *)
Definition world_rings_full (answers : script) : World script :=
  with_rings (fun r =>
    set_input_ringbuf {| mask := 3; put_ptr := 3; get_ptr := 0 |}
      (set_dequeued_ringbuf {| mask := 3; put_ptr := 3; get_ptr := 0 |} r))
    (world answers).

End Sample.

(** ** Frame conditions

    [keeps f m]: whenever the computation [m] ends, the observation [f]
    of the world is what it was at the start. *)
Definition keeps {X A B : Type} (f : World X -> B) (m : M X A) : Prop :=
  forall (w : World X) (a : A) (w' : World X), m w = Done a w' -> f w' = f w.

(** The two lock flags that only [tsch_get_lock] and
    [tsch_release_lock] write. *)
Definition lock_words {X : Type} (w : World X) : bool * bool :=
  (tsch_locked (locks w), tsch_lock_requested (locks w)).

(** ** Observations and classes of commands

    What the further properties below speak about: which commands a
    computation sends, and which part of the state it leaves alone. *)

(** [emits q m]: whenever the computation [m] ends, the commands it
    sent all satisfy [q] (and [calls] only grew). *)
Definition emits {X A : Type} (q : call -> bool) (m : M X A) : Prop :=
  forall (w : World X) (a : A) (w' : World X),
    m w = Done a w' ->
    exists sent, calls w' = sent ++ calls w /\ forallb q sent = true.

(** The state of this file without the record of commands: what a
    computation that only waits leaves as it is. *)
Definition own_state {X : Type} (w : World X) :=
  (locks w, sync w, binding w, rings w, statics w, tsch w, packets w).

(** Commands that change a neighbor queue or its backoff. *)
Definition is_queue_call (c : call) : bool :=
  match c with
  | QueueRemovePacketFromQueue _ | QueueBackoffReset _ | QueueBackoffInc _
  | QueueUpdateAllBackoffWindows _ => true
  | _ => false
  end.

(** Commands that put a frame on the air. *)
Definition is_transmission_call (c : call) : bool :=
  match c with
  | RadioPrepare _ _ | RadioTransmit _ => true
  | _ => false
  end.

(** Commands of the executor outside a slot: logging, the wake-up
    timer, the backoff windows of a shared link, leaving the network,
    yielding. *)
Definition is_scheduling_call (c : call) : bool :=
  match c with
  | LogAdd _ | RtimerSet _ | QueueUpdateAllBackoffWindows _ | Disassociate
  | PtYield => true
  | _ => false
  end.

(** What both sub-procedures of a slot leave alone: the lock flags, the
    binding of the slot, the globals of tsch.c, the ASN, the start of
    the slot and the time source. *)
Definition slot_frame {X : Type} (w : World X) :=
  (locks w, binding w, tsch w, tsch_current_asn (sync w),
   current_slot_start (sync w), last_timesource_neighbor (sync w)).

(** The state of the receiving side: the input ring and the statics of
    [tsch_rx_slot]. *)
Definition rx_state {X : Type} (w : World X) :=
  (input_ringbuf (rings w), input_array (rings w),
   input_queue_drop (statics w), is_gb (statics w), is_eb (statics w),
   frame_valid (statics w), rx_header_len (statics w), frame (statics w),
   source_address (statics w), destination_address (statics w)).

(** The state of the sending side: the ring of dequeued packets, the
    packets themselves and the status of the last attempt. *)
Definition tx_state {X : Type} (w : World X) :=
  (dequeued_ringbuf (rings w), dequeued_array (rings w), packets w,
   mac_tx_status (statics w)).

(** What a slot works on: the rings, the packets, the statics of the
    two sub-procedures and the packet, neighbor and channel of the
    slot. *)
Definition slot_data {X : Type} (w : World X) :=
  (rings w, packets w, statics w, current_packet (binding w),
   current_neighbor (binding w), current_channel (binding w)).

(** [within f c q l v]: the world [v] still shows [c] under the
    observation [f], and the commands sent since the record of commands
    was [l] all satisfy [q]. *)
Definition within {X B : Type} (f : World X -> B) (c : B) (q : call -> bool)
  (l : list call) (v : World X) : Prop :=
  f v = c /\ exists sent, calls v = sent ++ l /\ forallb q sent = true.

(** [holds_through I m post]: started in a world where [I] holds, the
    computation [m] can only end in a world where [post] holds. *)
Definition holds_through {X A : Type} (I : World X -> Prop) (m : M X A)
  (post : World X -> Prop) : Prop :=
  forall (w : World X) (a : A) (w' : World X),
    I w -> m w = Done a w' -> post w'.

(** What the processing of a received frame leaves alone until it
    commits the frame: the lock flags, the synchronisation state, the
    binding of the slot, the globals of tsch.c, the packets, both ring
    indices, the ring of dequeued packets and the size of the input
    array. *)
Definition rx_kept {X : Type} (w : World X) :=
  (locks w, sync w, binding w, tsch w, packets w, input_ringbuf (rings w),
   dequeued_ringbuf (rings w), dequeued_array (rings w),
   List.length (input_array (rings w))).

(** [rx_stage w input_index v st i x cs]: the world [v] is a stage of
    the processing of a frame that started in [w]: its statics are
    [st], the input slot holds [i], the state of the collaborators is
    [x], the record of commands is [cs], and the rest is as in [w]. *)
Definition rx_stage {X : Type} (w : World X) (input_index : Z)
  (v : World X) (st : slot_statics) (i : input_packet) (x : X)
  (cs : list call) : Prop :=
  statics v = st /\ current_input v input_index = i /\ ext v = x
  /\ calls v = cs /\ rx_kept v = rx_kept w.

(** ** Variants of the sample node *)

Module Variants.

(** The sample build with clear-channel assessment before each
    transmission. *)
Definition cfg_cca : Config :=
  let c := Sample.cfg in
  {| RTIMER_BITS := RTIMER_BITS c;
     RTIMER_SECOND := RTIMER_SECOND c;
     CONTIKI_TARGET_COOJA := CONTIKI_TARGET_COOJA c;
     RTIMER_OK := RTIMER_OK c;
     RTIMER_CLOCK_DIFF := RTIMER_CLOCK_DIFF c;
     RTIMER_CLOCK_LT := RTIMER_CLOCK_LT c;
     US_TO_RTIMERTICKS := US_TO_RTIMERTICKS c;
     RTIMERTICKS_TO_US := RTIMERTICKS_TO_US c;
     GUARD_BEACON := GUARD_BEACON c;
     GUARD_BEACON_TIME := GUARD_BEACON_TIME c;
     GUARD_BEACON_FRAME := GUARD_BEACON_FRAME c;
     CCA_ENABLED := true;
     TS_CCA_OFFSET := TS_CCA_OFFSET c;
     TS_CCA := TS_CCA c;
     LLSEC802154_ENABLED := LLSEC802154_ENABLED c;
     TSCH_HW_FRAME_FILTERING := TSCH_HW_FRAME_FILTERING c;
     TSCH_RESYNC_WITH_SFD_TIMESTAMPS := TSCH_RESYNC_WITH_SFD_TIMESTAMPS c;
     TSCH_TIMESYNC_REMOVE_JITTER := TSCH_TIMESYNC_REMOVE_JITTER c;
     TSCH_TIMESYNC_MEASUREMENT_ERROR := TSCH_TIMESYNC_MEASUREMENT_ERROR c;
     TSCH_RADIO_ON_DURING_TIMESLOT := TSCH_RADIO_ON_DURING_TIMESLOT c;
     TSCH_DEFAULT_TS_RX_WAIT := TSCH_DEFAULT_TS_RX_WAIT c;
     TSCH_DESYNC_THRESHOLD := TSCH_DESYNC_THRESHOLD c;
     TSCH_MAC_MAX_FRAME_RETRIES := TSCH_MAC_MAX_FRAME_RETRIES c;
     TSCH_PACKET_MAX_LEN := TSCH_PACKET_MAX_LEN c;
     TSCH_PACKET_DURATION := TSCH_PACKET_DURATION c;
     TSCH_CLOCK_TO_SLOTS := TSCH_CLOCK_TO_SLOTS c;
     TSCH_ASN_DIFF := TSCH_ASN_DIFF c;
     ASN_BITS := ASN_BITS c;
     RADIO_DELAY_BEFORE_TX := RADIO_DELAY_BEFORE_TX c;
     RADIO_DELAY_BEFORE_RX := RADIO_DELAY_BEFORE_RX c;
     RADIO_DELAY_BEFORE_DETECT := RADIO_DELAY_BEFORE_DETECT c;
     MAC_TX_OK := MAC_TX_OK c;
     MAC_TX_COLLISION := MAC_TX_COLLISION c;
     MAC_TX_NOACK := MAC_TX_NOACK c;
     MAC_TX_ERR := MAC_TX_ERR c;
     MAC_TX_ERR_FATAL := MAC_TX_ERR_FATAL c;
     RADIO_TX_OK := RADIO_TX_OK c;
     LINK_OPTION_TX := LINK_OPTION_TX c;
     LINK_OPTION_RX := LINK_OPTION_RX c;
     LINK_OPTION_SHARED := LINK_OPTION_SHARED c;
     FRAME802154_IEEE802154E_2012 := FRAME802154_IEEE802154E_2012 c;
     FRAME802154_BEACONFRAME := FRAME802154_BEACONFRAME c;
     FRAME802154_DATAFRAME := FRAME802154_DATAFRAME c;
     RADIO_PARAM_CHANNEL := RADIO_PARAM_CHANNEL c;
     RADIO_PARAM_RX_MODE := RADIO_PARAM_RX_MODE c;
     RADIO_PARAM_LAST_RSSI := RADIO_PARAM_LAST_RSSI c;
     RADIO_PARAM_LAST_PACKET_TIMESTAMP := RADIO_PARAM_LAST_PACKET_TIMESTAMP c;
     RADIO_RX_MODE_ADDRESS_FILTER := RADIO_RX_MODE_ADDRESS_FILTER c |}.

(** The scripted platform when no other process competes for the lock:
    while [tsch_get_lock] waits, the interrupt may end its slot
    operation (script entry 1) and nothing else happens to the flags. *)
Definition platform_alone : Platform Sample.script :=
  let p := Sample.platform in
  {| n_eb := n_eb p;
     n_broadcast := n_broadcast p;
     linkaddr_node_addr := linkaddr_node_addr p;
     linkaddr_null := linkaddr_null p;
     effect := effect p;
     preempt := fun flags x =>
       let '(locked, requested, in_slot) := flags in
       let (v, x') := Sample.pop x in
       ((locked, requested, in_slot && negb (v =? 1)), x');
     rtimer_now := rtimer_now p;
     rtimer_set := rtimer_set p;
     radio_prepare := radio_prepare p;
     radio_transmit := radio_transmit p;
     radio_channel_clear := radio_channel_clear p;
     radio_receiving_packet := radio_receiving_packet p;
     radio_pending_packet := radio_pending_packet p;
     radio_read := radio_read p;
     radio_get_value := radio_get_value p;
     radio_get_object := radio_get_object p;
     tsch_queue_get_nbr := tsch_queue_get_nbr p;
     tsch_queue_get_packet_for_nbr := tsch_queue_get_packet_for_nbr p;
     tsch_queue_get_unicast_packet_for_any :=
       tsch_queue_get_unicast_packet_for_any p;
     tsch_queue_is_empty := tsch_queue_is_empty p;
     tsch_schedule_get_next_active_link :=
       tsch_schedule_get_next_active_link p;
     tsch_timesync_adaptive_compensate := tsch_timesync_adaptive_compensate p;
     tsch_packet_update_eb := tsch_packet_update_eb p;
     tsch_packet_parse_eack := tsch_packet_parse_eack p;
     tsch_packet_create_eack := tsch_packet_create_eack p;
     frame802154_parse := frame802154_parse p;
     frame802154_check_dest_panid := frame802154_check_dest_panid p;
     frame802154_extract_linkaddr := frame802154_extract_linkaddr p;
     tsch_security_secure_frame := tsch_security_secure_frame p;
     tsch_security_parse_frame := tsch_security_parse_frame p;
     tsch_security_mic_len := tsch_security_mic_len p;
     TSCH_CALLBACK_DO_NACK := TSCH_CALLBACK_DO_NACK p |}.


End Variants.

(** * Properties *)

Local Open Scope slot_scope.

(** ** Timer arithmetic *)

Section TimingProperties.

Variable cfg : Config.
Hypothesis timer_width : 0 <= RTIMER_BITS cfg.

Lemma rt_small (x : Z) : 0 <= x < 2 ^ RTIMER_BITS cfg -> rt cfg x = x.
Proof. intros H. unfold rt, wrap. now apply Z.mod_small. Qed.

Lemma rt_wrapped_once (x : Z) :
  2 ^ RTIMER_BITS cfg <= x < 2 * 2 ^ RTIMER_BITS cfg ->
  rt cfg x = x - 2 ^ RTIMER_BITS cfg.
Proof.
  intros H. unfold rt, wrap.
  replace x with (x - 2 ^ RTIMER_BITS cfg + 1 * 2 ^ RTIMER_BITS cfg) at 1
    by ring.
  rewrite Z.mod_add by lia. apply Z.mod_small. lia.
Qed.

Lemma elapsed_small (ref_time now : Z) :
  0 <= ref_time <= now -> now < 2 ^ RTIMER_BITS cfg ->
  (now - ref_time) mod 2 ^ RTIMER_BITS cfg = now - ref_time.
Proof. intros. apply Z.mod_small. lia. Qed.

Lemma elapsed_wrapped (ref_time now : Z) :
  0 <= now < ref_time -> ref_time < 2 ^ RTIMER_BITS cfg ->
  (now - ref_time) mod 2 ^ RTIMER_BITS cfg
  = now - ref_time + 2 ^ RTIMER_BITS cfg.
Proof.
  intros.
  replace (now - ref_time)
    with (now - ref_time + 2 ^ RTIMER_BITS cfg + (-1) * 2 ^ RTIMER_BITS cfg)
    at 1 by ring.
  rewrite Z.mod_add by lia. apply Z.mod_small. lia.
Qed.

(** The comparison made by [check_timer_miss], for timer values in
    range: the target is missed exactly when the time elapsed since the
    reference, read modulo the timer period, has reached the offset. *)
Lemma check_timer_miss_elapsed (ref_time offset now : Z) :
  0 <= ref_time < 2 ^ RTIMER_BITS cfg ->
  0 <= offset < 2 ^ RTIMER_BITS cfg ->
  0 <= now < 2 ^ RTIMER_BITS cfg ->
  check_timer_miss cfg ref_time offset now
  = (offset <=? (now - ref_time) mod 2 ^ RTIMER_BITS cfg).
Proof.
  intros Href Hoff Hnow. unfold check_timer_miss.
  destruct (Z_lt_ge_dec (ref_time + offset) (2 ^ RTIMER_BITS cfg))
    as [Hfit | Hover].
  - rewrite rt_small by lia.
    destruct (Z.ltb_spec now ref_time) as [Hn | Hn];
      destruct (Z.ltb_spec (ref_time + offset) ref_time) as [Ht | Ht];
      cbn [Bool.eqb]; try lia.
    + rewrite elapsed_wrapped by lia. symmetry. apply Z.leb_le. lia.
    + rewrite elapsed_small by lia.
      destruct (Z.leb_spec (ref_time + offset) now);
        destruct (Z.leb_spec offset (now - ref_time)); lia || reflexivity.
  - rewrite rt_wrapped_once by lia.
    destruct (Z.ltb_spec now ref_time) as [Hn | Hn];
      destruct (Z.ltb_spec (ref_time + offset - 2 ^ RTIMER_BITS cfg) ref_time)
        as [Ht | Ht];
      cbn [Bool.eqb]; try lia.
    + rewrite elapsed_wrapped by lia.
      destruct (Z.leb_spec (ref_time + offset - 2 ^ RTIMER_BITS cfg) now);
        destruct (Z.leb_spec offset (now - ref_time + 2 ^ RTIMER_BITS cfg));
        lia || reflexivity.
    + rewrite elapsed_small by lia. symmetry. apply Z.leb_gt. lia.
Qed.

(** C3.  For timer values [ref_time], [offset] and [now] of the timer's
    width, [check_timer_miss] is true exactly when
    [(now - ref_time) mod 2^W >= offset]; and when [now] is the reading
    of the timer [elapsed] ticks after [ref_time], with less than one
    timer period elapsed (so at most one wrap in between), it is true
    exactly when the instant [ref_time + offset] is at or before now,
    that is when [offset <= elapsed]. *)
Theorem check_timer_miss_correct (ref_time offset now : Z) :
  0 <= ref_time < 2 ^ RTIMER_BITS cfg ->
  0 <= offset < 2 ^ RTIMER_BITS cfg ->
  0 <= now < 2 ^ RTIMER_BITS cfg ->
  check_timer_miss cfg ref_time offset now
  = (offset <=? (now - ref_time) mod 2 ^ RTIMER_BITS cfg)
  /\ forall elapsed : Z,
       0 <= elapsed < 2 ^ RTIMER_BITS cfg ->
       now = (ref_time + elapsed) mod 2 ^ RTIMER_BITS cfg ->
       (check_timer_miss cfg ref_time offset now = true <-> offset <= elapsed).
Proof.
  intros Href Hoff Hnow. split.
  - now apply check_timer_miss_elapsed.
  - intros elapsed He ->.
    rewrite check_timer_miss_elapsed by assumption.
    rewrite Zminus_mod_idemp_l.
    replace (ref_time + elapsed - ref_time) with elapsed by ring.
    rewrite Z.mod_small by lia. apply Z.leb_le.
Qed.

End TimingProperties.

(** On the 16-bit sample timer: reference 65000, offset 1000, read at
    500 after the wrap (1036 ticks later): the target 464 is missed. *)
Lemma check_timer_miss_correct_witness :
  check_timer_miss Sample.cfg 65000 1000 500
  = (1000 <=? (500 - 65000) mod 2 ^ RTIMER_BITS Sample.cfg)
  /\ forall elapsed : Z,
       0 <= elapsed < 2 ^ RTIMER_BITS Sample.cfg ->
       500 = (65000 + elapsed) mod 2 ^ RTIMER_BITS Sample.cfg ->
       (check_timer_miss Sample.cfg 65000 1000 500 = true <-> 1000 <= elapsed).
Proof.
  apply (check_timer_miss_correct Sample.cfg); simpl; lia.
Defined.

(** ** Scheduling a wake-up *)

Section SchedulingProperties.

Context {X : Type}.
Variable cfg : Config.
Variable P : Platform X.

(** C9 (amended).  [tsch_schedule_slot_operation] reads the timer; when
    [check_timer_miss(ref_time, offset - RTIMER_GUARD, now)] is true it
    returns false and sends no command (no timer is armed); otherwise it
    calls [rtimer_set] for the instant [ref_time + offset] (in timer
    arithmetic) and returns true exactly when [rtimer_set] answers
    [RTIMER_OK], false when it reports an error. *)
Theorem tsch_schedule_slot_operation_outcome (ref_time offset : Z)
  (w : World X) :
  let now := fst (rtimer_now P (ext w)) in
  let target := rt cfg (ref_time + offset) in
  let r := fst (rtimer_set P target (snd (rtimer_now P (ext w)))) in
  if check_timer_miss cfg ref_time (rt cfg (offset - RTIMER_GUARD cfg)) now
  then
    exists w',
      tsch_schedule_slot_operation cfg P ref_time offset w = Done false w'
      /\ calls w' = calls w
  else
    exists w',
      tsch_schedule_slot_operation cfg P ref_time offset w
      = Done (r =? RTIMER_OK cfg) w'
      /\ calls w' = RtimerSet target :: calls w.
Proof.
  unfold tsch_schedule_slot_operation, RTIMER_NOW, query, request, bind, pure.
  destruct (rtimer_now P (ext w)) as [now x1]. cbn [fst snd].
  destruct (check_timer_miss cfg ref_time (rt cfg (offset - RTIMER_GUARD cfg))
              now).
  - eexists. split; reflexivity.
  - change (ext (with_ext x1 w)) with x1.
    destruct (rtimer_set P (rt cfg (ref_time + offset)) x1) as [r x2].
    cbn [fst]. destruct (r =? RTIMER_OK cfg); cbn [negb];
      eexists; split; reflexivity.
Qed.

End SchedulingProperties.

(** C9, the claim as stated fails: on the sample node the deadline
    5000 + 328 is not missed at tick 5010, the timer is set for tick
    5328, [rtimer_set] reports an error (1), and the function returns
    false although the deadline was not missed. *)
Lemma tsch_schedule_slot_operation_timer_error :
  check_timer_miss Sample.cfg 5000
    (rt Sample.cfg (328 - RTIMER_GUARD Sample.cfg)) 5010 = false
  /\ exists w',
       tsch_schedule_slot_operation Sample.cfg Sample.platform 5000 328
         (Sample.world [5010; 1]) = Done false w'
       /\ calls w' = [RtimerSet 5328].
Proof.
  split; [reflexivity | eexists; split; [cbv; reflexivity | reflexivity]].
Qed.

(** ** Ring full *)

Section RingFullProperties.

Context {X : Type}.
Variable cfg : Config.
Variable P : Platform X.

(** C6.  When peek-put finds the dequeued ring full (-1), the TX
    sub-procedure ends at once in the very world it started from: no
    command was sent ([calls]: no radio operation, nothing asked of the
    queues, so no backoff change), the packet memory is as it was
    ([packets]: [transmissions] not incremented) and so are the rings
    (nothing published). *)
Theorem tsch_tx_slot_dequeued_ring_full (fuel : nat) (w : World X) :
  ringbufindex_peek_put (dequeued_ringbuf (rings w)) = -1 ->
  tsch_tx_slot cfg P fuel w = Done tt w.
Proof.
  intros Hfull. unfold tsch_tx_slot, bind, get. rewrite Hfull. reflexivity.
Qed.

(** C2 (amended).  When peek-put finds the input ring full (-1), the RX
    sub-procedure adds one to [input_queue_drop] and does nothing else:
    no command is sent (the radio is neither polled nor read) and the
    rest of the world is as it was. *)
Theorem tsch_rx_slot_input_ring_full (fuel : nat) (w : World X) :
  ringbufindex_peek_put (input_ringbuf (rings w)) = -1 ->
  tsch_rx_slot cfg P fuel w
  = Done tt (with_statics
               (fun s => set_input_queue_drop (input_queue_drop s + 1) s) w).
Proof.
  intros Hfull. unfold tsch_rx_slot, bind, get. rewrite Hfull. reflexivity.
Qed.

End RingFullProperties.

Lemma tsch_tx_slot_dequeued_ring_full_witness :
  ringbufindex_peek_put
    (dequeued_ringbuf (rings (Sample.world_rings_full [0; 5010]))) = -1
  /\ tsch_tx_slot Sample.cfg Sample.platform 10
       (Sample.world_rings_full [0; 5010])
     = Done tt (Sample.world_rings_full [0; 5010]).
Proof.
  split; [reflexivity |].
  apply (tsch_tx_slot_dequeued_ring_full Sample.cfg Sample.platform).
  reflexivity.
Defined.

Lemma tsch_rx_slot_input_ring_full_witness :
  let w := Sample.world_rings_full [1; 4; 8; 0; 2; 0] in
  ringbufindex_peek_put (input_ringbuf (rings w)) = -1
  /\ tsch_rx_slot Sample.cfg Sample.platform 10 w
     = Done tt (with_statics
                  (fun s => set_input_queue_drop (input_queue_drop s + 1) s) w).
Proof.
  split; [reflexivity |].
  apply (tsch_rx_slot_input_ring_full Sample.cfg Sample.platform).
  reflexivity.
Defined.

(** C2, the claim as stated fails: the input ring is full and a packet
    is pending in the radio (its next answer to [pending_packet] is 1);
    the RX slot counts the drop, sends no command at all (no
    [RadioRead]), and the packet is still pending afterwards. *)
Lemma tsch_rx_slot_input_ring_full_no_drain :
  let w := Sample.world_rings_full [1; 4; 8; 0; 2; 0] in
  ringbufindex_peek_put (input_ringbuf (rings w)) = -1
  /\ fst (radio_pending_packet Sample.platform (ext w)) = 1
  /\ exists w',
       tsch_rx_slot Sample.cfg Sample.platform 10 w = Done tt w'
       /\ input_queue_drop (statics w') = 1
       /\ calls w' = calls w
       /\ fst (radio_pending_packet Sample.platform (ext w')) = 1.
Proof.
  split; [reflexivity | split; [reflexivity |]].
  eexists. split; [cbv; reflexivity |]. repeat split; reflexivity.
Qed.

(** ** Reasoning about runs *)

Ltac run_monad :=
  unfold when, TSCH_LOG_ADD, set_status;
  unfold bind, pure, get, modify, command, request, query.

(** The commands a run added in front of [t]. *)
Ltac prefix_of l t :=
  lazymatch l with
  | t => constr:(@nil call)
  | ?c :: ?l' => let r := prefix_of l' t in constr:(c :: r)
  end.

Section Frames.

Context {X A B : Type}.
Variable f : World X -> B.

Lemma keeps_pure (a : A) : keeps f (pure a).
Proof. intros w a' w' H. inversion H. reflexivity. Qed.

Lemma keeps_get : keeps f (@get X).
Proof. intros w a' w' H. inversion H. reflexivity. Qed.

Lemma keeps_fault : keeps f (@fault X A).
Proof. intros w a' w' H. discriminate. Qed.

Lemma keeps_out_of_fuel : keeps f (@out_of_fuel X A).
Proof. intros w a' w' H. discriminate. Qed.

Lemma keeps_modify (g : World X -> World X) :
  (forall w, f (g w) = f w) -> keeps f (modify g).
Proof. intros Hg w a' w' H. inversion H. apply Hg. Qed.

Lemma keeps_bind {C : Type} (m : M X C) (k : C -> M X A) :
  keeps f m -> (forall c, keeps f (k c)) -> keeps f (bind m k).
Proof.
  intros Hm Hk w a w' H. unfold bind in H.
  destruct (m w) as [c w1 | |] eqn:Hrun; try discriminate.
  rewrite (Hk c w1 a w' H). exact (Hm w c w1 Hrun).
Qed.

Lemma keeps_when (b : bool) (m : M X unit) :
  keeps f m -> keeps f (when b m).
Proof.
  intros Hm. destruct b; [exact Hm |].
  intros w a w' H. inversion H. reflexivity.
Qed.

End Frames.

Section FramesOfCalls.

Context {X A B : Type}.
Variable P : Platform X.
Variable f : World X -> B.
Hypothesis f_ext : forall x w, f (with_ext x w) = f w.

Lemma keeps_query (q : X -> A * X) : keeps f (query q).
Proof.
  intros w a w' H. unfold query in H. destruct (q (ext w)).
  inversion H. apply f_ext.
Qed.

Hypothesis f_call : forall c w, f (with_call c w) = f w.

Lemma keeps_command (c : call) : keeps f (command P c).
Proof.
  intros w a w' H. inversion H. now rewrite f_ext, f_call.
Qed.

Lemma keeps_request (c : call) (q : X -> A * X) : keeps f (request c q).
Proof.
  intros w a w' H. unfold request in H. destruct (q (ext w)).
  inversion H. now rewrite f_ext, f_call.
Qed.

End FramesOfCalls.

(** One step of a frame proof, for an observation that neither the
    external state nor the list of commands touches. *)
Ltac keeps_step :=
  first
    [ solve [auto 1]
    | apply keeps_pure
    | apply keeps_get
    | apply keeps_fault
    | apply keeps_out_of_fuel
    | apply keeps_query; reflexivity
    | apply keeps_command; reflexivity
    | apply keeps_request; reflexivity
    | apply keeps_modify; reflexivity
    | apply keeps_when
    | apply keeps_bind; [| intro]
    | match goal with
      | |- keeps _ (if ?b then _ else _) => destruct b
      | |- keeps _ (match ?x with _ => _ end) => destruct x
      | |- keeps _ (let _ := _ in _) => cbv zeta
      end ].

Ltac keeps_auto := repeat keeps_step.

Section TimingFrames.

Context {X B : Type}.
Variable cfg : Config.
Variable P : Platform X.
Variable f : World X -> B.
Hypothesis f_ext : forall x w, f (with_ext x w) = f w.
Hypothesis f_call : forall c w, f (with_call c w) = f w.

Lemma keeps_tsch_schedule_slot_operation (ref_time offset : Z) :
  keeps f (tsch_schedule_slot_operation cfg P ref_time offset).
Proof.
  unfold tsch_schedule_slot_operation, RTIMER_NOW.
  apply keeps_bind; [now apply keeps_query | intro now].
  cbv zeta. destruct (check_timer_miss _ _ _ _); [apply keeps_pure |].
  apply keeps_bind; [now apply keeps_request | intro r].
  destruct (negb _); apply keeps_pure.
Qed.

Lemma keeps_BUSYWAIT_UNTIL_ABS {L : Type} (fuel : nat)
  (cond : L -> M X (bool * L)) (l : L) (t0 offset : Z) :
  (forall l', keeps f (cond l')) ->
  keeps f (BUSYWAIT_UNTIL_ABS cfg P fuel cond l t0 offset).
Proof.
  intros Hcond. revert l.
  induction fuel as [| fuel IH]; intros l; cbn [BUSYWAIT_UNTIL_ABS].
  - apply keeps_out_of_fuel.
  - apply keeps_bind; [apply Hcond | intro r].
    destruct (fst r); [apply keeps_pure |].
    apply keeps_bind; [now apply keeps_query | intro now].
    destruct (RTIMER_CLOCK_LT _ _ _); [apply IH | apply keeps_pure].
Qed.

Lemma keeps_TSCH_SCHEDULE_AND_YIELD (fuel : nat) (ref_time offset : Z) :
  keeps f (TSCH_SCHEDULE_AND_YIELD cfg P fuel ref_time offset).
Proof.
  unfold TSCH_SCHEDULE_AND_YIELD.
  apply keeps_bind; [apply keeps_tsch_schedule_slot_operation | intro s].
  apply keeps_bind;
    [apply keeps_when; now apply keeps_command | intros _].
  apply keeps_BUSYWAIT_UNTIL_ABS. intro l. apply keeps_pure.
Qed.

End TimingFrames.

(** ** Post-TX neighbor update *)

Section NeighborUpdateProperties.

Context {X : Type}.
Variable cfg : Config.
Variable P : Platform X.

(** C5.  [update_neighbor_state] returns [in_queue = 0], and asks the
    queue module to remove the packet, exactly when the status is OK or
    the status is not OK and [transmissions >= MAX_FRAME_RETRIES + 1].
    For a unicast neighbor the backoff is reset exactly on a success on
    a shared link or with the queue empty (after the removal), and the
    backoff exponent is incremented (and a window drawn, by
    [tsch_queue_backoff_inc]) exactly on a failure on a shared link.
    Nothing else is asked of the queues: a failure on a dedicated link
    sends no backoff command. *)
Theorem update_neighbor_state_outcome (n : tsch_neighbor) (p : Z)
  (link : tsch_link) (status : Z) (w : World X) :
  let ok := status = MAC_TX_OK cfg in
  let exhausted :=
    transmissions (packets w p) >= TSCH_MAC_MAX_FRAME_RETRIES cfg + 1 in
  let shared := Z.land (link_options link) (LINK_OPTION_SHARED cfg) <> 0 in
  let unicast := is_broadcast n = false in
  let queue_empty :=
    fst (tsch_queue_is_empty P n
           (effect P (QueueRemovePacketFromQueue n) (ext w))) <> 0 in
  exists (in_queue : bool) (w' : World X) (sent : list call),
    update_neighbor_state cfg P n p link status w = Done in_queue w'
    /\ calls w' = sent ++ calls w
    /\ packets w' = packets w
    /\ (in_queue = false <-> ok \/ (~ ok /\ exhausted))
    /\ (In (QueueRemovePacketFromQueue n) sent <-> ok \/ (~ ok /\ exhausted))
    /\ (In (QueueBackoffReset n) sent
        <-> unicast /\ ok /\ (shared \/ queue_empty))
    /\ (In (QueueBackoffInc n) sent <-> unicast /\ ~ ok /\ shared)
    /\ (forall c, In c sent ->
          c = QueueRemovePacketFromQueue n \/ c = QueueBackoffReset n
          \/ c = QueueBackoffInc n).
Proof.
  intros ok exhausted shared unicast queue_empty.
  subst ok exhausted shared unicast queue_empty.
  unfold update_neighbor_state, truthy.
  destruct (Z.eqb_spec status (MAC_TX_OK cfg)) as [Hok | Hok];
    destruct (Z.eqb_spec (Z.land (link_options link) (LINK_OPTION_SHARED cfg))
                0) as [Hsh | Hsh];
    destruct (is_broadcast n) eqn:Hb; cbn [negb];
    run_monad; cbn [ext with_ext with_call].
  all: try destruct (tsch_queue_is_empty P n
                       (effect P (QueueRemovePacketFromQueue n) (ext w)))
         as [e x1] eqn:He;
       cbn [fst snd].
  all: try destruct (Z.eqb_spec e 0) as [He0 | He0]; cbn [negb].
  all: try destruct (Z.geb_spec (transmissions (packets w p))
                       (TSCH_MAC_MAX_FRAME_RETRIES cfg + 1)) as [Hx | Hx].
  all: do 3 eexists; (split; [reflexivity |]);
       (split;
        [ lazymatch goal with
          | |- calls ?W = _ =>
              let l := eval cbn [calls with_ext with_call] in (calls W) in
              let s := prefix_of l (calls w) in
              exact (@eq_refl _ (s ++ calls w))
          end |]);
       (split; [reflexivity |]).
  all: cbn [In]; repeat split; intros;
       intuition (try discriminate; try congruence; try lia).
Qed.

Lemma keeps_sync_update_neighbor_state (n : tsch_neighbor) (p : Z)
  (link : tsch_link) (status : Z) :
  keeps sync (update_neighbor_state cfg P n p link status).
Proof. unfold update_neighbor_state. keeps_auto. Qed.

Lemma keeps_sync_tx_finish (dequeued_index : Z) :
  keeps sync (tx_finish cfg P dequeued_index).
Proof.
  unfold tx_finish, tsch_radio_off, TSCH_LOG_ADD.
  keeps_auto. apply keeps_sync_update_neighbor_state.
Qed.

End NeighborUpdateProperties.

(** ** The time correction of an enhanced ACK *)

Section TxAckProperties.

Context {X : Type}.
Variable cfg : Config.
Variable P : Platform X.

Lemma tx_eack_time_correction_outcome (ack_ies : ieee802154_ies)
  (w : World X) :
  exists w',
    tx_eack_time_correction cfg P ack_ies w = Done tt w'
    /\ sync w' =
       set_last_sync_asn (tsch_current_asn (sync w))
         (set_is_drift_correction_used true (set_drift_correction 0 (sync w)))
    /\ In (TimesyncUpdate (current_neighbor (binding w))
             (int32 (TSCH_ASN_DIFF cfg (tsch_current_asn (sync w))
                       (last_sync_asn (sync w)))) 0) (calls w')
    /\ In ScheduleKeepalive (calls w').
Proof.
  unfold tx_eack_time_correction. run_monad.
  destruct (_ >? SYNC_IE_BOUND cfg); [| destruct (_ <? - SYNC_IE_BOUND cfg)];
    cbn; destruct (negb _); cbn; eexists; repeat split; simpl; auto 10.
Qed.

(** C1 (amended).  When the ACK read in a unicast TX slot is not empty,
    parses as the enhanced ACK of the packet and (with link-layer
    security) authenticates, and the current neighbor is a time source,
    then whatever raw time correction [r] it carries the drift
    correction left for the next slot is 0 (so within [SYNC_IE_BOUND]),
    the adaptive timesync is fed 0 with the slot count since the last
    sync, [last_sync_asn] becomes the current ASN, a keep-alive is
    scheduled and the status is OK; the rest of the TX slot
    ([tx_finish]) leaves this as it is. *)
Theorem tx_process_ack_time_source (ackbuf : list Z) (ack_len seqno : Z)
  (n : tsch_neighbor) (w : World X) :
  let parsed := tsch_packet_parse_eack P ackbuf ack_len seqno in
  let ack_frame := snd (fst (fst parsed)) in
  let ack_hdrlen := u8 (snd parsed) in
  0 <= SYNC_IE_BOUND cfg ->
  ack_len > 0 ->
  fst (fst (fst parsed)) <> 0 ->
  (LLSEC802154_ENABLED cfg = true ->
   fst (tsch_security_parse_frame P ackbuf ack_hdrlen
          (ack_len - ack_hdrlen - tsch_security_mic_len P ack_frame)
          ack_frame (nbr_addr n) (tsch_current_asn (sync w))) <> 0) ->
  current_neighbor (binding w) = Some n ->
  is_time_source n = true ->
  exists w',
    tx_process_ack cfg P ackbuf ack_len seqno w = Done tt w'
    /\ drift_correction (sync w') = 0
    /\ Z.abs (drift_correction (sync w')) <= SYNC_IE_BOUND cfg
    /\ is_drift_correction_used (sync w') = true
    /\ last_sync_asn (sync w') = tsch_current_asn (sync w)
    /\ tsch_current_asn (sync w') = tsch_current_asn (sync w)
    /\ mac_tx_status (statics w') = MAC_TX_OK cfg
    /\ In (TimesyncUpdate (Some n)
             (int32 (TSCH_ASN_DIFF cfg (tsch_current_asn (sync w))
                       (last_sync_asn (sync w)))) 0) (calls w')
    /\ In ScheduleKeepalive (calls w')
    /\ forall dequeued_index w'',
         tx_finish cfg P dequeued_index w' = Done tt w'' ->
         drift_correction (sync w'') = 0
         /\ last_sync_asn (sync w'') = tsch_current_asn (sync w'').
Proof.
  intros parsed ack_frame ack_hdrlen Hbound Hlen Hparsed Hauth Hn Hts.
  set (ack_ies := snd (fst parsed)).
  unfold tx_process_ack.
  unfold bind at 1. unfold get at 1.
  rewrite Hn, Hts.
  destruct (Z.gtb_spec ack_len 0) as [_ | ?]; [| lia].
  fold parsed. fold ack_frame. fold ack_ies.
  destruct (Z.eqb_spec (fst (fst (fst parsed))) 0) as [? | _];
    [contradiction |].
  destruct (tx_eack_time_correction_outcome ack_ies w)
    as (w1 & Hrun & Hsync & Hcall & Hkeep).
  assert (Hfinal : exists w',
            (when true (tx_eack_time_correction cfg P ack_ies) ;;
             set_status (MAC_TX_OK cfg)) w = Done tt w'
            /\ sync w' = sync w1 /\ calls w' = calls w1
            /\ mac_tx_status (statics w') = MAC_TX_OK cfg).
  { unfold bind, when. rewrite Hrun. unfold set_status, modify.
    eexists. repeat split. }
  destruct Hfinal as (w' & Hrun' & Hsync' & Hcalls' & Hstatus).
  exists w'. split.
  - destruct (LLSEC802154_ENABLED cfg) eqn:Hsec.
    + destruct (Z.eqb_spec ack_len 0) as [? | _]; [lia |]. cbn [negb].
      fold ack_hdrlen.
      destruct (Z.eqb_spec
                  (fst (tsch_security_parse_frame P ackbuf ack_hdrlen
                          (ack_len - ack_hdrlen
                           - tsch_security_mic_len P ack_frame)
                          ack_frame (nbr_addr n) (tsch_current_asn (sync w))))
                  0) as [Hz | _]; [exfalso; now apply Hauth |].
      unfold bind at 1 2. unfold pure at 1 2. cbn [fst snd].
      destruct (Z.eqb_spec ack_len 0) as [? | _]; [lia |]. exact Hrun'.
    + unfold bind at 1 2. unfold pure at 1 2. cbn [fst snd].
      destruct (Z.eqb_spec ack_len 0) as [? | _]; [lia |]. exact Hrun'.
  - rewrite Hcalls'. rewrite Hn in Hcall.
    assert (Hs : sync w' =
                 set_last_sync_asn (tsch_current_asn (sync w))
                   (set_is_drift_correction_used true
                      (set_drift_correction 0 (sync w))))
      by now rewrite Hsync'.
    rewrite Hs. cbn.
    repeat split; auto; try lia.
    all: rewrite (keeps_sync_tx_finish cfg P _ _ _ _ H), Hs; reflexivity.
Qed.

End TxAckProperties.

(** An ACK [1; 120; 7] (accepted, time correction 120 us, sequence
    number 7) from the time source [N1]. *)
Lemma tx_process_ack_time_source_witness :
  exists w',
    tx_process_ack Sample.cfg Sample.platform [1; 120; 7] 3 7
      (Sample.world []) = Done tt w'
    /\ drift_correction (sync w') = 0
    /\ last_sync_asn (sync w') = 1000.
Proof.
  destruct (tx_process_ack_time_source Sample.cfg Sample.platform
              [1; 120; 7] 3 7 Sample.N1 (Sample.world []))
    as (w' & Hrun & Hdrift & _ & _ & Hsync & _).
  - vm_compute. discriminate.
  - reflexivity.
  - vm_compute. discriminate.
  - discriminate.
  - reflexivity.
  - reflexivity.
  - exists w'. repeat split; assumption.
Defined.

(** C1, the claim as stated fails.  Scenario 1 of the design: a 50-byte
    unicast packet to the time source [N1] on a dedicated TX link, the
    radio transmits it, and the enhanced ACK carries a time correction
    of 120 us, which is 4 ticks, within the bound of 18 ticks.  The slot
    ends with status OK, one transmission and the packet dequeued, but
    the drift correction is 0, not 4: it is neither
    [clamp(US_TO_TICKS(120), SYNC_BOUND)] nor of the sign of the raw
    correction. *)
Lemma tsch_tx_slot_eack_drift_discarded :
  let r := US_TO_RTIMERTICKS Sample.cfg 120 in
  let bound := SYNC_IE_BOUND Sample.cfg in
  r = 4 /\ bound = 18
  /\ exists w',
       tsch_tx_slot Sample.cfg Sample.platform 10
         (Sample.world [0; 5010; 0; 5069; 0; 5130; 0; 5151; 1; 5160; 0;
                        3; 1; 120; 7; 1]) = Done tt w'
       /\ mac_tx_status (statics w') = MAC_TX_OK Sample.cfg
       /\ transmissions (packets w' 16) = 1
       /\ dequeued_array (rings w') = [Some 16; None; None; None]
       /\ In (TimesyncUpdate (Some Sample.N1) 10 0) (calls w')
       /\ last_sync_asn (sync w') = tsch_current_asn (sync w')
       /\ drift_correction (sync w') = 0
       /\ drift_correction (sync w') <> Z.max (- bound) (Z.min r bound)
       /\ Z.sgn (drift_correction (sync w')) <> Z.sgn r.
Proof.
  split; [reflexivity | split; [reflexivity |]].
  eexists. split; [cbv; reflexivity |].
  repeat split; try reflexivity; try (cbv; auto 20; fail);
    cbv; discriminate.
Qed.

(** ** Resynchronisation on a beacon *)

Section RxSyncProperties.

Context {X : Type}.
Variable cfg : Config.
Variable P : Platform X.

(** A frame that asks for no ACK: its processing is the time
    synchronisation and the commit, nothing is waited for. *)
Lemma rx_frame_for_us_no_ack (fuel : nat) (input_index : Z)
  (expected_rx_time rx_start_time packet_duration : Z) (w : World X) :
  fcf_ack_required (frame (statics w)) = 0 ->
  rx_frame_for_us cfg P fuel input_index expected_rx_time rx_start_time
    packet_duration w
  = rx_timesync_and_commit cfg P input_index
      (rx_estimated_drift cfg expected_rx_time rx_start_time) w.
Proof.
  intros Hack. unfold rx_frame_for_us, rx_send_ack.
  unfold bind at 1, get at 1. rewrite Hack. change (truthy 0) with false.
  destruct (TSCH_CALLBACK_DO_NACK P);
    unfold bind at 1, pure at 1; unfold bind at 1; unfold bind at 1, get at 1;
    rewrite Hack; reflexivity.
Qed.

End RxSyncProperties.

(** ** The executor leaves the lock to the foreground

    Neither [tsch_locked] nor [tsch_lock_requested] is written by the
    slot operation. *)

Section ExecutorLeavesLock.
Context {X : Type}.
Variable cfg : Config.
Variable P : Platform X.


















End ExecutorLeavesLock.

(** ** The slot executor *)

Section ExecutorProperties.
Context {X : Type}.
Variable cfg : Config.
Variable P : Platform X.

Lemma rt_sum (a e c : Z) :
  rt cfg (rt cfg (a + rt cfg e) + c) = rt cfg (a + (e + c)).
Proof.
  unfold rt, wrap.
  rewrite Zplus_mod_idemp_l.
  replace (a + e mod 2 ^ RTIMER_BITS cfg + c)
    with (e mod 2 ^ RTIMER_BITS cfg + (a + c)) by ring.
  rewrite Zplus_mod_idemp_l. f_equal. ring.
Qed.

(** C4.  One round of the rescheduling loop.  [slots_until] is what the
    schedule answered, or 1 when it found no next link; provided the
    schedule answers at least 1 (and a value of its 16-bit type) when it
    does find a link, [slots_until >= 1], the ASN advances by exactly
    [slots_until] (in the modular arithmetic of the ASN), and the slot
    start advances (in timer arithmetic) by exactly
    [slots_until * ts[timeslot_length]] plus the drift correction plus
    the adaptive compensation of that interval; the drift correction is
    then 0 and marked unused, so it is applied once. *)
Theorem schedule_next_slot_round_advance (timeslot_diff : Z) (w : World X) :
  let x0 :=
    match current_link (binding w) with
    | Some link =>
        if has_option link (LINK_OPTION_TX cfg)
           && has_option link (LINK_OPTION_SHARED cfg)
        then effect P (QueueUpdateAllBackoffWindows (link_addr link)) (ext w)
        else ext w
    | None => ext w
    end in
  let next :=
    tsch_schedule_get_next_active_link P (tsch_current_asn (sync w))
      timeslot_diff (backup_link (binding w)) x0 in
  let next_link := fst (fst (fst next)) in
  let slots_until :=
    match next_link with
    | Some _ => u16 (snd (fst (fst next)))
    | None => 1
    end in
  let timeslot_length := tsch_timing (tsch w) tsch_ts_timeslot_length in
  let interval :=
    rt cfg (slots_until * timeslot_length + drift_correction (sync w)) in
  let compensation :=
    fst (tsch_timesync_adaptive_compensate P interval (snd next)) in
  (next_link <> None -> 1 <= snd (fst (fst next)) < 2 ^ 16) ->
  exists w',
    schedule_next_slot_round cfg P timeslot_diff w
    = Done (slots_until, current_slot_start (sync w), interval) w'
    /\ 1 <= slots_until
    /\ (next_link = None -> slots_until = 1)
    /\ current_link (binding w') = next_link
    /\ tsch_current_asn (sync w')
       = (tsch_current_asn (sync w) + slots_until) mod 2 ^ ASN_BITS cfg
    /\ current_slot_start (sync w')
       = rt cfg (current_slot_start (sync w)
                 + (slots_until * timeslot_length + drift_correction (sync w)
                    + compensation))
    /\ drift_correction (sync w') = 0
    /\ is_drift_correction_used (sync w') = false.
Proof.
  intros x0 next next_link slots_until timeslot_length interval compensation
    Hcontract.
  assert (Hslots : 1 <= slots_until).
  { subst slots_until.
    destruct next_link as [l |] eqn:Hl; [| lia].
    assert (Hd : 1 <= snd (fst (fst next)) < 2 ^ 16)
      by (apply Hcontract; discriminate).
    unfold u16, wrap. rewrite Z.mod_small; lia. }
  assert (Hdefault : next_link = None -> slots_until = 1).
  { intro H. subst slots_until. now rewrite H. }
  revert Hslots Hdefault.
  subst compensation interval timeslot_length slots_until next_link next x0.
  unfold schedule_next_slot_round. run_monad.
  destruct (current_link (binding w)) as [link |];
    [destruct (has_option link (LINK_OPTION_TX cfg)
               && has_option link (LINK_OPTION_SHARED cfg)) |].
  all: cbn [ext with_ext with_call];
    destruct (tsch_schedule_get_next_active_link P _ _ _ _)
      as [[[l d] b] x'];
    cbn [fst snd ext with_ext with_call with_binding with_sync];
    destruct (tsch_timesync_adaptive_compensate P _ x') as [c x''];
    cbn [fst snd]; intros Hslots Hdefault;
    eexists; (split; [reflexivity |]);
    cbn; repeat split; auto; apply rt_sum.
Qed.

Lemma schedule_slot_operation_done (ref_time offset : Z) (w : World X) :
  exists s w',
    tsch_schedule_slot_operation cfg P ref_time offset w = Done s w'
    /\ (s = true ->
        calls w' = RtimerSet (rt cfg (ref_time + offset)) :: calls w)
    /\ (s = false ->
        calls w' = calls w
        \/ calls w' = RtimerSet (rt cfg (ref_time + offset)) :: calls w).
Proof.
  unfold tsch_schedule_slot_operation, RTIMER_NOW. run_monad.
  destruct (rtimer_now P (ext w)) as [now x1].
  destruct (check_timer_miss cfg ref_time (rt cfg (offset - RTIMER_GUARD cfg))
              now).
  - do 2 eexists. split; [reflexivity |]. split; [discriminate | now left].
  - change (ext (with_ext x1 w)) with x1.
    destruct (rtimer_set P (rt cfg (ref_time + offset)) x1) as [r x2].
    destruct (negb (r =? RTIMER_OK cfg));
      do 2 eexists; (split; [reflexivity |]); split;
      try discriminate; intros _; try right; reflexivity.
Qed.







(** *** The lock *)

Section Lock.

Hypothesis others_leave_request :
  forall flags x, snd (fst (fst (preempt P flags x))) = snd (fst flags).




End Lock.
End ExecutorProperties.

Lemma schedule_next_slot_round_advance_witness :
  exists w',
    schedule_next_slot_round Sample.cfg Sample.platform 0
      (with_sync (set_drift_correction (-7)) (Sample.world [2; 3; 1]))
    = Done (3, 5000, 977) w'
    /\ tsch_current_asn (sync w') = 1003
    /\ current_slot_start (sync w') = 5978
    /\ drift_correction (sync w') = 0.
Proof.
  destruct (schedule_next_slot_round_advance Sample.cfg Sample.platform 0
              (with_sync (set_drift_correction (-7))
                 (Sample.world [2; 3; 1])))
    as (w' & Hrun & _ & _ & _ & Hasn & Hstart & Hdrift & _).
  - intros _. vm_compute. split; [discriminate | reflexivity].
  - exists w'. repeat split; assumption.
Defined.


(** * Further properties

    Properties of the same functions that the code shows beyond those
    of the design document: which commands each function can send, what
    it leaves alone, and how it behaves at its edges. *)

(** ** Runs, commands and frames *)

Section Runs.

Context {X A B : Type}.

Lemma bind_done (m : M X A) (k : A -> M X B) (w w' : World X) (b : B) :
  bind m k w = Done b w' ->
  exists a w1, m w = Done a w1 /\ k a w1 = Done b w'.
Proof.
  unfold bind. destruct (m w) as [a w1 | |]; try discriminate.
  intros H. now exists a, w1.
Qed.

End Runs.

Section Emits.

Context {X A : Type}.
Variable q : call -> bool.

Lemma emits_pure (a : A) : emits q (@pure X A a).
Proof. intros w a' w' H. inversion H. now exists []. Qed.

Lemma emits_get : emits q (@get X).
Proof. intros w a w' H. inversion H. now exists []. Qed.

Lemma emits_fault : emits q (@fault X A).
Proof. intros w a w' H. discriminate. Qed.

Lemma emits_out_of_fuel : emits q (@out_of_fuel X A).
Proof. intros w a w' H. discriminate. Qed.

Lemma emits_modify (g : World X -> World X) :
  (forall w, calls (g w) = calls w) -> emits q (modify g).
Proof. intros Hg w a w' H. inversion H. exists []. now rewrite Hg. Qed.

Lemma emits_query (f : X -> A * X) : emits q (query f).
Proof.
  intros w a w' H. unfold query in H. destruct (f (ext w)).
  inversion H. now exists [].
Qed.

Lemma emits_request (c : call) (f : X -> A * X) :
  q c = true -> emits q (request c f).
Proof.
  intros Hc w a w' H. unfold request in H. destruct (f (ext w)).
  inversion H. exists [c]. cbn. now rewrite Hc.
Qed.

Lemma emits_bind {C : Type} (m : M X C) (k : C -> M X A) :
  emits q m -> (forall c, emits q (k c)) -> emits q (bind m k).
Proof.
  intros Hm Hk w a w' H.
  destruct (bind_done _ _ _ _ _ H) as (c & w1 & H1 & H2).
  destruct (Hm _ _ _ H1) as (s1 & E1 & Q1).
  destruct (Hk c _ _ _ H2) as (s2 & E2 & Q2).
  exists (s2 ++ s1). rewrite E2, E1, app_assoc. split; [reflexivity |].
  rewrite forallb_app. now rewrite Q1, Q2.
Qed.

End Emits.

Section EmitsUnit.

Context {X : Type}.
Variable P : Platform X.
Variable q : call -> bool.

Lemma emits_command (c : call) : q c = true -> emits q (command P c).
Proof.
  intros Hc w a w' H. inversion H. exists [c]. cbn. now rewrite Hc.
Qed.

Lemma emits_when (b : bool) (m : M X unit) : emits q m -> emits q (when b m).
Proof. intros Hm. destruct b; [exact Hm | apply emits_pure]. Qed.

End EmitsUnit.

(** Once sent, a command stays in the record. *)
Lemma calls_grow {X A : Type} (m : M X A) (w w' : World X) (a : A)
  (c : call) :
  emits (fun _ => true) m -> m w = Done a w' ->
  In c (calls w) -> In c (calls w').
Proof.
  intros Hm Hrun Hin. destruct (Hm _ _ _ Hrun) as (s & -> & _).
  apply in_or_app. now right.
Qed.

Ltac emits_step :=
  first
    [ solve [auto 1]
    | apply emits_pure
    | apply emits_get
    | apply emits_fault
    | apply emits_out_of_fuel
    | apply emits_query
    | apply emits_modify; reflexivity
    | apply emits_when
    | apply emits_bind; [| intro]
    | match goal with
      | |- emits _ (if ?b then _ else _) => destruct b
      | |- emits _ (match ?x with _ => _ end) => destruct x
      | |- emits _ (let _ := _ in _) => cbv zeta
      end ].

Ltac emits_call :=
  first
    [ apply emits_command; solve [reflexivity | auto 1]
    | apply emits_request; solve [reflexivity | auto 1] ].

Ltac emits_walk := repeat first [ emits_call | emits_step ].

(** *** The commands of each function

    For a class [q] of commands: each function sends only commands of
    [q] as soon as [q] holds of the commands listed before it. *)

Section EmitsOfFunctions.

Context {X : Type}.
Variable cfg : Config.
Variable P : Platform X.
Variable q : call -> bool.

Hypothesis q_log : forall r, q (LogAdd r) = true.
Hypothesis q_timer : forall t, q (RtimerSet t) = true.
Hypothesis q_yield : q PtYield = true.
Hypothesis q_on : q RadioOn = true.
Hypothesis q_off : q RadioOff = true.
Hypothesis q_prepare : forall b n, q (RadioPrepare b n) = true.
Hypothesis q_transmit : forall n, q (RadioTransmit n) = true.
Hypothesis q_read : forall n, q (RadioRead n) = true.
Hypothesis q_set_value : forall a b, q (RadioSetValue a b) = true.
Hypothesis q_remove : forall n, q (QueueRemovePacketFromQueue n) = true.
Hypothesis q_reset : forall n, q (QueueBackoffReset n) = true.
Hypothesis q_inc : forall n, q (QueueBackoffInc n) = true.
Hypothesis q_windows : forall a, q (QueueUpdateAllBackoffWindows a) = true.
Hypothesis q_timesync : forall n s d, q (TimesyncUpdate n s d) = true.
Hypothesis q_keepalive : q ScheduleKeepalive = true.
Hypothesis q_poll : q ProcessPoll = true.
Hypothesis q_disassociate : q Disassociate = true.

Lemma emits_tsch_schedule_slot_operation (ref_time offset : Z) :
  emits q (tsch_schedule_slot_operation cfg P ref_time offset).
Proof. unfold tsch_schedule_slot_operation, RTIMER_NOW. emits_walk. Qed.

Lemma emits_BUSYWAIT_UNTIL_ABS {L : Type} (fuel : nat)
  (cond : L -> M X (bool * L)) (l : L) (t0 offset : Z) :
  (forall l', emits q (cond l')) ->
  emits q (BUSYWAIT_UNTIL_ABS cfg P fuel cond l t0 offset).
Proof.
  intros Hcond. revert l.
  induction fuel as [| fuel IH]; intros l; cbn [BUSYWAIT_UNTIL_ABS];
    unfold RTIMER_NOW; emits_walk.
Qed.

Lemma emits_TSCH_SCHEDULE_AND_YIELD (fuel : nat) (ref_time offset : Z) :
  emits q (TSCH_SCHEDULE_AND_YIELD cfg P fuel ref_time offset).
Proof.
  pose proof emits_tsch_schedule_slot_operation.
  unfold TSCH_SCHEDULE_AND_YIELD. emits_walk.
  apply emits_BUSYWAIT_UNTIL_ABS. intro. apply emits_pure.
Qed.

Ltac emits_slot :=
  repeat first
    [ apply emits_TSCH_SCHEDULE_AND_YIELD
    | apply emits_BUSYWAIT_UNTIL_ABS; intro
    | emits_call
    | emits_step ].

Lemma emits_tsch_radio_on cmd : emits q (tsch_radio_on cfg P cmd).
Proof. unfold tsch_radio_on. emits_slot. Qed.

Lemma emits_tsch_radio_off cmd : emits q (tsch_radio_off cfg P cmd).
Proof. unfold tsch_radio_off. emits_slot. Qed.

Lemma emits_update_neighbor_state n p link status :
  emits q (update_neighbor_state cfg P n p link status).
Proof. unfold update_neighbor_state. emits_slot. Qed.

Lemma emits_tx_finish idx : emits q (tx_finish cfg P idx).
Proof.
  pose proof emits_update_neighbor_state. pose proof emits_tsch_radio_off.
  unfold tx_finish, TSCH_LOG_ADD. emits_slot.
Qed.

Lemma emits_tx_process_ack ackbuf ack_len seqno :
  emits q (tx_process_ack cfg P ackbuf ack_len seqno).
Proof.
  unfold tx_process_ack, tx_eack_time_correction, TSCH_LOG_ADD, set_status.
  emits_slot.
Qed.

Lemma emits_tx_wait_for_ack fuel a b c :
  emits q (tx_wait_for_ack cfg P fuel a b c).
Proof.
  pose proof emits_tx_process_ack. pose proof emits_tsch_radio_off.
  pose proof emits_tsch_radio_on.
  unfold tx_wait_for_ack, receiving_packet, RTIMER_NOW. emits_slot.
Qed.

Lemma emits_tx_transmit fuel p b packet n :
  emits q (tx_transmit cfg P fuel p b packet n).
Proof.
  unfold tx_transmit, tx_guard_beacon_shot, tx_poke, tx_reload, RTIMER_NOW,
    set_status.
  emits_slot.
Qed.

Lemma emits_tx_after_cca fuel p b packet n s :
  emits q (tx_after_cca cfg P fuel p b packet n s).
Proof.
  pose proof emits_tx_wait_for_ack. pose proof emits_tx_transmit.
  pose proof emits_tsch_radio_off.
  unfold tx_after_cca, set_status. emits_slot.
Qed.

Lemma emits_tx_attempt fuel p : emits q (tx_attempt cfg P fuel p).
Proof.
  pose proof emits_tx_after_cca.
  pose proof emits_tsch_radio_off. pose proof emits_tsch_radio_on.
  unfold tx_attempt, tx_reload, set_status. emits_slot.
Qed.

Lemma emits_tsch_tx_slot fuel : emits q (tsch_tx_slot cfg P fuel).
Proof.
  pose proof emits_tx_attempt. pose proof emits_tx_finish.
  unfold tsch_tx_slot, set_status. emits_slot.
Qed.

Lemma emits_rx_drain_radio fuel idx : emits q (rx_drain_radio cfg P fuel idx).
Proof.
  induction fuel as [| fuel IH]; cbn [rx_drain_radio];
    unfold pending_packet, read_into_current_input, set_current_input;
    emits_slot.
Qed.

Lemma emits_rx_frame_for_us fuel idx a b c :
  emits q (rx_frame_for_us cfg P fuel idx a b c).
Proof.
  pose proof emits_tsch_radio_off.
  unfold rx_frame_for_us, rx_send_ack, rx_timesync_and_commit, rx_timesync,
    rx_resynchronise, TSCH_LOG_ADD.
  emits_slot.
Qed.

Lemma emits_rx_received_frame fuel idx a b :
  emits q (rx_received_frame cfg P fuel idx a b).
Proof.
  pose proof emits_rx_frame_for_us.
  unfold rx_received_frame, read_into_current_input, set_current_input_len,
    set_current_input, TSCH_LOG_ADD.
  emits_slot.
Qed.

Lemma emits_tsch_rx_slot fuel : emits q (tsch_rx_slot cfg P fuel).
Proof.
  pose proof emits_rx_received_frame. pose proof emits_rx_drain_radio.
  pose proof emits_tsch_radio_off. pose proof emits_tsch_radio_on.
  unfold tsch_rx_slot, receiving_or_pending, receiving_packet, pending_packet,
    RTIMER_NOW, TSCH_LOG_ADD.
  emits_slot.
Qed.

Lemma emits_schedule_next_slot fuel d :
  emits q (schedule_next_slot cfg P fuel d).
Proof.
  pose proof emits_tsch_schedule_slot_operation.
  revert d. induction fuel as [| fuel IH]; intros d; cbn [schedule_next_slot];
    unfold schedule_next_slot_round; emits_slot.
Qed.

Lemma emits_slot_operation_end fuel :
  emits q (slot_operation_end cfg P fuel).
Proof.
  pose proof emits_schedule_next_slot.
  unfold slot_operation_end, tsch_disassociate, TSCH_LOG_ADD. emits_slot.
Qed.

End EmitsOfFunctions.

(** *** What each function leaves alone

    For an observation [f] of the world: each function keeps [f] as
    soon as [f] ignores the writes listed before it. *)

(** A write that the observation ignores, by computation or by one of
    the hypotheses at hand. *)
Ltac ignored :=
  intros;
  first
    [ reflexivity
    | match goal with
      | H : forall _, _ |- _ => apply H
      end ].

Ltac frame_call :=
  first
    [ apply keeps_query; ignored
    | apply keeps_command; ignored
    | apply keeps_request; ignored
    | apply keeps_modify; ignored ].

Section FramesOfFunctions.

Context {X B : Type}.
Variable cfg : Config.
Variable P : Platform X.
Variable f : World X -> B.

Hypothesis f_ext : forall x w, f (with_ext x w) = f w.
Hypothesis f_call : forall c w, f (with_call c w) = f w.
Hypothesis f_status :
  forall v w, f (with_statics (set_mac_tx_status v) w) = f w.
Hypothesis f_packets : forall g w, f (with_packets g w) = f w.
Hypothesis f_drift :
  forall v w, f (with_sync (set_drift_correction v) w) = f w.
Hypothesis f_drift_used :
  forall v w, f (with_sync (set_is_drift_correction_used v) w) = f w.
Hypothesis f_last_sync :
  forall v w, f (with_sync (set_last_sync_asn v) w) = f w.
Hypothesis f_dequeued_array :
  forall g w, f (with_rings (fun r => set_dequeued_array (g r) r) w) = f w.
Hypothesis f_dequeued_ringbuf :
  forall g w, f (with_rings (fun r => set_dequeued_ringbuf (g r) r) w) = f w.

Lemma frame_TSCH_SCHEDULE_AND_YIELD (fuel : nat) (ref_time offset : Z) :
  keeps f (TSCH_SCHEDULE_AND_YIELD cfg P fuel ref_time offset).
Proof. now apply keeps_TSCH_SCHEDULE_AND_YIELD. Qed.

Lemma frame_BUSYWAIT_UNTIL_ABS {L : Type} (fuel : nat)
  (cond : L -> M X (bool * L)) (l : L) (t0 offset : Z) :
  (forall l', keeps f (cond l')) ->
  keeps f (BUSYWAIT_UNTIL_ABS cfg P fuel cond l t0 offset).
Proof. now apply keeps_BUSYWAIT_UNTIL_ABS. Qed.

Ltac frame_slot :=
  repeat first
    [ apply frame_TSCH_SCHEDULE_AND_YIELD
    | apply frame_BUSYWAIT_UNTIL_ABS; intro
    | frame_call
    | keeps_step ].

Lemma frame_tsch_radio_on cmd : keeps f (tsch_radio_on cfg P cmd).
Proof. unfold tsch_radio_on. frame_slot. Qed.

Lemma frame_tsch_radio_off cmd : keeps f (tsch_radio_off cfg P cmd).
Proof. unfold tsch_radio_off. frame_slot. Qed.

Lemma frame_update_neighbor_state n p link status :
  keeps f (update_neighbor_state cfg P n p link status).
Proof. unfold update_neighbor_state. frame_slot. Qed.

Lemma frame_tx_finish idx : keeps f (tx_finish cfg P idx).
Proof.
  pose proof frame_update_neighbor_state. pose proof frame_tsch_radio_off.
  unfold tx_finish, TSCH_LOG_ADD. frame_slot.
Qed.

Lemma frame_tx_process_ack ackbuf ack_len seqno :
  keeps f (tx_process_ack cfg P ackbuf ack_len seqno).
Proof.
  unfold tx_process_ack, tx_eack_time_correction, TSCH_LOG_ADD, set_status.
  frame_slot.
Qed.

Lemma frame_tx_wait_for_ack fuel a b c :
  keeps f (tx_wait_for_ack cfg P fuel a b c).
Proof.
  pose proof frame_tx_process_ack. pose proof frame_tsch_radio_off.
  pose proof frame_tsch_radio_on.
  unfold tx_wait_for_ack, receiving_packet, RTIMER_NOW. frame_slot.
Qed.

Lemma frame_tx_transmit fuel p b packet n :
  keeps f (tx_transmit cfg P fuel p b packet n).
Proof.
  unfold tx_transmit, tx_guard_beacon_shot, tx_poke, tx_reload, RTIMER_NOW,
    set_status.
  frame_slot.
Qed.

Lemma frame_tx_after_cca fuel p b packet n s :
  keeps f (tx_after_cca cfg P fuel p b packet n s).
Proof.
  pose proof frame_tx_wait_for_ack. pose proof frame_tx_transmit.
  pose proof frame_tsch_radio_off.
  unfold tx_after_cca, set_status. frame_slot.
Qed.

Lemma frame_tx_attempt fuel p : keeps f (tx_attempt cfg P fuel p).
Proof.
  pose proof frame_tx_after_cca.
  pose proof frame_tsch_radio_off. pose proof frame_tsch_radio_on.
  unfold tx_attempt, tx_reload, set_status. frame_slot.
Qed.

Lemma frame_tsch_tx_slot fuel : keeps f (tsch_tx_slot cfg P fuel).
Proof.
  pose proof frame_tx_attempt. pose proof frame_tx_finish.
  unfold tsch_tx_slot, set_status. frame_slot.
Qed.

Hypothesis f_input_array :
  forall g w, f (with_rings (fun r => set_input_array (g r) r) w) = f w.
Hypothesis f_input_ringbuf :
  forall g w, f (with_rings (fun r => set_input_ringbuf (g r) r) w) = f w.
Hypothesis f_drop :
  forall g w,
    f (with_statics (fun s => set_input_queue_drop (g s) s) w) = f w.
Hypothesis f_is_gb : forall v w, f (with_statics (set_is_gb v) w) = f w.
Hypothesis f_is_eb : forall v w, f (with_statics (set_is_eb v) w) = f w.
Hypothesis f_frame_valid :
  forall v w, f (with_statics (set_frame_valid v) w) = f w.
Hypothesis f_rx_header_len :
  forall v w, f (with_statics (set_rx_header_len v) w) = f w.
Hypothesis f_frame :
  forall g w, f (with_statics (fun s => set_frame (g s) s) w) = f w.
Hypothesis f_addresses :
  forall a b w, f (with_statics (set_addresses a b) w) = f w.

Lemma frame_rx_drain_radio fuel idx :
  keeps f (rx_drain_radio cfg P fuel idx).
Proof.
  induction fuel as [| fuel IH]; cbn [rx_drain_radio];
    unfold pending_packet, read_into_current_input, set_current_input;
    frame_slot.
Qed.

Lemma frame_rx_frame_for_us fuel idx a b c :
  keeps f (rx_frame_for_us cfg P fuel idx a b c).
Proof.
  pose proof frame_tsch_radio_off.
  unfold rx_frame_for_us, rx_send_ack, rx_timesync_and_commit, rx_timesync,
    rx_resynchronise, TSCH_LOG_ADD.
  frame_slot.
Qed.

Lemma frame_rx_received_frame fuel idx a b :
  keeps f (rx_received_frame cfg P fuel idx a b).
Proof.
  pose proof frame_rx_frame_for_us.
  unfold rx_received_frame, read_into_current_input, set_current_input_len,
    set_current_input, TSCH_LOG_ADD.
  frame_slot.
Qed.

Lemma frame_tsch_rx_slot fuel : keeps f (tsch_rx_slot cfg P fuel).
Proof.
  pose proof frame_rx_received_frame. pose proof frame_rx_drain_radio.
  pose proof frame_tsch_radio_off. pose proof frame_tsch_radio_on.
  unfold tsch_rx_slot, receiving_or_pending, receiving_packet, pending_packet,
    RTIMER_NOW, TSCH_LOG_ADD.
  frame_slot.
Qed.

Hypothesis f_current_link :
  forall v w, f (with_binding (set_current_link v) w) = f w.
Hypothesis f_backup_link :
  forall v w, f (with_binding (set_backup_link v) w) = f w.
Hypothesis f_asn :
  forall g w, f (with_sync (fun s => set_tsch_current_asn (g s) s) w) = f w.
Hypothesis f_slot_start :
  forall g w, f (with_sync (fun s => set_current_slot_start (g s) s) w) = f w.
Hypothesis f_last_timesource :
  forall v w, f (with_sync (set_last_timesource_neighbor v) w) = f w.
Hypothesis f_associated :
  forall v w, f (with_tsch (set_tsch_is_associated v) w) = f w.

Lemma frame_tsch_schedule_slot_operation (ref_time offset : Z) :
  keeps f (tsch_schedule_slot_operation cfg P ref_time offset).
Proof. now apply keeps_tsch_schedule_slot_operation. Qed.

Lemma frame_schedule_next_slot fuel d :
  keeps f (schedule_next_slot cfg P fuel d).
Proof.
  pose proof frame_tsch_schedule_slot_operation.
  revert d. induction fuel as [| fuel IH]; intros d; cbn [schedule_next_slot];
    unfold schedule_next_slot_round; frame_slot.
Qed.

Lemma frame_slot_operation_end fuel :
  keeps f (slot_operation_end cfg P fuel).
Proof.
  pose proof frame_schedule_next_slot.
  unfold slot_operation_end, tsch_disassociate, TSCH_LOG_ADD. frame_slot.
Qed.

Lemma frame_tsch_slot_operation_start fuel d :
  keeps f (tsch_slot_operation_start cfg P fuel d).
Proof.
  pose proof frame_tsch_schedule_slot_operation.
  revert d.
  induction fuel as [| fuel IH]; intros d; cbn [tsch_slot_operation_start];
    frame_slot.
Qed.

End FramesOfFunctions.

(** Frame and command facts for a concrete observation and a concrete
    class of commands, from the lemmas of the functions. *)
Ltac frame_known :=
  first
    [ apply frame_TSCH_SCHEDULE_AND_YIELD
    | apply frame_tsch_radio_on
    | apply frame_tsch_radio_off
    | apply frame_rx_drain_radio
    | apply frame_rx_received_frame
    | apply frame_rx_frame_for_us
    | apply frame_tsch_tx_slot
    | apply frame_tsch_rx_slot ];
  ignored.

Ltac frame_run :=
  unfold receiving_or_pending, receiving_packet, pending_packet, RTIMER_NOW,
    TSCH_LOG_ADD, set_status, read_into_current_input, set_current_input_len,
    set_current_input, get_packet_and_neighbor_for_link;
  repeat first
    [ frame_known
    | apply frame_BUSYWAIT_UNTIL_ABS; [ignored | intro]
    | frame_call
    | keeps_step ].

Ltac emits_known :=
  first
    [ apply emits_TSCH_SCHEDULE_AND_YIELD
    | apply emits_tsch_radio_on
    | apply emits_tsch_radio_off
    | apply emits_rx_drain_radio
    | apply emits_rx_received_frame
    | apply emits_rx_frame_for_us
    | apply emits_tsch_tx_slot
    | apply emits_tsch_rx_slot ];
  intros; reflexivity.

Ltac emits_run :=
  unfold receiving_or_pending, receiving_packet, pending_packet, RTIMER_NOW,
    TSCH_LOG_ADD, set_status, read_into_current_input, set_current_input_len,
    set_current_input, get_packet_and_neighbor_for_link;
  repeat first
    [ emits_known
    | apply emits_BUSYWAIT_UNTIL_ABS; intro
    | emits_call
    | emits_step ].

(** *** An invariant through a run *)

Section Through.

Context {X A : Type}.
Variable I : World X -> Prop.
Variable post : World X -> Prop.

Lemma through_bind {C : Type} (m : M X C) (k : C -> M X A) :
  holds_through I m I ->
  (forall c, holds_through I (k c) post) ->
  holds_through I (bind m k) post.
Proof.
  intros Hm Hk w a w' HI Hrun.
  destruct (bind_done _ _ _ _ _ Hrun) as (c & w1 & H1 & H2).
  exact (Hk c w1 a w' (Hm _ _ _ HI H1) H2).
Qed.

Lemma through_last_get (k : World X -> M X A) :
  (forall v a w', I v -> k v v = Done a w' -> post w') ->
  holds_through I (bind get k) post.
Proof. intros Hk w a w' HI Hrun. exact (Hk w a w' HI Hrun). Qed.

End Through.

Lemma through_step {X A B : Type} (f : World X -> B) (c : B)
  (q : call -> bool) (l : list call) (m : M X A) :
  keeps f m -> emits q m ->
  holds_through (within f c q l) m (within f c q l).
Proof.
  intros Hk He w a w' [Hf (s & Hs & Hq)] Hrun. split.
  - now rewrite (Hk _ _ _ Hrun).
  - destruct (He _ _ _ Hrun) as (s' & Hs' & Hq').
    exists (s' ++ s). rewrite Hs', Hs, app_assoc. split; [reflexivity |].
    rewrite forallb_app. now rewrite Hq, Hq'.
Qed.

Lemma within_start {X B : Type} (f : World X -> B) (q : call -> bool)
  (w : World X) : within f (f w) q (calls w) w.
Proof. split; [reflexivity |]. now exists []. Qed.

Ltac through_walk :=
  apply through_bind; [apply through_step; [frame_run | emits_run] | intro].

(** ** Channel hopping *)

Section ChannelProperties.

Variable cfg : Config.
Variable g : tsch_globals.

(** X1.  For a hopping sequence of [L] entries ([0 < L < 2^16], all
    present in the table) and an ASN in the range of its type,
    [tsch_calculate_channel] reads entry [(asn + c) mod L], where [c]
    is the channel offset converted to its 8-bit parameter: the channel
    is always one of the sequence; it comes back when the ASN has
    advanced by [L] slots; and when the ASN has advanced by one slot
    the channel is that of the next offset, as long as that offset is
    still an 8-bit value (the ASN not wrapping in either case). *)
Theorem tsch_calculate_channel_in_sequence (asn channel_offset : Z) :
  let L := tsch_hopping_sequence_length g in
  let c := u8 channel_offset in
  0 < L < 2 ^ 16 ->
  L <= Z.of_nat (List.length (tsch_hopping_sequence g)) ->
  0 <= asn < 2 ^ ASN_BITS cfg ->
  tsch_calculate_channel g asn channel_offset
  = nth (Z.to_nat ((asn + c) mod L)) (tsch_hopping_sequence g) 0
  /\ In (tsch_calculate_channel g asn channel_offset)
       (tsch_hopping_sequence g)
  /\ (asn + L < 2 ^ ASN_BITS cfg ->
      tsch_calculate_channel g (TSCH_ASN_INC cfg asn L) channel_offset
      = tsch_calculate_channel g asn channel_offset)
  /\ (asn + 1 < 2 ^ ASN_BITS cfg ->
      c < 255 ->
      tsch_calculate_channel g (TSCH_ASN_INC cfg asn 1) channel_offset
      = tsch_calculate_channel g asn (channel_offset + 1)).
Proof.
  intros L c HL Hlen Hasn.
  assert (Hc : 0 <= c < 256)
    by (subst c; unfold u8, wrap; apply Z.mod_pos_bound; lia).
  assert (Hchan : forall a o, 0 <= a ->
            tsch_calculate_channel g a o
            = nth (Z.to_nat ((a + u8 o) mod L)) (tsch_hopping_sequence g) 0).
  { intros a o Ha.
    assert (Ho : 0 <= u8 o < 256)
      by (unfold u8, wrap; apply Z.mod_pos_bound; lia).
    unfold tsch_calculate_channel, TSCH_ASN_MOD. cbv zeta. fold L.
    unfold u16, wrap.
    pose proof (Z.mod_pos_bound a L ltac:(lia)) as Hm.
    rewrite (Z.mod_small (a mod L)) by lia.
    rewrite Zplus_mod_idemp_l.
    pose proof (Z.mod_pos_bound (a + u8 o) L ltac:(lia)) as Hi.
    rewrite (Z.mod_small ((a + u8 o) mod L)) by lia.
    unfold buf_get.
    destruct (Z.ltb_spec ((a + u8 o) mod L) 0); [lia | reflexivity]. }
  assert (Hinc : forall d, 0 <= d -> asn + d < 2 ^ ASN_BITS cfg ->
            TSCH_ASN_INC cfg asn d = asn + d)
    by (intros d Hd Hfit; unfold TSCH_ASN_INC, wrap;
        apply Z.mod_small; lia).
  split; [apply Hchan; lia |]. split; [| split].
  - rewrite Hchan by lia. apply nth_In. fold c.
    pose proof (Z.mod_pos_bound (asn + c) L ltac:(lia)). lia.
  - intros Hfit. rewrite Hinc by lia. rewrite !Hchan by lia.
    replace (asn + L + u8 channel_offset)
      with (asn + u8 channel_offset + 1 * L) by ring.
    now rewrite Z.mod_add by lia.
  - intros Hfit Hnext. rewrite Hinc by lia. rewrite !Hchan by lia.
    assert (Hsucc : u8 (channel_offset + 1) = c + 1).
    { subst c. unfold u8, wrap in *.
      rewrite <- Zplus_mod_idemp_l. apply Z.mod_small. lia. }
    rewrite Hsucc. fold c. do 3 f_equal. ring.
Qed.

End ChannelProperties.

(** On the sample node (sequence 15, 20, 25, 26): ASN 1000 with offset
    3 gives entry 3, and so does offset 259, which the parameter
    receives as 3. *)
Lemma tsch_calculate_channel_in_sequence_witness :
  let g := tsch (Sample.world []) in
  tsch_calculate_channel g 1000 3 = 26
  /\ tsch_calculate_channel g 1000 259 = 26
  /\ In (tsch_calculate_channel g 1000 3) [15; 20; 25; 26]
  /\ tsch_calculate_channel g (TSCH_ASN_INC Sample.cfg 1000 4) 3
     = tsch_calculate_channel g 1000 3.
Proof.
  intro g.
  destruct (tsch_calculate_channel_in_sequence Sample.cfg g 1000 3)
    as (Hc & Hin & Hperiod & _); try (cbn; lia).
  destruct (tsch_calculate_channel_in_sequence Sample.cfg g 1000 259)
    as (Hc' & _); try (cbn; lia).
  split; [exact Hc |]. split; [exact Hc' |].
  split; [exact Hin |]. apply Hperiod. cbn. lia.
Defined.

(** ** Scheduling ahead of the guard time *)

Section ArmedAhead.

Context {X : Type}.
Variable cfg : Config.
Variable P : Platform X.
Hypothesis timer_width : 0 <= RTIMER_BITS cfg.

(** X2.  [tsch_schedule_slot_operation] arms the timer only for a
    deadline that is more than [RTIMER_GUARD] ticks ahead: with [now]
    the reading of the timer, it returns true only if
    [(now - ref_time) mod 2^W < (offset - RTIMER_GUARD) mod 2^W], and
    then the one command sent is the [rtimer_set] for
    [ref_time + offset]; otherwise it returns false and sends
    nothing. *)
Theorem tsch_schedule_slot_operation_armed_ahead (ref_time offset : Z)
  (w : World X) :
  let period := 2 ^ RTIMER_BITS cfg in
  let now := fst (rtimer_now P (ext w)) in
  0 <= ref_time < period ->
  0 <= now < period ->
  (forall w',
     tsch_schedule_slot_operation cfg P ref_time offset w = Done true w' ->
     (now - ref_time) mod period < (offset - RTIMER_GUARD cfg) mod period
     /\ calls w' = RtimerSet (rt cfg (ref_time + offset)) :: calls w)
  /\ ((now - ref_time) mod period >= (offset - RTIMER_GUARD cfg) mod period ->
      exists w',
        tsch_schedule_slot_operation cfg P ref_time offset w = Done false w'
        /\ calls w' = calls w).
Proof.
  intros period now Href Hnow.
  assert (Hperiod : 0 < period) by (apply Z.pow_pos_nonneg; lia).
  assert (Hmiss :
            check_timer_miss cfg ref_time (rt cfg (offset - RTIMER_GUARD cfg))
              now
            = ((offset - RTIMER_GUARD cfg) mod period
               <=? (now - ref_time) mod period)).
  { apply check_timer_miss_elapsed; try assumption.
    unfold rt, wrap. apply Z.mod_pos_bound. exact Hperiod. }
  unfold tsch_schedule_slot_operation, RTIMER_NOW, query, request, bind, pure.
  subst now. destruct (rtimer_now P (ext w)) as [now x1]. cbn [fst] in *.
  rewrite Hmiss. split.
  - intros w'.
    destruct (Z.leb_spec ((offset - RTIMER_GUARD cfg) mod period)
                ((now - ref_time) mod period)) as [Hle | Hlt];
      [discriminate |].
    change (ext (with_ext x1 w)) with x1.
    destruct (rtimer_set P (rt cfg (ref_time + offset)) x1) as [r x2].
    destruct (negb (r =? RTIMER_OK cfg)); [discriminate |].
    intros H. inversion H. split; [exact Hlt | reflexivity].
  - intros Hge.
    destruct (Z.leb_spec ((offset - RTIMER_GUARD cfg) mod period)
                ((now - ref_time) mod period)) as [Hle | Hlt]; [| lia].
    eexists. split; reflexivity.
Qed.

End ArmedAhead.

(** On the sample node (guard of 2 ticks), for the deadline 5000 + 328:
    at tick 5010 the timer is armed; at tick 5326, exactly the guard
    before the deadline, it is not. *)
Lemma tsch_schedule_slot_operation_armed_ahead_witness :
  (exists w',
     tsch_schedule_slot_operation Sample.cfg Sample.platform 5000 328
       (Sample.world [5010; 0]) = Done true w'
     /\ calls w' = [RtimerSet 5328])
  /\ (exists w',
        tsch_schedule_slot_operation Sample.cfg Sample.platform 5000 328
          (Sample.world [5326; 0]) = Done false w'
        /\ calls w' = []).
Proof.
  split.
  - destruct (tsch_schedule_slot_operation_armed_ahead Sample.cfg
                Sample.platform ltac:(discriminate) 5000 328
                (Sample.world [5010; 0])) as [Harmed _];
      [cbn; lia | cbn; lia |].
    eexists. split; [cbv; reflexivity |].
    eapply Harmed. cbv. reflexivity.
  - destruct (tsch_schedule_slot_operation_armed_ahead Sample.cfg
                Sample.platform ltac:(discriminate) 5000 328
                (Sample.world [5326; 0])) as [_ Hmissed];
      [cbn; lia | cbn; lia |].
    apply Hmissed. vm_compute. discriminate.
Defined.

Section WaitProperties.

Context {X : Type}.
Variable cfg : Config.
Variable P : Platform X.

Lemma calls_idle_wait (fuel : nat) (t0 offset : Z) :
  keeps calls
    (BUSYWAIT_UNTIL_ABS cfg P fuel (fun u : unit => pure (false, u)) tt
       t0 offset).
Proof.
  apply keeps_BUSYWAIT_UNTIL_ABS; [reflexivity |]. intro. apply keeps_pure.
Qed.

(** X3.  [TSCH_SCHEDULE_AND_YIELD] changes nothing of the state of this
    file, and sends at most two commands: the [rtimer_set] for the
    instant [RTIMER_GUARD] ticks before [ref_time + offset], and, only
    after it, the yield.  It never yields without having armed the
    timer. *)
Theorem TSCH_SCHEDULE_AND_YIELD_outcome (fuel : nat) (ref_time offset : Z)
  (w w' : World X) :
  let wake_up := rt cfg (ref_time + rt cfg (offset - RTIMER_GUARD cfg)) in
  TSCH_SCHEDULE_AND_YIELD cfg P fuel ref_time offset w = Done tt w' ->
  own_state w' = own_state w
  /\ (calls w' = calls w
      \/ calls w' = RtimerSet wake_up :: calls w
      \/ calls w' = PtYield :: RtimerSet wake_up :: calls w).
Proof.
  intros wake_up Hrun. split.
  - revert Hrun. now apply keeps_TSCH_SCHEDULE_AND_YIELD.
  - unfold TSCH_SCHEDULE_AND_YIELD in Hrun.
    destruct (bind_done _ _ _ _ _ Hrun) as (s & w1 & Hs & Hrest).
    destruct (bind_done _ _ _ _ _ Hrest) as ([] & w2 & Hy & Hwait).
    apply calls_idle_wait in Hwait. rewrite Hwait.
    destruct (schedule_slot_operation_done cfg P ref_time
                (rt cfg (offset - RTIMER_GUARD cfg)) w)
      as (s' & w1' & Hs' & Htrue & Hfalse).
    rewrite Hs in Hs'. inversion Hs'. subst s' w1'.
    destruct s; cbn [when] in Hy.
    + inversion Hy. cbn. rewrite Htrue by reflexivity. now right; right.
    + inversion Hy. subst w2.
      destruct (Hfalse eq_refl) as [-> | ->]; [now left | now right; left].
Qed.

End WaitProperties.

(** Waiting for the TX offset (69 ticks) of the slot started at tick
    5000: the timer is armed for tick 5067 and the slot yields. *)
Lemma TSCH_SCHEDULE_AND_YIELD_outcome_witness :
  exists w',
    TSCH_SCHEDULE_AND_YIELD Sample.cfg Sample.platform 5 5000 69
      (Sample.world [5010; 0; 5068; 5069]) = Done tt w'
    /\ own_state w' = own_state (Sample.world [5010; 0; 5068; 5069])
    /\ calls w' = [PtYield; RtimerSet 5067].
Proof.
  eexists. split; [cbv; reflexivity |].
  destruct (TSCH_SCHEDULE_AND_YIELD_outcome Sample.cfg Sample.platform 5
              5000 69 (Sample.world [5010; 0; 5068; 5069]) _
              ltac:(cbv; reflexivity)) as [Hown _].
  split; [exact Hown | reflexivity].
Defined.

(** ** The drift estimated from a reception *)

Section JitterRemoval.

Variable cfg : Config.

(** X4.  Jitter removal shrinks the measured drift towards zero by the
    measurement error and never changes its sign: the magnitude of the
    estimated drift is [max 0 (|raw| - error)]; without jitter removal
    the estimated drift is the raw difference. *)
Theorem rx_estimated_drift_jitter (expected_rx_time rx_start_time : Z) :
  let raw := int32 (RTIMER_CLOCK_DIFF cfg expected_rx_time rx_start_time) in
  let drift := rx_estimated_drift cfg expected_rx_time rx_start_time in
  let error := TSCH_TIMESYNC_MEASUREMENT_ERROR cfg in
  0 <= error ->
  (TSCH_TIMESYNC_REMOVE_JITTER cfg = false -> drift = raw)
  /\ (TSCH_TIMESYNC_REMOVE_JITTER cfg = true ->
      Z.abs drift = Z.max 0 (Z.abs raw - error)
      /\ (drift = 0 \/ Z.sgn drift = Z.sgn raw)).
Proof.
  intros raw drift error Herror. subst drift. unfold rx_estimated_drift.
  fold raw. fold error. split; intros ->; [reflexivity |].
  destruct (Z.leb_spec (Z.abs raw) error); [lia |].
  destruct (Z.gtb_spec raw 0); lia.
Qed.

End JitterRemoval.

(** A reception 7 ticks late with a measurement error of 1 tick. *)
Lemma rx_estimated_drift_jitter_witness :
  0 <= TSCH_TIMESYNC_MEASUREMENT_ERROR Sample.cfg_jitter
  /\ Z.abs (rx_estimated_drift Sample.cfg_jitter 5069 5076) = Z.max 0 (7 - 1).
Proof.
  split; [vm_compute; discriminate |].
  destruct (rx_estimated_drift_jitter Sample.cfg_jitter 5069 5076) as [_ H];
    [vm_compute; discriminate |].
  destruct (H eq_refl) as [Habs _]. exact Habs.
Defined.

(** ** Resynchronisation on a received frame *)

Section RxTimesyncProperties.

Context {X : Type}.
Variable cfg : Config.
Variable P : Platform X.

(** X5.  A received frame resynchronises the node only when its source
    is a known neighbor that is a time source and, without guard
    beacons, the frame is a beacon, or, with guard beacons, the frame
    is a guard beacon and more than 21 slots have passed since the last
    synchronisation.  In every other case [rx_timesync] leaves the
    state of this file as it is and sends no command. *)
Theorem rx_timesync_no_resync (input_index estimated_drift : Z)
  (w : World X) :
  let n := fst (tsch_queue_get_nbr P (source_address (statics w)) (ext w)) in
  let since_last_timesync :=
    int32 (TSCH_ASN_DIFF cfg (tsch_current_asn (sync w))
             (last_sync_asn (sync w))) in
  let resync :=
    match n with
    | Some n' =>
        is_time_source n'
        && (if GUARD_BEACON cfg
            then is_gb (statics w) && (since_last_timesync >? 21)
            else is_eb (statics w))
    | None => false
    end in
  resync = false ->
  exists d w',
    rx_timesync cfg P input_index estimated_drift w = Done d w'
    /\ own_state w' = own_state w
    /\ calls w' = calls w.
Proof.
  intros n since_last_timesync resync. subst resync n since_last_timesync.
  unfold rx_timesync.
  destruct (GUARD_BEACON cfg); cbn [negb]; run_monad; cbv zeta;
    destruct (tsch_queue_get_nbr P (source_address (statics w)) (ext w))
      as [[n |] x1]; cbn [fst].
  all: try destruct (is_time_source n); try destruct (is_gb (statics w));
    try destruct (is_eb (statics w)); cbn [andb];
    try destruct (_ >? 21); cbn [andb];
    intros H; try discriminate; do 2 eexists; repeat split.
Qed.

(** X6.  In the guard-beacon build, a guard beacon from a time source
    received more than 21 slots after the last synchronisation
    resynchronises the node.  A node that is not the coordinator first
    moves the estimated drift by the place of the beacon in its burst:
    minus [GUARD_BEACON_TIME] for the first copy (0x11), nothing for
    the second (0x22), plus [GUARD_BEACON_TIME] for the third (0x33);
    the drift correction is the negated result, which is also what the
    adaptive timesync receives, and [last_sync_asn] becomes the current
    ASN. *)
Theorem rx_timesync_guard_beacon (input_index estimated_drift : Z)
  (n : tsch_neighbor) (w : World X) :
  let since_last_timesync :=
    int32 (TSCH_ASN_DIFF cfg (tsch_current_asn (sync w))
             (last_sync_asn (sync w))) in
  let i := current_input w input_index in
  let beaconOrder := buf_get (payload i) (len i) in
  let adjusted :=
    if tsch_is_coordinator (tsch w) then estimated_drift
    else if beaconOrder =? 17 then estimated_drift - GUARD_BEACON_TIME cfg
    else if beaconOrder =? 34 then estimated_drift
    else if beaconOrder =? 51 then estimated_drift + GUARD_BEACON_TIME cfg
    else estimated_drift in
  GUARD_BEACON cfg = true ->
  is_gb (statics w) = true ->
  fst (tsch_queue_get_nbr P (source_address (statics w)) (ext w)) = Some n ->
  is_time_source n = true ->
  since_last_timesync > 21 ->
  exists w',
    rx_timesync cfg P input_index estimated_drift w = Done adjusted w'
    /\ drift_correction (sync w') = - adjusted
    /\ is_drift_correction_used (sync w') = true
    /\ last_sync_asn (sync w') = tsch_current_asn (sync w)
    /\ calls w'
       = ScheduleKeepalive
         :: TimesyncUpdate (Some n) since_last_timesync (- adjusted)
         :: calls w.
Proof.
  intros since_last_timesync i beaconOrder adjusted Hgb Hisgb Hn Hts Hsince.
  subst adjusted beaconOrder i.
  unfold rx_timesync, rx_resynchronise. rewrite Hgb. cbn [negb]. run_monad.
  cbv zeta. rewrite Hisgb.
  destruct (tsch_queue_get_nbr P (source_address (statics w)) (ext w))
    as [n0 x1]. cbn [fst] in Hn. subst n0. rewrite Hts. cbn [andb].
  fold since_last_timesync.
  destruct (Z.gtb_spec since_last_timesync 21) as [_ | ?]; [| lia].
  destruct (tsch_is_coordinator (tsch w)); cbn [negb];
    [| destruct (_ =? 17); [| destruct (_ =? 34); [| destruct (_ =? 51)]]];
    eexists; repeat split.
Qed.

End RxTimesyncProperties.

(** A data frame (not a beacon) from the time source. *)
Lemma rx_timesync_no_resync_witness :
  exists d w',
    rx_timesync Sample.cfg Sample.platform 0 7 (Sample.world [1]) = Done d w'
    /\ own_state w' = own_state (Sample.world [1])
    /\ calls w' = [].
Proof.
  apply (rx_timesync_no_resync Sample.cfg Sample.platform 0 7
           (Sample.world [1])).
  reflexivity.
Defined.

(** The first copy (0x11) of a guard beacon from the time source, 100
    slots after the last synchronisation, measured 7 ticks early, with
    a guard-beacon time of 10 ticks. *)
Lemma rx_timesync_guard_beacon_witness :
  let w :=
    with_rings (set_input_array
      [{| payload := [1; 2; 170; 17]; len := 3; rx_asn := 0; rssi := 0;
          channel := 0 |}])
      (with_sync (set_last_sync_asn 900)
         (with_statics (set_is_gb true) (Sample.world [1]))) in
  exists w',
    rx_timesync Sample.cfg_guard_beacon Sample.platform 0 7 w = Done (-3) w'
    /\ drift_correction (sync w') = 3
    /\ last_sync_asn (sync w') = 1000.
Proof.
  intro w.
  destruct (rx_timesync_guard_beacon Sample.cfg_guard_beacon Sample.platform
              0 7
              {| nbr_ptr := 1; nbr_addr := []; is_broadcast := false;
                 is_time_source := true |} w)
    as (w' & Hrun & Hd & _ & Hs & _);
    try reflexivity.
  exists w'. repeat split; assumption.
Defined.

(** ** The end of a TX slot *)

Section TxFinishProperties.

Context {X : Type}.
Variable cfg : Config.
Variable P : Platform X.

Lemma own_state_update_neighbor_state n p link status :
  keeps (@own_state X) (update_neighbor_state cfg P n p link status).
Proof. unfold update_neighbor_state. keeps_auto. Qed.

(** The result of [update_neighbor_state]. *)
Lemma update_neighbor_state_in_queue (n : tsch_neighbor) (p : Z)
  (link : tsch_link) (status : Z) (w : World X) :
  exists w',
    update_neighbor_state cfg P n p link status w
    = Done (negb ((status =? MAC_TX_OK cfg)
                  || (transmissions (packets w p)
                      >=? TSCH_MAC_MAX_FRAME_RETRIES cfg + 1))) w'.
Proof.
  unfold update_neighbor_state.
  destruct (status =? MAC_TX_OK cfg); cbn [orb negb].
  - destruct (negb (is_broadcast n)); run_monad;
      [destruct (truthy _); cbn;
       [| destruct (tsch_queue_is_empty P n _) as [e x1];
          destruct (truthy e)] |];
      eexists; reflexivity.
  - run_monad.
    destruct (_ >=? _); destruct (negb (is_broadcast n));
      try destruct (truthy _); eexists; reflexivity.
Qed.

Lemma store_packet_same (a : Z) (f : tsch_packet -> tsch_packet)
  (h : Z -> tsch_packet) : store_packet a f h a = f (h a).
Proof. unfold store_packet. now rewrite Z.eqb_refl. Qed.

Lemma store_packet_other (a b : Z) (f : tsch_packet -> tsch_packet)
  (h : Z -> tsch_packet) : b <> a -> store_packet a f h b = h b.
Proof.
  intros H. unfold store_packet.
  destruct (Z.eqb_spec b a); [contradiction | reflexivity].
Qed.

Lemma tsch_radio_off_done cmd (w : World X) :
  exists w1,
    tsch_radio_off cfg P cmd w = Done tt w1 /\ own_state w1 = own_state w.
Proof.
  unfold tsch_radio_off. destruct cmd; cbv zeta;
    try destruct (TSCH_RADIO_ON_DURING_TIMESLOT cfg); cbn [negb when];
    eexists; split; reflexivity.
Qed.

(** The end of the TX slot, for a slot that has its packet, neighbor
    and link. *)
Lemma tx_finish_run (dequeued_index p : Z) (n : tsch_neighbor)
  (link : tsch_link) (w : World X) :
  let status := mac_tx_status (statics w) in
  let count := u8 (transmissions (packets w p) + 1) in
  let dequeued :=
    (status =? MAC_TX_OK cfg)
    || (count >=? TSCH_MAC_MAX_FRAME_RETRIES cfg + 1) in
  current_packet (binding w) = Some p ->
  current_neighbor (binding w) = Some n ->
  current_link (binding w) = Some link ->
  exists w',
    tx_finish cfg P dequeued_index w = Done tt w'
    /\ transmissions (packets w' p) = count
    /\ ret (packets w' p) = status
    /\ (forall b, b <> p -> packets w' b = packets w b)
    /\ rings w'
       = (if dequeued then
            set_dequeued_ringbuf
              (ringbufindex_put (dequeued_ringbuf (rings w)))
              (set_dequeued_array
                 (array_set (dequeued_array (rings w))
                    (Z.to_nat dequeued_index) (Some p)) (rings w))
          else rings w)
    /\ (locks w', sync w', binding w', statics w', tsch w')
       = (locks w, sync w, binding w, statics w, tsch w).
Proof.
  intros status count dequeued Hp Hn Hl. unfold tx_finish.
  destruct (tsch_radio_off_done TSCH_RADIO_CMD_OFF_END_OF_TIMESLOT w)
    as (w1 & Hoff & Hown).
  unfold bind at 1. rewrite Hoff. unfold bind at 1, get at 1.
  unfold own_state in Hown.
  inversion Hown as [[Hlocks Hsync Hbind Hrings Hstat Htsch Hpack]].
  rewrite Hbind, Hp, Hn, Hl, Hstat. fold status.
  unfold bind at 1, modify at 1. unfold bind at 1, modify at 1.
  set (w2 := with_packets (store_packet p (set_ret status))
               (with_packets
                  (store_packet p
                     (fun k => set_transmissions (u8 (transmissions k + 1)) k))
                  w1)).
  assert (Hcount : transmissions (packets w2 p) = count).
  { subst w2. cbn. rewrite !store_packet_same. cbn. now rewrite Hpack. }
  destruct (update_neighbor_state_in_queue n p link status w2)
    as (w3 & Hupd).
  rewrite Hcount in Hupd. fold dequeued in Hupd.
  pose proof (own_state_update_neighbor_state n p link status _ _ _ Hupd)
    as Hown3.
  unfold own_state in Hown3.
  inversion Hown3 as [[Hlocks3 Hsync3 Hbind3 Hrings3 Hstat3 Htsch3 Hpack3]].
  unfold bind at 1. rewrite Hupd. rewrite negb_involutive.
  assert (Hpackets : packets w3 p
                     = set_ret status
                         (set_transmissions count (packets w p))).
  { rewrite Hpack3. subst w2. cbn. rewrite !store_packet_same.
    now rewrite Hpack. }
  assert (Hothers : forall b, b <> p -> packets w3 b = packets w b).
  { intros b Hb. rewrite Hpack3. subst w2. cbn.
    rewrite !store_packet_other by assumption. now rewrite Hpack. }
  assert (Hrest : (locks w3, sync w3, binding w3, statics w3, tsch w3)
                  = (locks w, sync w, binding w, statics w, tsch w)).
  { rewrite Hlocks3, Hsync3, Hbind3, Hstat3, Htsch3. subst w2. cbn.
    now rewrite Hlocks, Hsync, Hbind, Hstat, Htsch. }
  assert (Hr3 : rings w3 = rings w).
  { rewrite Hrings3. subst w2. cbn. exact Hrings. }
  inversion Hrest as [[Hl3 Hs3 Hb3 Hst3 Ht3]].
  destruct dequeued; run_monad; cbn;
    eexists; (split; [reflexivity |]); cbn;
    rewrite ?Hpackets, ?Hr3, ?Hl3, ?Hs3, ?Hb3, ?Hst3, ?Ht3; cbn;
    rewrite ?Hpack;
    repeat split; auto.
Qed.

(** X7.  The end of a TX slot ([tx_finish]).  The transmission count of
    the packet goes up by one and the status of the attempt is stored
    in the packet.  The packet is handed to the ring of dequeued
    packets, at the reserved index, exactly when it leaves its neighbor
    queue: on status OK, or when the count, already incremented,
    reaches [TSCH_MAC_MAX_FRAME_RETRIES + 1]; that is, on a failure,
    when it had been transmitted [TSCH_MAC_MAX_FRAME_RETRIES] times
    before.  Otherwise the rings are as they were.  No other packet
    changes, nor the synchronisation state. *)
Theorem tx_finish_outcome (dequeued_index p : Z) (q : queuebuf)
  (n : tsch_neighbor) (link : tsch_link) (w : World X) :
  let status := mac_tx_status (statics w) in
  let count := u8 (transmissions (packets w p) + 1) in
  let dequeued :=
    (status =? MAC_TX_OK cfg)
    || (count >=? TSCH_MAC_MAX_FRAME_RETRIES cfg + 1) in
  current_packet (binding w) = Some p ->
  qb (packets w p) = Some q ->
  current_neighbor (binding w) = Some n ->
  current_link (binding w) = Some link ->
  exists w',
    tx_finish cfg P dequeued_index w = Done tt w'
    /\ transmissions (packets w' p) = count
    /\ ret (packets w' p) = status
    /\ rings w'
       = (if dequeued then
            set_dequeued_ringbuf
              (ringbufindex_put (dequeued_ringbuf (rings w)))
              (set_dequeued_array
                 (array_set (dequeued_array (rings w))
                    (Z.to_nat dequeued_index) (Some p)) (rings w))
          else rings w)
    /\ (0 <= transmissions (packets w p) < 255 ->
        (dequeued = true
         <-> status = MAC_TX_OK cfg
             \/ transmissions (packets w p) >= TSCH_MAC_MAX_FRAME_RETRIES cfg))
    /\ (forall b, b <> p -> packets w' b = packets w b)
    /\ (sync w', statics w', binding w') = (sync w, statics w, binding w).
Proof.
  intros status count dequeued Hp _ Hn Hl.
  destruct (tx_finish_run dequeued_index p n link w Hp Hn Hl)
    as (w' & Hrun & Hcount & Hret & Hothers & Hrings & Hrest).
  exists w'. split; [exact Hrun |]. split; [exact Hcount |].
  split; [exact Hret |]. split; [exact Hrings |].
  split; [| split; [exact Hothers |]].
  - intros Hrange. subst dequeued count. unfold u8, wrap.
    rewrite Z.mod_small by lia. rewrite orb_true_iff.
    rewrite Z.eqb_eq, Z.geb_le. lia.
  - inversion Hrest. reflexivity.
Qed.

(** X8.  A packet without queuebuf is not handed to the radio: when the
    TX slot finds [current_packet->qb] null (and the dequeued ring has
    room), the status of the attempt is [MAC_TX_ERR_FATAL], no frame is
    prepared or transmitted, and the attempt still counts as a
    transmission of the packet. *)
Theorem tsch_tx_slot_no_queuebuf (fuel : nat) (p : Z) (w w' : World X) :
  ringbufindex_peek_put (dequeued_ringbuf (rings w)) <> -1 ->
  current_packet (binding w) = Some p ->
  qb (packets w p) = None ->
  tsch_tx_slot cfg P fuel w = Done tt w' ->
  mac_tx_status (statics w') = MAC_TX_ERR_FATAL cfg
  /\ ret (packets w' p) = MAC_TX_ERR_FATAL cfg
  /\ transmissions (packets w' p) = u8 (transmissions (packets w p) + 1)
  /\ exists sent,
       calls w' = sent ++ calls w
       /\ forallb (fun c => negb (is_transmission_call c)) sent = true.
Proof.
  intros Hroom Hp Hqb. unfold tsch_tx_slot.
  unfold bind at 1, get at 1. cbv zeta.
  destruct (Z.eqb_spec (ringbufindex_peek_put (dequeued_ringbuf (rings w)))
              (-1)) as [? | _]; [contradiction |].
  cbn [negb]. rewrite Hp, Hqb.
  unfold bind at 1, set_status at 1, modify at 1.
  set (w1 := with_statics (set_mac_tx_status (MAC_TX_ERR_FATAL cfg)) w).
  intros Hrun.
  destruct (emits_tx_finish cfg P (fun c => negb (is_transmission_call c))
              ltac:(reflexivity) ltac:(reflexivity) ltac:(reflexivity)
              ltac:(reflexivity) ltac:(reflexivity) ltac:(reflexivity)
              _ _ _ _ Hrun) as (sent & Hsent & Hq).
  assert (Hbound : exists n link,
            current_neighbor (binding w) = Some n
            /\ current_link (binding w) = Some link).
  { revert Hrun. unfold tx_finish. unfold bind at 1.
    destruct (tsch_radio_off_done TSCH_RADIO_CMD_OFF_END_OF_TIMESLOT w1)
      as (w2 & Hoff & Hown).
    rewrite Hoff. unfold bind at 1, get at 1.
    unfold own_state in Hown.
    inversion Hown as [[Hlocks Hsync Hbind Hrings Hstat Htsch Hpack]].
    rewrite Hbind. change (binding w1) with (binding w). rewrite Hp.
    destruct (current_neighbor (binding w)) as [n |];
      [| unfold bind, modify, fault; discriminate].
    destruct (current_link (binding w)) as [link |];
      [| unfold bind, modify, fault; discriminate].
    intros _. now exists n, link. }
  destruct Hbound as (n & link & Hn & Hl).
  destruct (tx_finish_run (ringbufindex_peek_put (dequeued_ringbuf (rings w)))
              p n link w1 Hp Hn Hl)
    as (w'' & Hrun' & Hcount & Hret & _ & _ & Hrest).
  rewrite Hrun in Hrun'. inversion Hrun'. subst w''.
  inversion Hrest as [[Hlocks Hsync Hbind Hstat Htsch]].
  rewrite Hstat, Hret, Hcount. cbn. repeat split. now exists sent.
Qed.

End TxFinishProperties.

(** The first attempt of the sample packet ended with status OK on a
    dedicated link: the packet is handed to the dequeued ring at
    index 0. *)
Lemma tx_finish_outcome_witness :
  exists w',
    tx_finish Sample.cfg Sample.platform 0 (Sample.world [1]) = Done tt w'
    /\ transmissions (packets w' 16) = 1
    /\ dequeued_array (rings w') = [Some 16; None; None; None].
Proof.
  destruct (tx_finish_outcome Sample.cfg Sample.platform 0 16
              {| qb_data := [65; 216; 7; 205; 171] ++ repeat 0 45;
                 qb_datalen := 50; qb_security_level := 0;
                 qb_receiver := [0; 1] |}
              Sample.N1 Sample.tx_link (Sample.world [1])
              eq_refl eq_refl eq_refl eq_refl)
    as (w' & Hrun & Hcount & _ & Hrings & _).
  exists w'. split; [exact Hrun |]. split; [exact Hcount |].
  rewrite Hrings. reflexivity.
Defined.

(** The sample packet without its queuebuf. *)
Lemma tsch_tx_slot_no_queuebuf_witness :
  let w :=
    with_packets
      (fun _ _ => {| qb := None; transmissions := 0; ret := 0;
                     header_len := 9; tsch_sync_ie_offset := 0 |})
      (Sample.world []) in
  exists w',
    tsch_tx_slot Sample.cfg Sample.platform 5 w = Done tt w'
    /\ mac_tx_status (statics w') = 5
    /\ transmissions (packets w' 16) = 1.
Proof.
  intro w. eexists. split; [cbv; reflexivity |].
  destruct (tsch_tx_slot_no_queuebuf Sample.cfg Sample.platform 5 16 w _
              ltac:(discriminate) eq_refl eq_refl ltac:(cbv; reflexivity))
    as (Hstatus & _ & Hcount & _).
  split; [exact Hstatus | exact Hcount].
Defined.

(** ** The TX attempt *)

Section TxAttemptProperties.

Context {X : Type}.
Variable cfg : Config.
Variable P : Platform X.

(** The start of [tx_attempt] for a data packet sent in the clear: the
    frame handed to [NETSTACK_RADIO.prepare] is the queuebuf. *)
Lemma tx_attempt_plain (fuel : nat) (p : Z) (q : queuebuf)
  (n : tsch_neighbor) (w : World X) :
  qb (packets w p) = Some q ->
  current_neighbor (binding w) = Some n ->
  same_neighbor n (n_eb P) = false ->
  LLSEC802154_ENABLED cfg && tsch_is_pan_secured (tsch w) = false ->
  let packet := {| tx_bytes := qb_data q; tx_in_queuebuf := true |} in
  let packet_len := u8 (qb_datalen q) in
  let seqno := buf_get (qb_data q) 2 in
  tx_attempt cfg P fuel p w
  = (r <- request (RadioPrepare (qb_data q) packet_len)
            (radio_prepare P (qb_data q) packet_len) ;;
     if r =? 0 then
       if CCA_ENABLED cfg then
         TSCH_SCHEDULE_AND_YIELD cfg P fuel (current_slot_start (sync w))
           (TS_CCA_OFFSET cfg) ;;
         tsch_radio_on cfg P TSCH_RADIO_CMD_ON_WITHIN_TIMESLOT ;;
         cca_status <-
           BUSYWAIT_UNTIL_ABS cfg P fuel
             (fun c : Z =>
                r <- query (radio_channel_clear P) ;;
                let c' := u8 (Z.lor c r) in
                pure (negb (truthy c'), c'))
             1 (current_slot_start (sync w))
             (TS_CCA_OFFSET cfg + TS_CCA cfg) ;;
         if cca_status =? 0 then set_status (MAC_TX_COLLISION cfg)
         else tx_after_cca cfg P fuel p (is_broadcast n) packet packet_len
                seqno
       else tx_after_cca cfg P fuel p (is_broadcast n) packet packet_len seqno
     else pure tt) w.
Proof.
  intros Hqb Hn Heb Hsec packet packet_len seqno.
  unfold tx_attempt. unfold bind at 1, tx_reload at 1.
  unfold bind at 1, get at 1. rewrite Hqb. unfold pure at 1.
  unfold bind at 1, get at 1. rewrite Hn. cbn [fst snd tx_bytes].
  rewrite Heb, Hsec. unfold bind at 1, pure at 1.
  unfold bind at 1, pure at 1. cbn [fst snd tx_bytes].
  change (truthy 1) with true. cbv iota. fold packet_len. fold packet.
  fold seqno.
  unfold bind at 1. unfold bind at 1.
  match goal with
  | |- ?l = bind ?m ?k ?v =>
      change (l = match m v with
                  | Done a v' => k a v'
                  | OutOfFuel => OutOfFuel
                  | Fault => Fault
                  end)
  end.
  destruct (request (RadioPrepare (qb_data q) packet_len)
              (radio_prepare P (qb_data q) packet_len) w) as [r w1 | |];
    [| reflexivity | reflexivity].
  unfold pure at 1. destruct (r =? 0); reflexivity.
Qed.

(** X9.  When the radio refuses the frame ([NETSTACK_RADIO.prepare]
    does not return 0) the TX slot transmits nothing and assigns no
    status: the status recorded in the packet, and used to decide
    whether it leaves its queue, is the one the previous TX slot left
    in [mac_tx_status]; the attempt still counts as a transmission. *)
Theorem tsch_tx_slot_prepare_refused (fuel : nat) (p : Z) (q : queuebuf)
  (n : tsch_neighbor) (link : tsch_link) (w : World X) :
  let frame_len := u8 (qb_datalen q) in
  ringbufindex_peek_put (dequeued_ringbuf (rings w)) <> -1 ->
  current_packet (binding w) = Some p ->
  qb (packets w p) = Some q ->
  current_neighbor (binding w) = Some n ->
  current_link (binding w) = Some link ->
  same_neighbor n (n_eb P) = false ->
  LLSEC802154_ENABLED cfg && tsch_is_pan_secured (tsch w) = false ->
  fst (radio_prepare P (qb_data q) frame_len (ext w)) <> 0 ->
  exists w' sent,
    tsch_tx_slot cfg P fuel w = Done tt w'
    /\ mac_tx_status (statics w') = mac_tx_status (statics w)
    /\ ret (packets w' p) = mac_tx_status (statics w)
    /\ transmissions (packets w' p) = u8 (transmissions (packets w p) + 1)
    /\ calls w' = sent ++ RadioPrepare (qb_data q) frame_len :: calls w
    /\ forallb (fun c => negb (is_transmission_call c)) sent = true.
Proof.
  intros frame_len Hroom Hp Hqb Hn Hl Heb Hsec Hrefused. unfold tsch_tx_slot.
  unfold bind at 1, get at 1. cbv zeta.
  destruct (Z.eqb_spec (ringbufindex_peek_put (dequeued_ringbuf (rings w)))
              (-1)) as [? | _]; [contradiction |].
  cbn [negb]. rewrite Hp, Hqb. unfold bind at 1.
  rewrite (tx_attempt_plain fuel p q n w Hqb Hn Heb Hsec). cbv zeta.
  fold frame_len. unfold bind at 1, request at 1.
  destruct (radio_prepare P (qb_data q) frame_len (ext w)) as [r x1].
  cbn [fst] in Hrefused.
  destruct (Z.eqb_spec r 0) as [? | _]; [contradiction |]. unfold pure at 1.
  set (w1 := with_ext x1 (with_call (RadioPrepare (qb_data q) frame_len) w)).
  destruct (tx_finish_run cfg P
              (ringbufindex_peek_put (dequeued_ringbuf (rings w))) p n link w1
              Hp Hn Hl)
    as (w' & Hrun & Hcount & Hret & _ & _ & Hrest).
  destruct (emits_tx_finish cfg P (fun c => negb (is_transmission_call c))
              ltac:(reflexivity) ltac:(reflexivity) ltac:(reflexivity)
              ltac:(reflexivity) ltac:(reflexivity) ltac:(reflexivity)
              _ _ _ _ Hrun) as (sent & Hsent & Hq).
  exists w', sent. split; [exact Hrun |].
  inversion Hrest as [[Hlocks Hsync Hbind Hstat Htsch]].
  rewrite Hstat, Hret, Hcount. repeat split; assumption.
Qed.

Lemma odd_u8_lor (c r : Z) : Z.odd c = true -> Z.odd (u8 (Z.lor c r)) = true.
Proof.
  intros Hc. unfold u8, wrap. rewrite <- !Z.bit0_odd in *.
  rewrite Z.mod_pow2_bits_low by lia. rewrite Z.lor_spec, Hc. reflexivity.
Qed.

(** The CCA wait, line 554: [cca_status] starts from 1 and is only
    or-ed with the answers of the radio, so it stays odd. *)
Lemma cca_status_odd (fuel : nat) (c0 t0 offset : Z) (w w' : World X)
  (c : Z) :
  Z.odd c0 = true ->
  BUSYWAIT_UNTIL_ABS cfg P fuel
    (fun c : Z =>
       r <- query (radio_channel_clear P) ;;
       let c' := u8 (Z.lor c r) in
       pure (negb (truthy c'), c'))
    c0 t0 offset w = Done c w' ->
  Z.odd c = true.
Proof.
  revert c0 w. induction fuel as [| fuel IH]; intros c0 w Hodd;
    cbn [BUSYWAIT_UNTIL_ABS]; [discriminate |].
  unfold bind at 1. unfold bind at 1, query at 1.
  destruct (radio_channel_clear P (ext w)) as [r x1]. unfold pure at 1.
  cbn [fst snd]. pose proof (odd_u8_lor c0 r Hodd) as Hodd'.
  destruct (negb (truthy (u8 (Z.lor c0 r)))).
  - intros H. inversion H. now subst.
  - unfold bind at 1, RTIMER_NOW, query at 1.
    destruct (rtimer_now P _) as [now x2].
    destruct (RTIMER_CLOCK_LT cfg now (t0 + offset)).
    + apply IH. exact Hodd'.
    + intros H. inversion H. now subst.
Qed.

(** X10.  In a build with clear-channel assessment, the assessment
    never keeps a frame from being sent: [cca_status] starts from 1 and
    is only or-ed with the answers of [channel_clear], so it is never 0
    and [MAC_TX_COLLISION] is never chosen.  Whatever the radio answers,
    a data frame that the radio accepted is transmitted (here without
    guard beacons, where the transmission is unconditional). *)
Theorem tx_attempt_cca_never_busy (fuel : nat) (p : Z) (q : queuebuf)
  (n : tsch_neighbor) (w w' : World X) :
  let frame_len := u8 (qb_datalen q) in
  CCA_ENABLED cfg = true ->
  GUARD_BEACON cfg = false ->
  qb (packets w p) = Some q ->
  current_neighbor (binding w) = Some n ->
  same_neighbor n (n_eb P) = false ->
  LLSEC802154_ENABLED cfg && tsch_is_pan_secured (tsch w) = false ->
  fst (radio_prepare P (qb_data q) frame_len (ext w)) = 0 ->
  tx_attempt cfg P fuel p w = Done tt w' ->
  In (RadioTransmit frame_len) (calls w').
Proof.
  intros frame_len Hcca Hgb Hqb Hn Heb Hsec Hprepared Hrun.
  rewrite (tx_attempt_plain fuel p q n w Hqb Hn Heb Hsec) in Hrun.
  cbv zeta in Hrun. fold frame_len in Hrun. rewrite Hcca in Hrun.
  apply bind_done in Hrun. destruct Hrun as (r & w1 & Hprep & Hrun).
  unfold request in Hprep.
  destruct (radio_prepare P (qb_data q) frame_len (ext w)) as [r' x1].
  cbn [fst] in Hprepared. inversion Hprep. subst r' r. clear Hprep.
  cbn [Z.eqb] in Hrun.
  apply bind_done in Hrun. destruct Hrun as ([] & w2 & _ & Hrun).
  apply bind_done in Hrun. destruct Hrun as ([] & w3 & _ & Hrun).
  apply bind_done in Hrun. destruct Hrun as (c & w4 & Hwait & Hrun).
  apply cca_status_odd in Hwait; [| reflexivity].
  destruct (Z.eqb_spec c 0) as [-> | _]; [discriminate |].
  unfold tx_after_cca in Hrun.
  apply bind_done in Hrun. destruct Hrun as (r & w5 & Htx & Hrun).
  assert (Hsent : In (RadioTransmit frame_len) (calls w5)).
  { clear Hrun. unfold tx_transmit in Htx.
    apply bind_done in Htx. destruct Htx as (v & w6 & Hget & Htx).
    rewrite Hgb in Htx. cbn [negb orb] in Htx.
    apply bind_done in Htx. destruct Htx as ([] & w7 & _ & Htx).
    apply bind_done in Htx. destruct Htx as (s & w8 & Hreq & Htx).
    unfold request in Hreq. destruct (radio_transmit P frame_len (ext w7)).
    inversion Hreq. subst.
    revert Htx. unfold bind, set_status, modify, pure. intros H.
    inversion H. cbn. now left. }
  assert (Hack : forall k a b c,
            emits (fun _ => true) (tx_wait_for_ack cfg P k a b c))
    by (intros; apply emits_tx_wait_for_ack; intros; reflexivity).
  assert (Hoff : forall cmd,
            emits (fun _ : call => true) (tsch_radio_off cfg P cmd))
    by (intros; apply emits_tsch_radio_off; intros; reflexivity).
  eapply calls_grow; [| exact Hrun | exact Hsent].
  unfold set_status. emits_walk.
Qed.

(** X11.  A broadcast frame is never waited on for an ACK: after the
    transmission the status is [MAC_TX_OK] or [MAC_TX_ERR] (never
    [MAC_TX_NOACK]), the radio is not turned on again nor read, and the
    synchronisation state is untouched. *)
Theorem tx_after_cca_broadcast (fuel : nat) (p : Z) (packet : tx_buffer)
  (packet_len seqno : Z) (w w' : World X) :
  tx_after_cca cfg P fuel p true packet packet_len seqno w = Done tt w' ->
  (mac_tx_status (statics w') = MAC_TX_OK cfg
   \/ mac_tx_status (statics w') = MAC_TX_ERR cfg)
  /\ sync w' = sync w
  /\ exists sent,
       calls w' = sent ++ calls w
       /\ forallb (fun c =>
                     match c with
                     | RadioRead _ | RadioOn | RadioSetValue _ _ => false
                     | _ => true
                     end) sent = true.
Proof.
  intros Hrun.
  set (q := fun c => match c with
                     | RadioRead _ | RadioOn | RadioSetValue _ _ => false
                     | _ => true
                     end).
  assert (Hoff : forall cmd, emits q (tsch_radio_off cfg P cmd))
    by (intros; apply emits_tsch_radio_off; intros; reflexivity).
  assert (Htx : forall k a b c d, emits q (tx_transmit cfg P k a b c d))
    by (intros; apply emits_tx_transmit; intros; reflexivity).
  assert (Hksync : forall k a b c d, keeps sync (tx_transmit cfg P k a b c d))
    by (intros; apply frame_tx_transmit; ignored).
  assert (Hkoff : forall cmd, keeps sync (tsch_radio_off cfg P cmd))
    by (intros; apply frame_tsch_radio_off; ignored).
  split; [| split].
  - unfold tx_after_cca in Hrun.
    apply bind_done in Hrun. destruct Hrun as (r & w1 & _ & Hrun).
    apply bind_done in Hrun. destruct Hrun as (v & w2 & Hget & Hrun).
    inversion Hget. subst v w2. cbv zeta in Hrun.
    apply bind_done in Hrun. destruct Hrun as ([] & w3 & Hoff3 & Hrun).
    cbn [negb] in Hrun.
    destruct (mac_tx_status (statics w1) =? RADIO_TX_OK cfg);
      inversion Hrun; [left | right]; reflexivity.
  - revert Hrun. unfold tx_after_cca. cbn [negb].
    apply keeps_bind; [apply Hksync | intro r].
    unfold set_status. keeps_auto.
  - revert Hrun. unfold tx_after_cca. cbn [negb]. unfold set_status.
    refine ((_ : emits q _) w tt w'). emits_walk.
Qed.

End TxAttemptProperties.

(** The radio refuses the sample packet (script entry 1); the previous
    slot had left status 0 (OK): the packet is recorded as sent and
    leaves its queue although nothing was transmitted. *)
Lemma tsch_tx_slot_prepare_refused_witness :
  exists w' sent,
    tsch_tx_slot Sample.cfg Sample.platform 5 (Sample.world [1; 1])
    = Done tt w'
    /\ ret (packets w' 16) = MAC_TX_OK Sample.cfg
    /\ transmissions (packets w' 16) = 1
    /\ calls w' = sent ++ [RadioPrepare (qb_data
                             {| qb_data := [65; 216; 7; 205; 171]
                                           ++ repeat 0 45;
                                qb_datalen := 50; qb_security_level := 0;
                                qb_receiver := [0; 1] |}) 50]
    /\ forallb (fun c => negb (is_transmission_call c)) sent = true.
Proof.
  destruct (tsch_tx_slot_prepare_refused Sample.cfg Sample.platform 5 16
              {| qb_data := [65; 216; 7; 205; 171] ++ repeat 0 45;
                 qb_datalen := 50; qb_security_level := 0;
                 qb_receiver := [0; 1] |}
              Sample.N1 Sample.tx_link (Sample.world [1; 1]))
    as (w' & sent & Hrun & _ & Hret & Hcount & Hcalls & Hq);
    try reflexivity; try discriminate.
  exists w', sent. repeat split; assumption.
Defined.

(** The channel is never clear (the radio answers 0 to both polls of
    the assessment): the sample packet is transmitted all the same. *)
Lemma tx_attempt_cca_never_busy_witness :
  exists w',
    tx_attempt Variants.cfg_cca Sample.platform 6 16
      (Sample.world [0; 5010; 0; 5059; 0; 5060; 0; 5063;
                     5064; 0; 5069; 0;
                     5100; 0; 5130; 0; 5151; 1; 5160; 0; 3; 1; 120; 7])
    = Done tt w'
    /\ In (RadioTransmit 50) (calls w').
Proof.
  eexists. split; [cbv; reflexivity |].
  apply (tx_attempt_cca_never_busy Variants.cfg_cca Sample.platform 6 16
           {| qb_data := [65; 216; 7; 205; 171] ++ repeat 0 45;
              qb_datalen := 50; qb_security_level := 0;
              qb_receiver := [0; 1] |}
           Sample.N1
           (Sample.world [0; 5010; 0; 5059; 0; 5060; 0; 5063;
                          5064; 0; 5069; 0;
                          5100; 0; 5130; 0; 5151; 1; 5160; 0; 3; 1; 120; 7]));
    cbv; reflexivity.
Defined.

(** A three-byte broadcast frame sent at the TX offset. *)
Lemma tx_after_cca_broadcast_witness :
  exists w',
    tx_after_cca Sample.cfg Sample.platform 5 16 true
      {| tx_bytes := [1; 2; 3]; tx_in_queuebuf := true |} 3 3
      (Sample.world [5010; 0; 5069; 0]) = Done tt w'
    /\ mac_tx_status (statics w') = MAC_TX_OK Sample.cfg
    /\ sync w' = sync (Sample.world [5010; 0; 5069; 0]).
Proof.
  eexists. split; [cbv; reflexivity |].
  destruct (tx_after_cca_broadcast Sample.cfg Sample.platform 5 16
              {| tx_bytes := [1; 2; 3]; tx_in_queuebuf := true |} 3 3
              (Sample.world [5010; 0; 5069; 0]) _ ltac:(cbv; reflexivity))
    as (_ & Hsync & _).
  split; [reflexivity | exact Hsync].
Defined.

(** ** An ACK that is missing or not accepted *)

Section TxAckRejected.

Context {X : Type}.
Variable cfg : Config.
Variable P : Platform X.

(** X12.  What [tx_process_ack] makes of the frame read after a unicast
    transmission.  When nothing was read ([ack_len] is 0), or the frame
    does not parse as the enhanced ACK of the packet, the status is
    [MAC_TX_NOACK] and the synchronisation state is untouched.  An ACK
    from a neighbor that is not a time source never changes the
    synchronisation state.  The status is always OK or NOACK. *)
Theorem tx_process_ack_rejected (ackbuf : list Z) (ack_len seqno : Z)
  (w w' : World X) :
  let parsed := tsch_packet_parse_eack P ackbuf ack_len seqno in
  let from_time_source :=
    match current_neighbor (binding w) with
    | Some n => is_time_source n
    | None => false
    end in
  tx_process_ack cfg P ackbuf ack_len seqno w = Done tt w' ->
  (ack_len = 0 \/ (ack_len > 0 /\ fst (fst (fst parsed)) = 0) ->
   mac_tx_status (statics w') = MAC_TX_NOACK cfg /\ sync w' = sync w)
  /\ (from_time_source = false -> sync w' = sync w)
  /\ (mac_tx_status (statics w') = MAC_TX_OK cfg
      \/ mac_tx_status (statics w') = MAC_TX_NOACK cfg).
Proof.
  intros parsed from_time_source. subst from_time_source.
  unfold tx_process_ack. fold parsed.
  unfold bind at 1, get at 1. cbv zeta.
  destruct (Z.gtb_spec ack_len 0) as [Hpos | Hneg].
  - destruct (Z.eqb_spec (fst (fst (fst parsed))) 0) as [Hbad | Hgood].
    + destruct (LLSEC802154_ENABLED cfg); cbn [Z.eqb negb];
        run_monad; cbn; intros H; inversion H; cbn;
        repeat split; auto.
    + destruct (LLSEC802154_ENABLED cfg).
      * destruct (Z.eqb_spec ack_len 0) as [? | _]; [lia |]. cbn [negb].
        destruct (current_neighbor (binding w)) as [n |];
          [| unfold bind, fault; discriminate].
        destruct (fst (tsch_security_parse_frame P _ _ _ _ _ _) =? 0).
        -- run_monad. cbn. intros H; inversion H; cbn.
           repeat split; auto; lia.
        -- unfold bind at 1 2. unfold pure at 1 2. cbn [fst snd].
           destruct (Z.eqb_spec ack_len 0) as [? | _]; [lia |]. cbn [negb].
           destruct (is_time_source n) eqn:Hts.
           ++ intros H. split; [lia |]. split; [discriminate |].
              left. revert H. unfold bind, when, set_status, modify.
              destruct (tx_eack_time_correction _ _ _ _); try discriminate.
              intros H. inversion H. reflexivity.
           ++ run_monad. intros H; inversion H; cbn. repeat split; auto; lia.
      * unfold bind at 1 2. unfold pure at 1 2. cbn [fst snd].
        destruct (Z.eqb_spec ack_len 0) as [? | _]; [lia |]. cbn [negb].
        destruct (match current_neighbor (binding w) with
                  | Some n => is_time_source n
                  | None => false
                  end) eqn:Hts.
        -- intros H. split; [lia |]. split; [discriminate |].
           left. revert H. unfold bind, when, set_status, modify.
           destruct (tx_eack_time_correction _ _ _ _); try discriminate.
           intros H. inversion H. reflexivity.
        -- run_monad. intros H; inversion H; cbn. repeat split; auto; lia.
  - unfold bind at 1, pure at 1. cbn [fst snd].
    destruct (Z.eqb_spec ack_len 0) as [Hz | Hnz]; cbn [negb];
      run_monad; intros H; inversion H; cbn; repeat split; auto; lia.
Qed.

End TxAckRejected.

(** Nothing was read from the radio. *)
Lemma tx_process_ack_rejected_witness :
  exists w',
    tx_process_ack Sample.cfg Sample.platform [] 0 7 (Sample.world [])
    = Done tt w'
    /\ mac_tx_status (statics w') = MAC_TX_NOACK Sample.cfg
    /\ sync w' = sync (Sample.world []).
Proof.
  eexists. split; [cbv; reflexivity |].
  destruct (tx_process_ack_rejected Sample.cfg Sample.platform [] 0 7
              (Sample.world []) _ ltac:(cbv; reflexivity)) as (Hnoack & _).
  apply Hnoack. now left.
Defined.

(** ** The two sub-procedures of a slot keep to their side *)

Section SlotIsolation.

Context {X : Type}.
Variable cfg : Config.
Variable P : Platform X.

(** X13.  The TX slot writes neither the input ring, nor the statics of
    the RX slot, nor the lock flags, the binding of the slot, the
    globals of tsch.c, the ASN, the start of the slot or the time
    source. *)
Theorem tsch_tx_slot_leaves_rx (fuel : nat) (w w' : World X) :
  tsch_tx_slot cfg P fuel w = Done tt w' ->
  slot_frame w' = slot_frame w /\ rx_state w' = rx_state w.
Proof.
  intros Hrun. split.
  - revert Hrun. apply (frame_tsch_tx_slot cfg P (@slot_frame X)); ignored.
  - revert Hrun. apply (frame_tsch_tx_slot cfg P (@rx_state X)); ignored.
Qed.

(** X14.  The RX slot writes neither the ring of dequeued packets, nor
    any packet, nor the TX status, nor what both sub-procedures leave
    alone ([slot_frame]); and it asks nothing of the neighbor queues:
    no removal, no change of backoff. *)
Theorem tsch_rx_slot_leaves_tx (fuel : nat) (w w' : World X) :
  tsch_rx_slot cfg P fuel w = Done tt w' ->
  slot_frame w' = slot_frame w
  /\ tx_state w' = tx_state w
  /\ exists sent,
       calls w' = sent ++ calls w
       /\ forallb (fun c => negb (is_queue_call c)) sent = true.
Proof.
  intros Hrun. split; [| split].
  - revert Hrun. apply (frame_tsch_rx_slot cfg P (@slot_frame X)); ignored.
  - revert Hrun. apply (frame_tsch_rx_slot cfg P (@tx_state X)); ignored.
  - revert Hrun.
    apply (emits_tsch_rx_slot cfg P (fun c => negb (is_queue_call c)));
      intros; reflexivity.
Qed.

End SlotIsolation.

(** The unicast TX slot of the sample node, with its ACK. *)
Lemma tsch_tx_slot_leaves_rx_witness :
  let w :=
    Sample.world [0; 5010; 0; 5069; 0; 5130; 0; 5151; 1; 5160; 0;
                  3; 1; 120; 7; 1] in
  exists w',
    tsch_tx_slot Sample.cfg Sample.platform 10 w = Done tt w'
    /\ slot_frame w' = slot_frame w
    /\ rx_state w' = rx_state w.
Proof.
  intro w. eexists. split; [cbv; reflexivity |].
  apply (tsch_tx_slot_leaves_rx Sample.cfg Sample.platform 10 w).
  cbv. reflexivity.
Defined.

(** An RX slot of the sample node in which a beacon is received. *)
Lemma tsch_rx_slot_leaves_tx_witness :
  let w :=
    Sample.world [0; 5010; 0; 5037; 0; 0; 0; 5050; 1; 1; 5076; 0; 1;
                  4; 3; 0; 2; 0; 200; 5076; 1] in
  exists w',
    tsch_rx_slot Sample.cfg_jitter Sample.platform 10 w = Done tt w'
    /\ slot_frame w' = slot_frame w
    /\ tx_state w' = tx_state w.
Proof.
  intro w. eexists. split; [cbv; reflexivity |].
  destruct (tsch_rx_slot_leaves_tx Sample.cfg_jitter Sample.platform 10 w _
              ltac:(cbv; reflexivity)) as (Hframe & Htx & _).
  split; [exact Hframe | exact Htx].
Defined.

(** ** The RX slot: dropped frames *)

Section RxSlotProperties.

Context {X : Type}.
Variable cfg : Config.
Variable P : Platform X.

(** X15.  An RX slot that finds room in the input ring always leaves the
    count of frames dropped for want of room at 0; and when it found the
    count not 0, the last thing it does is to log that count with the
    message "!queue full skipped". *)
Theorem tsch_rx_slot_reports_drops (fuel : nat) (w w' : World X) :
  int16 (ringbufindex_peek_put (input_ringbuf (rings w))) <> -1 ->
  tsch_rx_slot cfg P fuel w = Done tt w' ->
  input_queue_drop (statics w') = 0
  /\ (input_queue_drop (statics w) <> 0 ->
      exists rest,
        calls w'
        = LogAdd (tsch_log_message "!queue full skipped %u"
                    [input_queue_drop (statics w)]) :: rest).
Proof.
  intros Hroom Hrun. unfold tsch_rx_slot in Hrun.
  unfold bind at 1, get at 1 in Hrun. cbv zeta in Hrun.
  destruct (Z.eqb_spec
              (int16 (ringbufindex_peek_put (input_ringbuf (rings w)))) (-1))
    as [? | _]; [contradiction |].
  revert Hrun.
  set (post := fun v' : World X =>
         input_queue_drop (statics v') = 0
         /\ (input_queue_drop (statics w) <> 0 ->
             exists rest,
               calls v'
               = LogAdd (tsch_log_message "!queue full skipped %u"
                           [input_queue_drop (statics w)]) :: rest)).
  match goal with |- ?H -> _ => change (H -> post w') end.
  refine ((_ : holds_through
                 (within (fun v : World X => input_queue_drop (statics v))
                    (input_queue_drop (statics w)) (fun _ => true) (calls w))
                 _ post) w tt w' (within_start _ _ w)).
  subst post. do 6 through_walk.
  apply through_last_get. intros v a v' [Hdrop _]. cbv beta in *.
  rewrite <- Hdrop.
  destruct (Z.eqb_spec (input_queue_drop (statics v)) 0) as [Hz | Hnz];
    cbn [negb when]; run_monad; intros H; inversion H; cbn.
  - subst v'. split; [assumption | contradiction].
  - split; [reflexivity |]. intros _. now eexists.
Qed.

(** X16.  A received frame that does not parse, or whose destination
    is neither this node nor the broadcast address, is dropped without
    trace: the input ring and the synchronisation state are as before,
    and no frame (hence no ACK) is prepared or transmitted.  The
    verdict is read in the statics the parse has written. *)
Theorem rx_received_frame_not_for_us (fuel : nat) (input_index : Z)
  (expected_rx_time rx_start_time : Z) (w w' : World X) :
  rx_received_frame cfg P fuel input_index expected_rx_time rx_start_time w
  = Done tt w' ->
  let s := statics w' in
  (frame_valid s || is_gb s)
  && (linkaddr_cmp (destination_address s) (linkaddr_node_addr P)
      || linkaddr_cmp (destination_address s) (linkaddr_null P)) = false ->
  input_ringbuf (rings w') = input_ringbuf (rings w)
  /\ sync w' = sync w
  /\ exists sent,
       calls w' = sent ++ calls w
       /\ forallb (fun c => negb (is_transmission_call c)) sent = true.
Proof.
  intros Hrun s. subst s. revert Hrun. unfold rx_received_frame.
  set (post := fun v' : World X =>
         (frame_valid (statics v') || is_gb (statics v'))
         && (linkaddr_cmp (destination_address (statics v'))
               (linkaddr_node_addr P)
             || linkaddr_cmp (destination_address (statics v'))
                  (linkaddr_null P)) = false ->
         input_ringbuf (rings v') = input_ringbuf (rings w)
         /\ sync v' = sync w
         /\ exists sent,
              calls v' = sent ++ calls w
              /\ forallb (fun c => negb (is_transmission_call c)) sent
                 = true).
  match goal with |- ?H -> _ => change (H -> post w') end.
  refine ((_ : holds_through
                 (within (fun v : World X => (input_ringbuf (rings v), sync v))
                    (input_ringbuf (rings w), sync w)
                    (fun c => negb (is_transmission_call c)) (calls w))
                 _ post) w tt w' (within_start _ _ w)).
  subst post. do 14 through_walk.
  apply through_last_get. intros v a v' [Hf (sent & Hsent & Hq)].
  cbv beta in *. inversion Hf as [[Hring Hsync]].
  destruct (frame_valid (statics v) || is_gb (statics v)) eqn:Hvalid;
    cbn [when].
  - intros Hrun.
    apply bind_done in Hrun. destruct Hrun as ([] & v1 & Hfor & Hpoll).
    destruct (linkaddr_cmp (destination_address (statics v))
                (linkaddr_node_addr P)
              || linkaddr_cmp (destination_address (statics v))
                   (linkaddr_null P)) eqn:Haddr; cbn [when] in Hfor.
    + pose proof (frame_rx_frame_for_us cfg P (@statics X)
                    ltac:(ignored) ltac:(ignored) ltac:(ignored)
                    ltac:(ignored) ltac:(ignored) ltac:(ignored)
                    _ _ _ _ _ _ _ _ Hfor) as Hstat.
      inversion Hpoll. cbn. rewrite Hstat, Hvalid, Haddr. discriminate.
    + inversion Hfor. subst v1. inversion Hpoll. cbn. intros _.
      rewrite Hring, Hsync. repeat split.
      exists (ProcessPoll :: sent). rewrite Hsent. cbn. now rewrite Hq.
  - intros Hrun _. inversion Hrun. subst v'. rewrite Hring, Hsync.
    repeat split. now exists sent.
Qed.

End RxSlotProperties.

(** Two frames had been dropped before this idle RX slot. *)
Lemma tsch_rx_slot_reports_drops_witness :
  let w :=
    with_statics (set_input_queue_drop 2)
      (Sample.world [0; 5010; 0; 5037; 0; 0; 0; 5110; 0; 0]) in
  exists w',
    tsch_rx_slot Sample.cfg Sample.platform 5 w = Done tt w'
    /\ input_queue_drop (statics w') = 0
    /\ exists rest,
         calls w'
         = LogAdd (tsch_log_message "!queue full skipped %u" [2]) :: rest.
Proof.
  intro w. eexists. split; [cbv; reflexivity |].
  destruct (tsch_rx_slot_reports_drops Sample.cfg Sample.platform 5 w _
              ltac:(cbv; discriminate) ltac:(cbv; reflexivity))
    as (Hzero & Hlog).
  split; [exact Hzero |]. apply Hlog. cbv. discriminate.
Defined.

(** A frame that the parser rejects: only the read of the radio is
    added to the commands. *)
Lemma rx_received_frame_not_for_us_witness :
  let w := Sample.world [4; 0; 0; 2; 0; 200] in
  exists w',
    rx_received_frame Sample.cfg Sample.platform 5 0 5069 5069 w
    = Done tt w'
    /\ input_ringbuf (rings w') = input_ringbuf (rings w)
    /\ sync w' = sync w.
Proof.
  intro w. eexists. split; [cbv; reflexivity |].
  destruct (rx_received_frame_not_for_us Sample.cfg Sample.platform 5 0
              5069 5069 w _ ltac:(cbv; reflexivity) ltac:(cbv; reflexivity))
    as (Hring & Hsync & _).
  split; [exact Hring | exact Hsync].
Defined.

(** ** One activation of the slot thread *)

Section ExecutorActivation.

Context {X : Type}.
Variable cfg : Config.
Variable P : Platform X.

(** X17.  One activation of the slot thread.  A node that is not
    associated does nothing at all.  An associated node, whatever the
    slot was, has left slot operation ([tsch_in_slot_operation] is
    false) when it yields, and the yield is the last thing it does. *)
Theorem tsch_slot_operation_ends_slot (fuel : nat) (w : World X) :
  (tsch_is_associated (tsch w) = false ->
   tsch_slot_operation cfg P fuel w = Done tt w)
  /\ (tsch_is_associated (tsch w) = true ->
      forall w',
        tsch_slot_operation cfg P fuel w = Done tt w' ->
        tsch_in_slot_operation (locks w') = false
        /\ exists rest, calls w' = PtYield :: rest).
Proof.
  unfold tsch_slot_operation. split; intros Hassoc.
  - unfold bind at 1, get at 1. now rewrite Hassoc.
  - intros w'. unfold bind at 1, get at 1. rewrite Hassoc. intros Hrun.
    apply bind_done in Hrun. destruct Hrun as ([] & w1 & _ & Hrun).
    apply bind_done in Hrun. destruct Hrun as ([] & w2 & _ & Hrun).
    inversion Hrun. cbn. split; [reflexivity | now eexists].
Qed.

(** X18.  While another context asks for the lock, an activation skips
    its slot: it logs "!skipped slot", then only schedules the next
    slot and yields.  Rings, statics, packets, drift, time source and
    both lock words are as before, the radio is not touched. *)
Theorem tsch_slot_operation_lock_requested (fuel : nat) (w w' : World X) :
  tsch_is_associated (tsch w) = true ->
  tsch_lock_requested (locks w) = true ->
  tsch_slot_operation cfg P fuel w = Done tt w' ->
  slot_data w' = slot_data w
  /\ lock_words w' = lock_words w
  /\ exists sent args,
       calls w'
       = sent ++ LogAdd (tsch_log_message "!skipped slot %u %u %u" args)
                 :: calls w
       /\ forallb is_scheduling_call sent = true.
Proof.
  intros Hassoc Hreq Hrun. unfold tsch_slot_operation in Hrun.
  unfold bind at 1, get at 1 in Hrun. rewrite Hassoc in Hrun.
  apply bind_done in Hrun. destruct Hrun as ([] & w1 & Hslot & Hrun).
  apply bind_done in Hrun. destruct Hrun as ([] & w2 & Hend & Hrun).
  assert (Hskip : exists args,
            w1 = with_ext
                   (effect P (LogAdd (tsch_log_message
                                        "!skipped slot %u %u %u" args))
                      (ext w))
                   (with_call (LogAdd (tsch_log_message
                                         "!skipped slot %u %u %u" args)) w)).
  { unfold slot_operation_slot in Hslot.
    unfold bind at 1, get at 1 in Hslot.
    destruct (current_link (binding w)); [rewrite Hreq in Hslot |];
      inversion Hslot; eexists; reflexivity. }
  destruct Hskip as (args & Hw1).
  pose proof (frame_slot_operation_end cfg P (@slot_data X)
                ltac:(ignored) ltac:(ignored) ltac:(ignored) ltac:(ignored)
                ltac:(ignored) ltac:(ignored) ltac:(ignored) ltac:(ignored)
                ltac:(ignored) ltac:(ignored) fuel _ _ _ Hend) as Hdata.
  pose proof (frame_slot_operation_end cfg P (@lock_words X)
                ltac:(ignored) ltac:(ignored) ltac:(ignored) ltac:(ignored)
                ltac:(ignored) ltac:(ignored) ltac:(ignored) ltac:(ignored)
                ltac:(ignored) ltac:(ignored) fuel _ _ _ Hend) as Hlock.
  destruct (emits_slot_operation_end cfg P is_scheduling_call
              ltac:(reflexivity) ltac:(reflexivity) ltac:(reflexivity)
              ltac:(reflexivity) fuel _ _ _ Hend) as (sent & Hsent & Hq).
  inversion Hrun. subst w1. cbn in *.
  split; [exact Hdata |]. split; [exact Hlock |].
  exists (PtYield :: sent), args. rewrite Hsent. cbn. now rewrite Hq.
Qed.


Lemma tsch_slot_operation_start_timer (fuel : nat) (d : Z) (w w' : World X) :
  tsch_slot_operation_start cfg P fuel d w = Done tt w' ->
  exists rest, calls w' = RtimerSet (current_slot_start (sync w')) :: rest.
Proof.
  revert d w. induction fuel as [| fuel IH]; intros d w;
    cbn [tsch_slot_operation_start]; [discriminate |].
  unfold bind at 1, get at 1. unfold bind at 1, query at 1.
  destruct (tsch_schedule_get_next_active_link P _ _ _ _)
    as [[[l d'] b] x1].
  cbn [fst snd]. do 4 (unfold bind at 1, modify at 1).
  intros Hrun.
  apply bind_done in Hrun. destruct Hrun as (s & w2 & Hs & Hrun).
  destruct s.
  - inversion Hrun. subst w2.
    pose proof (keeps_tsch_schedule_slot_operation cfg P (@sync X)
                  (fun _ _ => eq_refl) (fun _ _ => eq_refl) _ _ _ _ _ Hs)
      as Hsync.
    match type of Hs with
    | tsch_schedule_slot_operation _ _ ?r ?o ?v = _ =>
        destruct (schedule_slot_operation_done cfg P r o v)
          as (s' & w2' & Hs' & Htrue & _)
    end.
    rewrite Hs in Hs'. inversion Hs'. subst s' w2'.
    rewrite (Htrue eq_refl), Hsync. cbn. now eexists.
  - eapply IH. exact Hrun.
Qed.

(** X20.  Starting slot operation only chooses the first slot: when it
    returns, the last command armed the timer at the recorded start of
    that slot; lock words, rings, statics, the globals of tsch.c and
    the packets are untouched, and so are the drift correction, the ASN
    of the last synchronisation and the time source. *)
Theorem tsch_slot_operation_start_armed (fuel : nat) (timeslot_diff : Z)
  (w w' : World X) :
  tsch_slot_operation_start cfg P fuel timeslot_diff w = Done tt w' ->
  (exists rest, calls w' = RtimerSet (current_slot_start (sync w')) :: rest)
  /\ (locks w', rings w', statics w', tsch w', packets w')
     = (locks w, rings w, statics w, tsch w, packets w)
  /\ (drift_correction (sync w'), is_drift_correction_used (sync w'),
      last_sync_asn (sync w'), last_timesource_neighbor (sync w'))
     = (drift_correction (sync w), is_drift_correction_used (sync w),
        last_sync_asn (sync w), last_timesource_neighbor (sync w)).
Proof.
  intros Hrun. split; [| split].
  - eapply tsch_slot_operation_start_timer. exact Hrun.
  - revert Hrun.
    apply (frame_tsch_slot_operation_start cfg P
             (fun v => (locks v, rings v, statics v, tsch v, packets v)));
      ignored.
  - revert Hrun.
    apply (frame_tsch_slot_operation_start cfg P
             (fun v => (drift_correction (sync v),
                        is_drift_correction_used (sync v),
                        last_sync_asn (sync v),
                        last_timesource_neighbor (sync v))));
      ignored.
Qed.

End ExecutorActivation.

(** An activation of the sample node while the lock is requested. *)
Lemma tsch_slot_operation_ends_slot_witness :
  let w :=
    with_locks (set_tsch_lock_requested true)
      (Sample.world [2; 3; 0; 5010; 0]) in
  exists w',
    tsch_slot_operation Sample.cfg Sample.platform 3 w = Done tt w'
    /\ tsch_in_slot_operation (locks w') = false
    /\ exists rest, calls w' = PtYield :: rest.
Proof.
  intro w. eexists. split; [cbv; reflexivity |].
  destruct (tsch_slot_operation_ends_slot Sample.cfg Sample.platform 3 w)
    as (_ & Hends).
  apply Hends; cbv; reflexivity.
Defined.

(** The same activation: the slot is skipped and the next one is set
    one timeslot later. *)
Lemma tsch_slot_operation_lock_requested_witness :
  let w :=
    with_locks (set_tsch_lock_requested true)
      (Sample.world [2; 3; 0; 5010; 0]) in
  exists w',
    tsch_slot_operation Sample.cfg Sample.platform 3 w = Done tt w'
    /\ slot_data w' = slot_data w
    /\ lock_words w' = lock_words w.
Proof.
  intro w. eexists. split; [cbv; reflexivity |].
  destruct (tsch_slot_operation_lock_requested Sample.cfg Sample.platform 3
              w _ ltac:(reflexivity) ltac:(reflexivity)
              ltac:(cbv; reflexivity)) as (Hdata & Hlock & _).
  split; [exact Hdata | exact Hlock].
Defined.


(** The sample node starts three timeslots before its first link. *)
Lemma tsch_slot_operation_start_armed_witness :
  let w := Sample.world [2; 3; 5010; 0] in
  exists w',
    tsch_slot_operation_start Sample.cfg Sample.platform 3 0 w = Done tt w'
    /\ current_slot_start (sync w') = 5984
    /\ exists rest, calls w' = RtimerSet 5984 :: rest.
Proof.
  intro w. eexists. split; [cbv; reflexivity |].
  destruct (tsch_slot_operation_start_armed Sample.cfg Sample.platform 3 0
              w _ ltac:(cbv; reflexivity)) as (Harmed & _).
  split; [reflexivity | exact Harmed].
Defined.

(** ** The link of a slot *)

Section SlotLink.

Context {X : Type}.
Variable cfg : Config.
Variable P : Platform X.

(** X21.  A slot never changes the backup link, and it changes the
    current link in one way only: to the backup link, and only when the
    scheduled link had no RX option (and, as the code shows, no packet
    to send). *)
Theorem slot_operation_slot_link (fuel : nat) (w w' : World X) :
  slot_operation_slot cfg P fuel w = Done tt w' ->
  backup_link (binding w') = backup_link (binding w)
  /\ (current_link (binding w') = current_link (binding w)
      \/ exists link backup,
           current_link (binding w) = Some link
           /\ backup_link (binding w) = Some backup
           /\ has_option link (LINK_OPTION_RX cfg) = false
           /\ current_link (binding w') = Some backup).
Proof.
  unfold slot_operation_slot. unfold bind at 1, get at 1.
  destruct (current_link (binding w)) as [link |] eqn:Hlink;
    [destruct (tsch_lock_requested (locks w)) |].
  1, 3: intros H; inversion H; cbn; split; [reflexivity | now left].
  set (f := fun v : World X =>
              (current_link (binding v), backup_link (binding v))).
  set (post := fun v' : World X =>
         backup_link (binding v') = backup_link (binding w)
         /\ (current_link (binding v') = Some link
             \/ exists link0 backup,
                  Some link = Some link0
                  /\ backup_link (binding w) = Some backup
                  /\ has_option link0 (LINK_OPTION_RX cfg) = false
                  /\ current_link (binding v') = Some backup)).
  match goal with |- ?H -> _ => change (H -> post w') end.
  refine ((_ : holds_through (within f (f w) (fun _ => true) (calls w))
                 _ post) w tt w' (within_start _ _ w)).
  subst post. do 6 through_walk.
  intros v a v' [Hf _] Hrun. subst f. cbv beta in Hf.
  injection Hf as Hcur Hbak. rewrite Hlink in Hcur.
  apply bind_done in Hrun. destruct Hrun as (link' & v1 & Hswitch & Htail).
  assert (Hkeep : keeps (fun u : World X =>
                           (current_link (binding u), backup_link (binding u)))
                    (w1 <- get;;
                     when
                       match current_packet (binding w1) with
                       | Some _ => true
                       | None => has_option link' (LINK_OPTION_RX cfg)
                       end
                       (modify
                          (with_binding
                             (set_current_channel
                                (tsch_calculate_channel (tsch w1)
                                   (tsch_current_asn (sync w1))
                                   (channel_offset link'))));;
                        command P
                          (RadioSetValue (RADIO_PARAM_CHANNEL cfg)
                             (tsch_calculate_channel (tsch w1)
                                (tsch_current_asn (sync w1))
                                (channel_offset link')));;
                        tsch_radio_on cfg P
                          TSCH_RADIO_CMD_ON_START_OF_TIMESLOT;;
                        match current_packet (binding w1) with
                        | Some _ => tsch_tx_slot cfg P fuel
                        | None => tsch_rx_slot cfg P fuel
                        end))) by frame_run.
  apply Hkeep in Htail. injection Htail as Hcur' Hbak'.
  clear Hkeep.
  assert (Hstay : v1 = v ->
            backup_link (binding v') = backup_link (binding w)
            /\ (current_link (binding v') = Some link \/
                exists link0 backup,
                  Some link = Some link0
                  /\ backup_link (binding w) = Some backup
                  /\ has_option link0 (LINK_OPTION_RX cfg) = false
                  /\ current_link (binding v') = Some backup)).
  { intros ->. rewrite Hbak', Hcur', Hbak, Hcur.
    split; [reflexivity | now left]. }
  destruct (fst c2) as [p |];
    [injection Hswitch as _ Hv; apply Hstay; now symmetry |].
  destruct (backup_link (binding w)) as [backup |] eqn:Hbackup;
    [| injection Hswitch as _ Hv; apply Hstay; now symmetry].
  destruct (has_option link (LINK_OPTION_RX cfg)) eqn:Hrx;
    cbn [negb] in Hswitch;
    [injection Hswitch as _ Hv; apply Hstay; now symmetry |].
  apply bind_done in Hswitch. destruct Hswitch as ([] & v2 & Hset & Hrest).
  inversion Hset. subst v2. clear Hset.
  assert (Hkeep : keeps (fun u : World X =>
                           (current_link (binding u), backup_link (binding u)))
                    (r' <- get_packet_and_neighbor_for_link cfg P backup;;
                     modify (with_binding (set_current_neighbor (snd r')));;
                     modify (with_binding (set_current_packet (fst r')));;
                     pure backup)) by frame_run.
  apply Hkeep in Hrest. cbn in Hrest. injection Hrest as Hcur1 Hbak1.
  rewrite Hbak', Hcur', Hbak1, Hcur1, Hbak. split; [reflexivity |].
  right. exists link, backup. repeat split; assumption.
Qed.

End SlotLink.

(** The scheduled TX link has nothing to send: the slot listens on the
    backup link. *)
Lemma slot_operation_slot_link_witness :
  let w :=
    with_binding (set_backup_link (Some Sample.rx_link))
      (Sample.world [1; 0; 0; 5010; 0; 5037; 0; 0; 0; 5110; 0; 0]) in
  exists w',
    slot_operation_slot Sample.cfg Sample.platform 5 w = Done tt w'
    /\ backup_link (binding w') = Some Sample.rx_link
    /\ current_link (binding w') = Some Sample.rx_link.
Proof.
  intro w. eexists. split; [cbv; reflexivity |].
  destruct (slot_operation_slot_link Sample.cfg Sample.platform 5 w _
              ltac:(cbv; reflexivity)) as (Hbackup & _).
  split; [exact Hbackup | reflexivity].
Defined.

(** ** The lock, without contention *)

Section UncontendedLock.

Context {X : Type}.
Variable cfg : Config.
Variable P : Platform X.

Hypothesis others_leave_lock :
  forall flags x, fst (fst (fst (preempt P flags x))) = fst (fst flags).

Lemma keeps_locked_other_contexts :
  keeps (fun v : World X => tsch_locked (locks v)) (other_contexts P).
Proof.
  intros w a w' H. unfold other_contexts in H.
  pose proof (others_leave_lock
                (tsch_locked (locks w), tsch_lock_requested (locks w),
                 tsch_in_slot_operation (locks w)) (ext w)) as Hp.
  destruct (preempt P _ (ext w)) as [[[a0 b0] c0] x].
  inversion H. cbn in *. exact Hp.
Qed.

Lemma keeps_locked_wait (fuel : nat) :
  keeps (fun v : World X => tsch_locked (locks v))
    (wait_end_of_slot_operation cfg P fuel).
Proof.
  induction fuel as [| fuel IH]; cbn [wait_end_of_slot_operation].
  - apply keeps_out_of_fuel.
  - pose proof keeps_locked_other_contexts. keeps_auto.
Qed.

Lemma keeps_locked_request_and_wait (fuel : nat) :
  keeps (fun v : World X => tsch_locked (locks v))
    (get_lock_request_and_wait cfg P fuel).
Proof.
  pose proof keeps_locked_other_contexts.
  pose proof (keeps_locked_wait fuel).
  unfold get_lock_request_and_wait, RTIMER_NOW. keeps_auto.
Qed.

(** X22.  When the lock is free and the other contexts never write
    [tsch_locked] (in the source only [tsch_get_lock] and
    [tsch_release_lock] do), a call of [tsch_get_lock] that returns has
    taken the lock: it returns 1 with [tsch_locked] set and the request
    withdrawn, however long it waited for the slot to end; and
    [tsch_release_lock] then leaves both lock words clear. *)
Theorem tsch_get_lock_uncontended (fuel : nat) (w w' : World X) (r : Z) :
  tsch_locked (locks w) = false ->
  tsch_get_lock cfg P fuel w = Done r w' ->
  r = 1
  /\ tsch_locked (locks w') = true
  /\ tsch_lock_requested (locks w') = false
  /\ exists w'',
       tsch_release_lock w' = Done tt w''
       /\ lock_words w'' = (false, false).
Proof.
  intros Hfree Hrun. unfold tsch_get_lock in Hrun.
  unfold bind at 1, get at 1 in Hrun. rewrite Hfree in Hrun.
  cbn [negb] in Hrun.
  apply bind_done in Hrun. destruct Hrun as (busy_wait & w1 & Hwait & Hrun).
  apply keeps_locked_request_and_wait in Hwait. rewrite Hfree in Hwait.
  unfold get_lock_take in Hrun. unfold bind at 1, get at 1 in Hrun.
  rewrite Hwait in Hrun. cbn [negb] in Hrun. revert Hrun. run_monad.
  destruct busy_wait; intros H; inversion H; cbn;
    (repeat split; try reflexivity);
    eexists; split; reflexivity.
Qed.

End UncontendedLock.

Section LinkBinding.

Context {X : Type}.
Variable cfg : Config.
Variable P : Platform X.

(** X23.  Which queue a link is served from.  A link without the TX
    option binds nothing and asks nothing.  On an advertising-only
    link, and on an advertising link whose EB queue has a packet, the
    answer of the EB queue is the packet, the neighbor is [n_eb] and no
    other queue is asked.  In every case only queries are made: the
    world differs at most in the state of the collaborators. *)
Theorem get_packet_and_neighbor_for_link_eb_first (link : tsch_link)
  (w : World X) :
  let eb := tsch_queue_get_packet_for_nbr P (Some (n_eb P)) link (ext w) in
  (has_option link (LINK_OPTION_TX cfg) = false ->
   get_packet_and_neighbor_for_link cfg P link w = Done (None, None) w)
  /\ (has_option link (LINK_OPTION_TX cfg) = true ->
      link_kind link = LINK_TYPE_ADVERTISING_ONLY ->
      get_packet_and_neighbor_for_link cfg P link w
      = Done (fst eb, Some (n_eb P)) (with_ext (snd eb) w))
  /\ (has_option link (LINK_OPTION_TX cfg) = true ->
      link_kind link = LINK_TYPE_ADVERTISING ->
      fst eb <> None ->
      get_packet_and_neighbor_for_link cfg P link w
      = Done (fst eb, Some (n_eb P)) (with_ext (snd eb) w))
  /\ (forall r w',
        get_packet_and_neighbor_for_link cfg P link w = Done r w' ->
        own_state w' = own_state w /\ calls w' = calls w).
Proof.
  intros eb. subst eb. unfold get_packet_and_neighbor_for_link.
  split; [| split; [| split]].
  - intros ->. reflexivity.
  - intros -> ->. cbn [link_type_eqb orb negb]. run_monad.
    destruct (tsch_queue_get_packet_for_nbr P _ _ _). reflexivity.
  - intros -> -> Hp. cbn [link_type_eqb orb negb]. run_monad.
    destruct (tsch_queue_get_packet_for_nbr P _ _ _) as [[p |] x1];
      [reflexivity | now contradiction Hp].
  - intros r w' Hrun.
    assert (Hk : keeps (fun v : World X => (own_state v, calls v))
                   (get_packet_and_neighbor_for_link cfg P link))
      by (unfold get_packet_and_neighbor_for_link; keeps_auto).
    fold (get_packet_and_neighbor_for_link cfg P link) in Hrun.
    apply Hk in Hrun.
    exact (conj (f_equal fst Hrun) (f_equal snd Hrun)).
Qed.

End LinkBinding.

Lemma platform_alone_leaves_lock (flags : bool * bool * bool)
  (x : Sample.script) :
  fst (fst (fst (preempt Variants.platform_alone flags x)))
  = fst (fst flags).
Proof.
  destruct flags as [[l r] s]. cbn. destruct (Sample.pop x). reflexivity.
Qed.

(** The caller waits while the interrupt finishes its slot, then takes
    the lock. *)
Lemma tsch_get_lock_uncontended_witness :
  let w := Sample.world [0; 100; 0; 1; 130; 0] in
  exists w',
    tsch_get_lock Sample.cfg Variants.platform_alone 5 w = Done 1 w'
    /\ tsch_locked (locks w') = true
    /\ tsch_lock_requested (locks w') = false.
Proof.
  intro w. eexists. split; [cbv; reflexivity |].
  destruct (tsch_get_lock_uncontended Sample.cfg Variants.platform_alone
              platform_alone_leaves_lock 5 w _ 1 ltac:(reflexivity)
              ltac:(cbv; reflexivity)) as (_ & Hlocked & Hrequest & _).
  split; [exact Hlocked | exact Hrequest].
Defined.

(** An advertising link with an EB ready (script entry 9). *)
Lemma get_packet_and_neighbor_for_link_eb_first_witness :
  let link :=
    {| link_addr := [0; 1]; link_options := 1;
       link_kind := LINK_TYPE_ADVERTISING; channel_offset := 0 |} in
  get_packet_and_neighbor_for_link Sample.cfg Sample.platform link
    (Sample.world [9; 5])
  = Done (Some 9, Some (n_eb Sample.platform)) (Sample.world [5]).
Proof.
  intro link.
  destruct (get_packet_and_neighbor_for_link_eb_first Sample.cfg
              Sample.platform link (Sample.world [9; 5]))
    as (_ & _ & Heb & _).
  apply Heb; [reflexivity | reflexivity | discriminate].
Defined.

(** * Reception of a beacon, next wake-up, contended lock

    Three properties of the design whose proofs follow a run stage by
    stage, with the lemmas on runs and invariants above. *)

(** ** The reception of a beacon *)

Lemma array_set_length {A : Type} (l : list A) (i : nat) (v : A) :
  List.length (array_set l i v) = List.length l.
Proof.
  revert i. induction l as [| h t IH]; intros [| i]; cbn; auto.
Qed.

Lemma array_set_nth {A : Type} (l : list A) (i : nat) (v d : A) :
  (i < List.length l)%nat -> nth i (array_set l i v) d = v.
Proof.
  revert i. induction l as [| h t IH]; intros [| i]; cbn; intros H;
    try lia; auto. apply IH. lia.
Qed.

Section RxStages.

Context {X : Type}.
Variable P : Platform X.
Variable w : World X.
Variable input_index : Z.
Hypothesis index_in_array :
  (Z.to_nat input_index < List.length (input_array (rings w)))%nat.

Lemma rx_stage_start :
  rx_stage w input_index w (statics w) (current_input w input_index)
    (ext w) (calls w).
Proof. repeat split. Qed.

Lemma rx_stage_statics (h : slot_statics -> slot_statics) (v : World X)
  (st : slot_statics) (i : input_packet) (x : X) (cs : list call) :
  rx_stage w input_index v st i x cs ->
  exists v',
    modify (with_statics h) v = Done tt v'
    /\ rx_stage w input_index v' (h st) i x cs.
Proof.
  intros (Hst & Hi & Hx & Hcs & Hkept).
  eexists. split; [reflexivity |].
  repeat split; cbn; try assumption. now rewrite Hst.
Qed.

Lemma rx_stage_query {A : Type} (q : X -> A * X) (v : World X)
  (st : slot_statics) (i : input_packet) (x : X) (cs : list call) :
  rx_stage w input_index v st i x cs ->
  exists v',
    query q v = Done (fst (q x)) v'
    /\ rx_stage w input_index v' st i (snd (q x)) cs.
Proof.
  intros (Hst & Hi & Hx & Hcs & Hkept). unfold query. rewrite Hx.
  destruct (q x) as [a x']. eexists. split; [reflexivity |].
  repeat split; cbn; assumption.
Qed.

Lemma rx_stage_request {A : Type} (c : call) (q : X -> A * X) (v : World X)
  (st : slot_statics) (i : input_packet) (x : X) (cs : list call) :
  rx_stage w input_index v st i x cs ->
  exists v',
    request c q v = Done (fst (q x)) v'
    /\ rx_stage w input_index v' st i (snd (q x)) (c :: cs).
Proof.
  intros (Hst & Hi & Hx & Hcs & Hkept). unfold request.
  change (ext (with_call c v)) with (ext v). rewrite Hx.
  destruct (q x) as [a x']. eexists. split; [reflexivity |].
  repeat split; cbn; try assumption. now rewrite Hcs.
Qed.

Lemma rx_stage_command (c : call) (v : World X)
  (st : slot_statics) (i : input_packet) (x : X) (cs : list call) :
  rx_stage w input_index v st i x cs ->
  exists v',
    command P c v = Done tt v'
    /\ rx_stage w input_index v' st i (effect P c x) (c :: cs).
Proof.
  intros (Hst & Hi & Hx & Hcs & Hkept). unfold command.
  eexists. split; [reflexivity |].
  repeat split; cbn; try assumption; [now rewrite Hx | now rewrite Hcs].
Qed.

Lemma rx_stage_input (g : input_packet -> input_packet) (v : World X)
  (st : slot_statics) (i : input_packet) (x : X) (cs : list call) :
  rx_stage w input_index v st i x cs ->
  exists v',
    set_current_input input_index g v = Done tt v'
    /\ rx_stage w input_index v' st (g i) x cs.
Proof.
  intros (Hst & Hi & Hx & Hcs & Hkept).
  assert (Hlen : (Z.to_nat input_index
                  < List.length (input_array (rings v)))%nat).
  { unfold rx_kept in Hkept. injection Hkept as _ _ _ _ _ _ _ _ Hlen.
    now rewrite Hlen. }
  unfold set_current_input, modify. eexists. split; [reflexivity |].
  unfold rx_stage, rx_kept in *. unfold current_input at 1. cbn.
  rewrite array_set_nth by exact Hlen. rewrite array_set_length.
  rewrite Hi. repeat split; try assumption.
Qed.

End RxStages.

Section BeaconReception.

Context {X : Type}.
Variable cfg : Config.
Variable P : Platform X.

(** Lines 1052-1123 in the build without guard beacons: the frame
    resynchronises the node exactly when its source is a time source
    and the frame was found to be a beacon; it is committed to the
    input ring in any case. *)
Lemma rx_timesync_and_commit_run (input_index estimated_drift : Z)
  (v : World X) :
  let n := fst (tsch_queue_get_nbr P (source_address (statics v)) (ext v)) in
  let resync :=
    match n with
    | Some n' => is_time_source n' && is_eb (statics v)
    | None => false
    end in
  let since :=
    int32 (TSCH_ASN_DIFF cfg (tsch_current_asn (sync v))
             (last_sync_asn (sync v))) in
  GUARD_BEACON cfg = false ->
  exists w' log,
    rx_timesync_and_commit cfg P input_index estimated_drift v = Done tt w'
    /\ input_ringbuf (rings w') = ringbufindex_put (input_ringbuf (rings v))
    /\ (if resync then
          calls w'
          = LogAdd log :: ScheduleKeepalive
            :: TimesyncUpdate n since (- estimated_drift) :: calls v
          /\ sync w'
             = {| drift_correction := - estimated_drift;
                  is_drift_correction_used := true;
                  last_sync_asn := tsch_current_asn (sync v);
                  tsch_current_asn := tsch_current_asn (sync v);
                  current_slot_start := current_slot_start (sync v);
                  last_timesource_neighbor :=
                    last_timesource_neighbor (sync v) |}
        else calls w' = LogAdd log :: calls v /\ sync w' = sync v).
Proof.
  intros n resync since Hgb. subst n resync since.
  unfold rx_timesync_and_commit, rx_timesync, rx_resynchronise.
  rewrite Hgb. cbn [negb]. run_monad.
  destruct (tsch_queue_get_nbr P (source_address (statics v)) (ext v))
    as [[n |] x1]; cbn [fst].
  - cbn [statics with_ext].
    destruct (is_time_source n && is_eb (statics v)); cbn;
      do 2 eexists; (split; [reflexivity |]); repeat split.
  - cbn. do 2 eexists. split; [reflexivity |]. repeat split.
Qed.

(** Lines 1011-1045: whatever the ACK takes, the frame reaches the
    time synchronisation with the statics, the synchronisation state
    and the rings as they were, and no call to the timesync has been
    made yet. *)
Lemma rx_frame_for_us_run (fuel : nat) (input_index : Z)
  (expected_rx_time rx_start_time packet_duration : Z) (v w1 : World X) :
  rx_frame_for_us cfg P fuel input_index expected_rx_time rx_start_time
    packet_duration v = Done tt w1 ->
  exists u sent,
    rx_timesync_and_commit cfg P input_index
      (rx_estimated_drift cfg expected_rx_time rx_start_time) u = Done tt w1
    /\ (statics u, sync u, rings u) = (statics v, sync v, rings v)
    /\ calls u = sent ++ calls v
    /\ forallb (fun c => match c with
                         | TimesyncUpdate _ _ _ | ScheduleKeepalive => false
                         | _ => true
                         end) sent = true.
Proof.
  unfold rx_frame_for_us. unfold bind at 1, get at 1. intros Hrun.
  apply bind_done in Hrun. destruct Hrun as (d & v1 & Hnack & Hrun).
  apply bind_done in Hrun. destruct Hrun as ([] & u & Hack & Hrun).
  exists u.
  assert (Hk1 : keeps (fun v : World X => (statics v, sync v, rings v))
                  match TSCH_CALLBACK_DO_NACK P with
                  | Some callback =>
                      if truthy (fcf_ack_required (frame (statics v)))
                      then query (callback (current_link (binding v))
                                    (source_address (statics v))
                                    (destination_address (statics v)))
                      else pure 0
                  | None => pure 0
                  end) by keeps_auto.
  assert (He1 : emits (fun c => match c with
                                | TimesyncUpdate _ _ _
                                | ScheduleKeepalive => false
                                | _ => true
                                end)
                  match TSCH_CALLBACK_DO_NACK P with
                  | Some callback =>
                      if truthy (fcf_ack_required (frame (statics v)))
                      then query (callback (current_link (binding v))
                                    (source_address (statics v))
                                    (destination_address (statics v)))
                      else pure 0
                  | None => pure 0
                  end) by emits_walk.
  assert (Hk2 : keeps (fun v : World X => (statics v, sync v, rings v))
                  (rx_send_ack cfg P fuel rx_start_time packet_duration
                     (rx_estimated_drift cfg expected_rx_time rx_start_time)
                     d)) by (unfold rx_send_ack; frame_run).
  assert (He2 : emits (fun c => match c with
                                | TimesyncUpdate _ _ _
                                | ScheduleKeepalive => false
                                | _ => true
                                end)
                  (rx_send_ack cfg P fuel rx_start_time packet_duration
                     (rx_estimated_drift cfg expected_rx_time rx_start_time)
                     d)) by (unfold rx_send_ack; emits_run).
  destruct (He1 _ _ _ Hnack) as (s1 & Hs1 & Hq1).
  destruct (He2 _ _ _ Hack) as (s2 & Hs2 & Hq2).
  exists (s2 ++ s1). split; [exact Hrun |].
  split; [now rewrite (Hk2 _ _ _ Hack), (Hk1 _ _ _ Hnack) |].
  split; [now rewrite Hs2, Hs1, app_assoc |].
  now rewrite forallb_app, Hq1, Hq2.
Qed.

Ltac stage_with L :=
  let v := fresh "v" in
  let E := fresh "E" in
  let Hs := fresh "Hs" in
  destruct L as (v & E & Hs); rewrite E; clear E; cbv beta iota.

Ltac stage_simpl :=
  cbn [payload len rx_asn rssi channel
       mac_tx_status input_queue_drop is_gb is_eb frame_valid rx_header_len
       frame source_address destination_address
       set_is_gb set_is_eb set_frame_valid set_rx_header_len set_frame
       set_addresses fst snd].

Ltac statics_eq :=
  unfold set_is_gb, set_is_eb, set_frame_valid, set_rx_header_len, set_frame,
    set_addresses;
  cbn [mac_tx_status input_queue_drop is_gb is_eb frame_valid rx_header_len
       frame source_address destination_address];
  repeat match goal with
         | H : is_gb (statics _) = false |- _ => rewrite H
         end;
  reflexivity.

Ltac stage_read Hs :=
  let Hst := fresh "Hst" in
  let Hi := fresh "Hi" in
  let Hk := fresh "Hk" in
  let Hsync := fresh "Hsync" in
  let Hbind := fresh "Hbind" in
  let Htsch := fresh "Htsch" in
  pose proof Hs as (Hst & Hi & _ & _ & Hk);
  unfold rx_kept in Hk;
  injection Hk as _ Hsync Hbind Htsch _ _ _ _ _;
  match type of Hs with
  | rx_stage _ _ ?v _ _ _ _ => change (get v) with (Done v v)
  end;
  cbv beta iota;
  rewrite ?Hst, ?Hi, ?Hsync, ?Hbind, ?Htsch;
  clear Hst Hi Hsync Hbind Htsch;
  stage_simpl.

(** C7 (amended).  What [tsch_rx_slot] does with a received frame, in
    the build without guard beacons ([is_gb] is never set there), from
    the read of the radio on.  The frame is a beacon when the first
    parse succeeds with frame version IEEE802154E_2012 and frame type
    BEACON; it is valid when the second parse gives a header, the PAN
    identifier and the addresses check and, with link-layer security,
    the frame authenticates; it is for this node when its destination
    is the address of the node or the null address.
    - A frame that is not valid or not for this node is dropped: the
      input ring and the synchronisation state are as they were, and
      only logs, the read and the poll are sent.
    - A valid frame for this node is committed to the input ring.  If
      it is a beacon and [tsch_queue_get_nbr] finds its source to be a
      time source, the adaptive timesync is invoked with the slot count
      since the last sync and the negated estimated drift, then a
      keep-alive is scheduled; [last_sync_asn] becomes the current ASN
      and the drift correction the negated estimated drift.  If not,
      the synchronisation state is untouched and neither is called.
      For a frame that asks for no ACK this is shown with the run and
      its exact commands; for any frame, for every run that the wait
      for the ACK lets complete.
    The estimated drift is [RTIMER_CLOCK_DIFF(expected_rx_time,
    rx_start_time)], expected minus measured, after jitter removal: a
    reception that starts 7 ticks late gives a difference of -7 and an
    estimated drift of -7 (and the timesync receives +7), or, with
    jitter removal, [-(7 - TSCH_TIMESYNC_MEASUREMENT_ERROR)], 0 when
    that error is 7 or more; a reception 7 ticks early gives the
    opposite signs. *)
Theorem rx_beacon_from_time_source (fuel : nat) (input_index : Z)
  (expected_rx_time rx_start_time : Z) (w : World X) :
  let i := current_input w input_index in
  (* the frame read from the radio *)
  let read := radio_read P (TSCH_PACKET_MAX_LEN cfg) (ext w) in
  let length := fst (fst read) in
  let bytes := overwrite (snd (fst read)) (payload i) in
  (* the beacon test, lines 941-944 *)
  let parsed := frame802154_parse P bytes length (frame (statics w)) in
  let beacon :=
    truthy (u8 (fst parsed))
    && (fcf_frame_version (snd parsed) =? FRAME802154_IEEE802154E_2012 cfg)
    && (fcf_frame_type (snd parsed) =? FRAME802154_BEACONFRAME cfg) in
  (* the validity test, lines 953-956 *)
  let checked := frame802154_parse P bytes length (snd parsed) in
  let f := snd checked in
  let header_ok :=
    (fst checked >? 0) && truthy (frame802154_check_dest_panid P f) in
  let a :=
    frame802154_extract_linkaddr P f (source_address (statics w))
      (destination_address (statics w)) in
  let source := if header_ok then snd (fst a) else source_address (statics w) in
  let destination :=
    if header_ok then snd a else destination_address (statics w) in
  (* authentication, lines 974-992 *)
  let authentic :=
    truthy (fst (tsch_security_parse_frame P bytes (fst checked)
                   (length - fst checked - tsch_security_mic_len P f) f
                   source (tsch_current_asn (sync w)))) in
  let valid :=
    header_ok && truthy (fst (fst a))
    && (negb (LLSEC802154_ENABLED cfg) || authentic) in
  (* the destination test, lines 996-997 *)
  let for_us :=
    linkaddr_cmp destination (linkaddr_node_addr P)
    || linkaddr_cmp destination (linkaddr_null P) in
  (* the collaborators when line 1053 looks the source up *)
  let x_rssi :=
    snd (radio_get_value P (RADIO_PARAM_LAST_RSSI cfg) (snd read)) in
  let x_log :=
    if beacon
    then effect P (LogAdd (tsch_log_message "Eh beacon: %d" [1])) x_rssi
    else x_rssi in
  let stamp :=
    radio_get_object P (RADIO_PARAM_LAST_PACKET_TIMESTAMP cfg) rx_start_time
      x_log in
  let rx_start :=
    if TSCH_RESYNC_WITH_SFD_TIMESTAMPS cfg then fst stamp
    else rx_start_time in
  let x := if TSCH_RESYNC_WITH_SFD_TIMESTAMPS cfg then snd stamp else x_log in
  let n := fst (tsch_queue_get_nbr P source x) in
  let from_time_source :=
    match n with
    | Some n' => is_time_source n'
    | None => false
    end in
  let estimated_drift := rx_estimated_drift cfg expected_rx_time rx_start in
  let since :=
    int32 (TSCH_ASN_DIFF cfg (tsch_current_asn (sync w))
             (last_sync_asn (sync w))) in
  GUARD_BEACON cfg = false ->
  is_gb (statics w) = false ->
  0 <= input_index < Z.of_nat (List.length (input_array (rings w))) ->
  (* a frame that is not valid or not for this node *)
  (valid && for_us = false ->
   exists w',
     rx_received_frame cfg P fuel input_index expected_rx_time rx_start_time w
     = Done tt w'
     /\ input_ringbuf (rings w') = input_ringbuf (rings w)
     /\ sync w' = sync w
     /\ exists sent,
          calls w' = sent ++ calls w
          /\ forallb (fun c =>
                        match c with
                        | LogAdd _ | RadioRead _ | ProcessPoll => true
                        | _ => false
                        end) sent = true)
  (* a valid frame for this node that asks for no ACK *)
  /\ (valid && for_us = true ->
      fcf_ack_required f = 0 ->
      exists w' log,
        rx_received_frame cfg P fuel input_index expected_rx_time
          rx_start_time w = Done tt w'
        /\ input_ringbuf (rings w')
           = ringbufindex_put (input_ringbuf (rings w))
        /\ if beacon && from_time_source then
             calls w'
             = ProcessPoll :: LogAdd log :: ScheduleKeepalive
               :: TimesyncUpdate n since (- estimated_drift)
               :: LogAdd (tsch_log_message "Eh beacon: %d" [1])
               :: RadioRead (TSCH_PACKET_MAX_LEN cfg) :: calls w
             /\ last_sync_asn (sync w') = tsch_current_asn (sync w)
             /\ drift_correction (sync w') = - estimated_drift
             /\ is_drift_correction_used (sync w') = true
             /\ tsch_current_asn (sync w') = tsch_current_asn (sync w)
           else
             calls w'
             = ProcessPoll :: LogAdd log
               :: (if beacon
                   then [LogAdd (tsch_log_message "Eh beacon: %d" [1])]
                   else [])
                  ++ RadioRead (TSCH_PACKET_MAX_LEN cfg) :: calls w
             /\ sync w' = sync w)
  (* a valid frame for this node, with or without ACK, from a source
     that the neighbor table knows as [nbr] *)
  /\ (valid && for_us = true ->
      forall w',
        rx_received_frame cfg P fuel input_index expected_rx_time
          rx_start_time w = Done tt w' ->
        input_ringbuf (rings w') = ringbufindex_put (input_ringbuf (rings w))
        /\ forall nbr,
             (forall x0, fst (tsch_queue_get_nbr P source x0) = nbr) ->
             if beacon && match nbr with
                          | Some n' => is_time_source n'
                          | None => false
                          end
             then
               In (TimesyncUpdate nbr since (- estimated_drift)) (calls w')
               /\ In ScheduleKeepalive (calls w')
               /\ last_sync_asn (sync w') = tsch_current_asn (sync w)
               /\ drift_correction (sync w') = - estimated_drift
               /\ is_drift_correction_used (sync w') = true
               /\ tsch_current_asn (sync w') = tsch_current_asn (sync w)
             else
               sync w' = sync w
               /\ exists sent,
                    calls w' = sent ++ calls w
                    /\ forallb (fun c =>
                                  match c with
                                  | TimesyncUpdate _ _ _
                                  | ScheduleKeepalive => false
                                  | _ => true
                                  end) sent = true)
  (* the estimated drift of a reception 7 ticks late or early *)
  /\ (forall d,
        Z.abs d = 7 ->
        RTIMER_CLOCK_DIFF cfg expected_rx_time rx_start = d ->
        estimated_drift
        = if TSCH_TIMESYNC_REMOVE_JITTER cfg
          then if 7 <=? TSCH_TIMESYNC_MEASUREMENT_ERROR cfg then 0
               else d - Z.sgn d * TSCH_TIMESYNC_MEASUREMENT_ERROR cfg
          else d).
Proof.
  intros i read length bytes parsed beacon checked f header_ok a source
    destination authentic valid for_us x_rssi x_log stamp rx_start x n
    from_time_source estimated_drift since Hgb Hisgb Hrange.
  assert (Hidx : (Z.to_nat input_index
                  < List.length (input_array (rings w)))%nat) by lia.
  (* up to the tests of lines 995-997 *)
  assert (Hparsed :
            exists v i' x' logs,
              rx_received_frame cfg P fuel input_index expected_rx_time
                rx_start_time w
              = when valid
                  (when for_us
                     (rx_frame_for_us cfg P fuel input_index expected_rx_time
                        rx_start (rt cfg (TSCH_PACKET_DURATION cfg length)));;
                   command P ProcessPoll) v
              /\ rx_stage w input_index v
                   {| mac_tx_status := mac_tx_status (statics w);
                      input_queue_drop := input_queue_drop (statics w);
                      is_gb := false;
                      is_eb := beacon;
                      frame_valid := valid;
                      rx_header_len := fst checked;
                      frame := f;
                      source_address := source;
                      destination_address := destination |}
                   i' x'
                   (logs
                    ++ (if beacon
                        then [LogAdd (tsch_log_message "Eh beacon: %d" [1])]
                        else [])
                       ++ RadioRead (TSCH_PACKET_MAX_LEN cfg) :: calls w)
              /\ (valid = true -> x' = x /\ logs = [])
              /\ forallb (fun c => match c with
                                   | LogAdd _ | RadioRead _
                                   | ProcessPoll => true
                                   | _ => false
                                   end) logs = true).
  {    pose proof (rx_stage_start w input_index) as Hs.
  unfold rx_received_frame, read_into_current_input, set_current_input_len,
    TSCH_LOG_ADD.
  rewrite Hgb. unfold when, bind, pure.
  (* Read packet *)
  stage_with (rx_stage_request w input_index
                (RadioRead (TSCH_PACKET_MAX_LEN cfg))
                (radio_read P (TSCH_PACKET_MAX_LEN cfg)) _ _ _ _ _ Hs).
  fold read in Hs0 |- *.
  stage_with (rx_stage_input w input_index Hidx
                (fun i0 : input_packet =>
                   {| payload := overwrite (snd (fst read)) (payload i0);
                      len := len i0; rx_asn := rx_asn i0;
                      rssi := rssi i0; channel := channel i0 |})
                _ _ _ _ _ Hs0).
  fold length.
  stage_with (rx_stage_input w input_index Hidx
                (fun i0 : input_packet =>
                   {| payload := payload i0; len := length;
                      rx_asn := rx_asn i0; rssi := rssi i0;
                      channel := channel i0 |})
                _ _ _ _ _ Hs1).
  cbn [payload len rx_asn rssi channel] in Hs2. fold i bytes in Hs2.
  stage_read Hs2.
  rewrite Hisgb. cbn [negb]. fold parsed. fold beacon.
  stage_with (rx_stage_statics w input_index (set_frame (snd parsed))
                _ _ _ _ _ Hs2).
  stage_with (rx_stage_statics w input_index (set_is_eb beacon)
                _ _ _ _ _ Hs3).
  stage_with (rx_stage_query w input_index
                (radio_get_value P (RADIO_PARAM_LAST_RSSI cfg))
                _ _ _ _ _ Hs4).
  fold x_rssi in Hs5.
  stage_read Hs5.
  rewrite Hisgb. cbn [negb]. fold checked. fold f. fold header_ok. fold a.
  match goal with
  | |- context [set_current_input input_index ?g ?v] =>
      stage_with (rx_stage_input w input_index Hidx g _ _ _ _ _ Hs5)
  end.
  stage_simpl.
  stage_with (rx_stage_statics w input_index
                (set_rx_header_len (fst checked)) _ _ _ _ _ Hs6).
  stage_with (rx_stage_statics w input_index (set_frame f) _ _ _ _ _ Hs7).
  cbn [payload len rx_asn rssi channel] in Hs8.
  match type of Hs8 with
  | rx_stage _ _ ?v _ _ _ _ =>
      match goal with
      | |- context [?m v] =>
          match m with
          | (if header_ok then _ else _) => idtac
          end;
      assert (Hc : exists v',
                m v = Done tt v'
                /\ rx_stage w input_index v'
                     {| mac_tx_status := mac_tx_status (statics w);
                        input_queue_drop := input_queue_drop (statics w);
                        is_gb := false;
                        is_eb := beacon;
                        frame_valid := header_ok && truthy (fst (fst a));
                        rx_header_len := fst checked;
                        frame := f;
                        source_address := source;
                        destination_address := destination |}
                     {| payload := bytes; len := length;
                        rx_asn := tsch_current_asn (sync w);
                        rssi := int16 (fst (radio_get_value P
                                              (RADIO_PARAM_LAST_RSSI cfg)
                                              (snd read)));
                        channel := current_channel (binding w) |}
                     x_rssi (RadioRead (TSCH_PACKET_MAX_LEN cfg) :: calls w))
      end
  end.
  { subst source destination. destruct header_ok eqn:Hh.
    - stage_with (rx_stage_statics w input_index
                    (set_addresses (snd (fst a)) (snd a)) _ _ _ _ _ Hs8).
      stage_with (rx_stage_statics w input_index
                    (set_frame_valid (truthy (fst (fst a)))) _ _ _ _ _ Hs9).
      eexists. split; [reflexivity |].
      destruct Hs10 as (Hst & Hrest). split; [| exact Hrest].
      rewrite Hst. statics_eq.
    - stage_with (rx_stage_statics w input_index
                    (set_frame_valid false) _ _ _ _ _ Hs8).
      eexists. split; [reflexivity |].
      destruct Hs9 as (Hst & Hrest). split; [| exact Hrest].
      rewrite Hst. statics_eq. }
  stage_with Hc.
  stage_read Hs9.
  (* line 959: the log of a beacon *)
  match type of Hs9 with
  | rx_stage _ _ ?v ?st ?i0 _ ?cs =>
      match goal with
      | |- context [?m v] =>
          match m with
          | (if beacon then _ else _) => idtac
          end;
          assert (Hc : exists v',
                    m v = Done tt v'
                    /\ rx_stage w input_index v' st i0 x_log
                         ((if beacon
                           then [LogAdd (tsch_log_message "Eh beacon: %d"
                                           [1])]
                           else []) ++ cs))
      end
  end.
  { subst x_log. destruct beacon.
    - stage_with (rx_stage_command P w input_index
                    (LogAdd (tsch_log_message "Eh beacon: %d"
                               [of_bool true])) _ _ _ _ _ Hs9).
      eexists. split; [reflexivity | exact Hs10].
    - eexists. split; [reflexivity | exact Hs9]. }
  clear Hs9. stage_with Hc.
  (* line 968: the timestamp of the radio *)
  match type of Hs9 with
  | rx_stage _ _ ?v ?st ?i0 _ ?cs =>
      match goal with
      | |- context [?m v] =>
          match m with
          | (if TSCH_RESYNC_WITH_SFD_TIMESTAMPS cfg then _ else _) => idtac
          end;
          assert (Hc : exists v',
                    m v = Done rx_start v'
                    /\ rx_stage w input_index v' st i0 x cs)
      end
  end.
  { subst rx_start x stamp.
    destruct (TSCH_RESYNC_WITH_SFD_TIMESTAMPS cfg).
    - stage_with (rx_stage_query w input_index
                    (radio_get_object P
                       (RADIO_PARAM_LAST_PACKET_TIMESTAMP cfg) rx_start_time)
                    _ _ _ _ _ Hs9).
      eexists. split; [reflexivity | exact Hs10].
    - eexists. split; [reflexivity | exact Hs9]. }
  clear Hs9. stage_with Hc.
  stage_read Hs9.
  fold authentic.
  (* lines 974-992: authentication *)
  match type of Hs9 with
  | rx_stage _ _ ?v _ _ _ ?cs =>
      match goal with
      | |- context [?m v] =>
          match m with
          | (if LLSEC802154_ENABLED cfg then _ else _) => idtac
          end;
          assert (Hc : exists v' i' x' logs,
                    m v = Done tt v'
                    /\ rx_stage w input_index v'
                         {| mac_tx_status := mac_tx_status (statics w);
                            input_queue_drop := input_queue_drop (statics w);
                            is_gb := false;
                            is_eb := beacon;
                            frame_valid := valid;
                            rx_header_len := fst checked;
                            frame := f;
                            source_address := source;
                            destination_address := destination |}
                         i' x' (logs ++ cs)
                    /\ (valid = true -> x' = x /\ logs = [])
                    /\ forallb (fun c => match c with
                                         | LogAdd _ | RadioRead _
                                         | ProcessPoll => true
                                         | _ => false
                                         end) logs = true)
      end
  end.
  { subst valid. destruct (LLSEC802154_ENABLED cfg);
      [destruct (header_ok && truthy (fst (fst a))) eqn:Hvalid;
       [destruct authentic |] |]; cbn [negb orb andb].
    - match goal with
      | |- context [set_current_input input_index ?g _] =>
          stage_with (rx_stage_input w input_index Hidx g _ _ _ _ _ Hs9)
      end.
      exists v11. do 2 eexists. exists []. split; [reflexivity |].
      split; [| split; [now split | reflexivity]].
      destruct Hs10 as (Hst & Hrest). split; [| exact Hrest].
      rewrite Hst. reflexivity.
    - match goal with
      | |- context [command P ?c _] =>
          stage_with (rx_stage_command P w input_index c _ _ _ _ _ Hs9)
      end.
      stage_with (rx_stage_statics w input_index (set_frame_valid false)
                    _ _ _ _ _ Hs10).
      exists v12. do 2 eexists.
      exists [LogAdd (tsch_log_message "!failed to authenticate frame %u"
                        [length])].
      split; [reflexivity |].
      split; [| split; [discriminate | reflexivity]].
      destruct Hs11 as (Hst & Hrest). split; [| exact Hrest].
      rewrite Hst. reflexivity.
    - match goal with
      | |- context [command P ?c _] =>
          stage_with (rx_stage_command P w input_index c _ _ _ _ _ Hs9)
      end.
      stage_with (rx_stage_statics w input_index (set_frame_valid false)
                    _ _ _ _ _ Hs10).
      exists v12. do 2 eexists.
      exists [LogAdd (tsch_log_message "!failed to parse frame %u %u"
                        [fst checked; length])].
      split; [reflexivity |].
      split; [| split; [discriminate | reflexivity]].
      destruct Hs11 as (Hst & Hrest). split; [| exact Hrest].
      rewrite Hst. reflexivity.
    - exists v10. do 2 eexists. exists []. split; [reflexivity |].
      split; [| split; [now split | reflexivity]].
      destruct Hs9 as (Hst & Hrest). split; [| exact Hrest].
      rewrite Hst. now rewrite andb_true_r. }
  clear Hs9.
  destruct Hc as (v11 & i' & x' & logs & E & Hs9 & Hvalid & Hlogs).
  rewrite E. clear E. cbv beta iota.
  stage_read Hs9. rewrite orb_false_r. fold for_us.
    exists v11, i', x', logs. split; [reflexivity |].
    split; [exact Hs9 |]. split; assumption. }
  destruct Hparsed as (v & i' & x' & logs & Hrun & Hs & Hvalid & Hlogs).
  rewrite Hrun. clear Hrun.
  destruct Hs as (Hst & _ & Hx & Hcs & Hk).
  unfold rx_kept in Hk.
  injection Hk as _ Hsync _ _ _ Hring _ _ _.
  split; [| split; [| split]].
  - (* dropped *)
    intros Hdrop. destruct valid eqn:Hv; cbn [andb] in Hdrop.
    + rewrite Hdrop. unfold when, bind, pure, command.
      eexists. split; [reflexivity |].
      cbn [rings sync calls with_ext with_call].
      split; [exact Hring |]. split; [exact Hsync |].
      destruct (Hvalid eq_refl) as [_ ->]. rewrite Hcs.
      exists (ProcessPoll
              :: (if beacon
                  then [LogAdd (tsch_log_message "Eh beacon: %d" [1])]
                  else [])
                 ++ [RadioRead (TSCH_PACKET_MAX_LEN cfg)]).
      destruct beacon; split; reflexivity.
    + unfold when, pure. eexists. split; [reflexivity |].
      split; [exact Hring |]. split; [exact Hsync |]. rewrite Hcs.
      exists (logs
              ++ (if beacon
                  then [LogAdd (tsch_log_message "Eh beacon: %d" [1])]
                  else [])
                 ++ [RadioRead (TSCH_PACKET_MAX_LEN cfg)]).
      split; [destruct beacon; cbn [app]; now rewrite <- app_assoc |].
      rewrite forallb_app, Hlogs. destruct beacon; reflexivity.
  - (* no ACK asked *)
    intros Hfor Hack. apply andb_prop in Hfor. destruct Hfor as [Hv Hfor].
    destruct (Hvalid Hv) as [-> ->]. cbn [app] in Hcs.
    rewrite Hv, Hfor. unfold when, bind.
    rewrite rx_frame_for_us_no_ack by (rewrite Hst; exact Hack).
    fold estimated_drift.
    destruct (rx_timesync_and_commit_run input_index estimated_drift v Hgb)
      as (w1 & log & E & Hput & Hcase).
    rewrite E. unfold command. eexists. exists log.
    split; [reflexivity |].
    cbn [rings sync calls with_ext with_call].
    split; [now rewrite Hput, Hring |].
    rewrite Hst, Hx, Hsync, Hcs in Hcase.
    cbn [source_address is_eb] in Hcase. fold n since in Hcase.
    subst from_time_source.
    destruct n as [n' |];
      [destruct (is_time_source n') |]; destruct beacon;
      cbn [andb app] in *; destruct Hcase as [Hcalls Hsy];
      rewrite Hcalls, Hsy; repeat split.
  - (* with or without ACK *)
    intros Hfor w' Hrun. apply andb_prop in Hfor. destruct Hfor as [Hv Hfor].
    destruct (Hvalid Hv) as [-> ->]. cbn [app] in Hcs.
    rewrite Hv, Hfor in Hrun. unfold when in Hrun.
    apply bind_done in Hrun. destruct Hrun as ([] & w1 & Hframe & Hpoll).
    apply rx_frame_for_us_run in Hframe.
    destruct Hframe as (u & sent & Hcommit & Hkept & Hsent & Hq).
    injection Hkept as Hust Husync Hurings.
    fold estimated_drift in Hcommit.
    destruct (rx_timesync_and_commit_run input_index estimated_drift u Hgb)
      as (w1' & log & E & Hput & Hcase).
    rewrite Hcommit in E. injection E as <-.
    unfold command in Hpoll. injection Hpoll as <-.
    cbn [rings sync calls with_ext with_call].
    split; [now rewrite Hput, Hurings, Hring |].
    intros nbr Hnbr.
    rewrite Hust, Husync, Hst, Hsync, Hsent, Hcs in Hcase.
    cbn [source_address is_eb] in Hcase. rewrite Hnbr in Hcase.
    fold since in Hcase.
    replace (match nbr with
             | Some n' => is_time_source n' && beacon
             | None => false
             end)
      with (beacon && match nbr with
                      | Some n' => is_time_source n'
                      | None => false
                      end) in Hcase
      by (destruct nbr; [apply andb_comm | apply andb_false_r]).
    destruct (beacon && match nbr with
                        | Some n' => is_time_source n'
                        | None => false
                        end);
      destruct Hcase as [Hcalls Hsy]; rewrite Hcalls, Hsy.
    + cbn [last_sync_asn drift_correction is_drift_correction_used
           tsch_current_asn In]. repeat split; auto 6.
    + split; [reflexivity |].
      exists (ProcessPoll :: LogAdd log
              :: sent
                 ++ (if beacon
                     then [LogAdd (tsch_log_message "Eh beacon: %d" [1])]
                     else [])
                    ++ [RadioRead (TSCH_PACKET_MAX_LEN cfg)]).
      split.
      * cbn [app]. rewrite <- !app_assoc. reflexivity.
      * cbn [forallb andb]. rewrite forallb_app, Hq.
        destruct beacon; reflexivity.
  - intros d Habs Hdiff. subst estimated_drift.
    unfold rx_estimated_drift. rewrite Hdiff.
    assert (Hd : d = 7 \/ d = -7) by lia.
    destruct (TSCH_TIMESYNC_REMOVE_JITTER cfg);
      destruct Hd as [-> | ->]; try reflexivity.
    + change (Z.abs (int32 7)) with 7.
      destruct (7 <=? TSCH_TIMESYNC_MEASUREMENT_ERROR cfg);
        [reflexivity |].
      change (int32 7) with 7. change (7 >? 0) with true.
      change (Z.sgn 7) with 1. cbv iota. lia.
    + change (Z.abs (int32 (-7))) with 7.
      destruct (7 <=? TSCH_TIMESYNC_MEASUREMENT_ERROR cfg);
        [reflexivity |].
      change (int32 (-7)) with (-7). change (-7 >? 0) with false.
      change (Z.sgn (-7)) with (-1). cbv iota. lia.
Qed.


End BeaconReception.

(** A beacon (frame version 2012, type BEACON, no ACK asked) from the
    time source [N1], addressed to everybody, whose reception started
    at tick 5076, 7 ticks after the expected 5069: the estimated drift
    is -7, the adaptive timesync receives +7 with the 10 slots since
    the last synchronisation, and the frame is committed. *)
Lemma rx_beacon_from_time_source_witness :
  let w := Sample.world [4; 3; 0; 2; 0; 200; 1] in
  rx_estimated_drift Sample.cfg 5069 5076 = -7
  /\ exists w' log,
       rx_received_frame Sample.cfg Sample.platform 5 0 5069 5076 w
       = Done tt w'
       /\ calls w'
          = [ProcessPoll; LogAdd log; ScheduleKeepalive;
             TimesyncUpdate (Some Sample.N1) 10 7;
             LogAdd (tsch_log_message "Eh beacon: %d" [1]); RadioRead 127]
       /\ last_sync_asn (sync w') = 1000
       /\ drift_correction (sync w') = 7
       /\ input_ringbuf (rings w')
          = {| mask := 3; put_ptr := 1; get_ptr := 0 |}.
Proof.
  intro w. split; [reflexivity |].
  destruct (rx_beacon_from_time_source Sample.cfg Sample.platform 5 0
              5069 5076 w eq_refl eq_refl ltac:(cbn; lia))
    as (_ & Hno_ack & _).
  destruct (Hno_ack eq_refl eq_refl)
    as (w' & log & Hrun & Hring & Hcalls & Hsync & Hdrift & _).
  exists w', log. split; [exact Hrun |]. split; [exact Hcalls |].
  split; [exact Hsync |]. split; [exact Hdrift | exact Hring].
Defined.

(** C7, the claim as stated fails.  Scenario 4 of the design: a beacon
    (frame version 2012, type BEACON) from the time source [N1] whose
    reception starts at tick 5076, 7 ticks after the expected 5069.
    - The estimated drift is the expected time minus the time of
      arrival: -7, and [tsch_timesync_update] receives +7, not +7 and
      -7.
    - With jitter removal (measurement error 1 tick) the estimated drift
      is -6 and [tsch_timesync_update] receives +6.
    - In the guard-beacon build the same beacon is committed to the
      input ring but does not synchronise: no [TimesyncUpdate], and
      [last_sync_asn] stays at 990. *)
Lemma tsch_rx_slot_beacon_drift :
  RTIMER_CLOCK_DIFF Sample.cfg 5076 (rt Sample.cfg (5000 + 69)) = 7
  /\ rx_estimated_drift Sample.cfg 5069 5076 = -7
  /\ (exists w',
        tsch_rx_slot Sample.cfg Sample.platform 10
          (Sample.world [0; 5010; 0; 5037; 0; 0; 0; 5050; 1; 1; 5076; 0; 1;
                         4; 3; 0; 2; 0; 200; 1]) = Done tt w'
        /\ is_eb (statics w') = true
        /\ In (TimesyncUpdate (Some Sample.N1) 10 7) (calls w')
        /\ ~ In (TimesyncUpdate (Some Sample.N1) 10 (-7)) (calls w')
        /\ drift_correction (sync w') = 7
        /\ last_sync_asn (sync w') = 1000)
  /\ rx_estimated_drift Sample.cfg_jitter 5069 5076 = -6
  /\ (exists w',
        tsch_rx_slot Sample.cfg_jitter Sample.platform 10
          (Sample.world [0; 5010; 0; 5037; 0; 0; 0; 5050; 1; 1; 5076; 0; 1;
                         4; 3; 0; 2; 0; 200; 5076; 1]) = Done tt w'
        /\ is_eb (statics w') = true
        /\ In (TimesyncUpdate (Some Sample.N1) 10 6) (calls w')
        /\ ~ In (TimesyncUpdate (Some Sample.N1) 10 (-7)) (calls w')
        /\ drift_correction (sync w') = 6
        /\ last_sync_asn (sync w') = 1000)
  /\ (exists w',
        tsch_rx_slot Sample.cfg_guard_beacon Sample.platform 10
          (Sample.world [0; 5010; 0; 5037; 0; 0; 0; 5050; 1; 1; 5076; 0; 1;
                         4; 3; 0; 2; 0; 200; 1]) = Done tt w'
        /\ is_eb (statics w') = true
        /\ input_ringbuf (rings w')
           = {| mask := 3; put_ptr := 1; get_ptr := 0 |}
        /\ (forall n since drift,
              ~ In (TimesyncUpdate n since drift) (calls w'))
        /\ last_sync_asn (sync w') = 990).
Proof.
  split; [reflexivity | split; [reflexivity | split; [| split; [| split]]]].
  - eexists. split; [cbv; reflexivity |].
    repeat split; try reflexivity.
    + cbv. auto 20.
    + cbv. intuition discriminate.
  - reflexivity.
  - eexists. split; [cbv; reflexivity |].
    repeat split; try reflexivity.
    + cbv. auto 20.
    + cbv. intuition discriminate.
  - eexists. split; [cbv; reflexivity |].
    repeat split; try reflexivity.
    cbv. intuition discriminate.
Qed.

(** ** The end of a slot: leaving the network or the next wake-up *)

Section NextWakeUp.

Context {X : Type}.
Variable cfg : Config.
Variable P : Platform X.





End NextWakeUp.


(** ** The lock under contention *)

Section LockUnderContention.

Context {X : Type}.
Variable cfg : Config.
Variable P : Platform X.

Section PeersUseGetLock.

(** The other contexts write the lock words only as [tsch_get_lock] and
    [tsch_release_lock] do: line 203 raises the request only where the
    lock is free, lines 218-219 take the lock and withdraw the request
    together.  So they never bring about a held lock with the request
    raised. *)
Hypothesis peers_use_get_lock :
  forall flags x,
    fst (fst (fst (preempt P flags x))) = true ->
    snd (fst (fst (preempt P flags x))) = true ->
    fst (fst flags) = true /\ snd (fst flags) = true.





End PeersUseGetLock.


End LockUnderContention.



